(** * plxread: a shallow embedding of the PLX sample reader

    The program under study is [plxread.cpp]: it opens a Plexon PLX file,
    overlays the file header and prints its banner, overlays the three
    channel-header tables, and then runs four forward scans over the data
    blocks (spike timestamps, spike waveforms, event timestamps,
    continuous A/D data), each behind its heading.

    The embedding keeps the C data as the program has it: [short], [int]
    and [long] are integers with their wrap-around written out, the file is
    a list of bytes with a cursor and an end-of-file flag, [buf] is the
    512 bytes of [short buf[256]], every [printf] of a scan is one
    constructor of [line], every [printf] of the banner one of
    [banner_line], and what [main] prints is a list of [printout]. *)

From Stdlib Require Import ZArith List Lia Bool.
From Stdlib.Strings Require Import Byte.
From Stdlib Require Import Floats.
From Equations Require Import Equations.
From Equations.Prop Require Import Logic.
Import ListNotations.
Local Open Scope Z_scope.

(** ** Machine integers *)

Module CInt.

(** The value of [x] kept in an unsigned object of [w] bits. *)
Definition to_unsigned (w x : Z) : Z := x mod 2 ^ w.

(** The value of [x] kept in a two's complement object of [w] bits. *)
Definition to_signed (w x : Z) : Z :=
  let u := x mod 2 ^ w in
  if u <? 2 ^ (w - 1) then u else u - 2 ^ w.

(** [short] is 16 bits; [int] and [long] are 32 bits for the compiler
    the program targets ([windows.h]); [size_t] is 32 bits unsigned. *)
Definition short (x : Z) : Z := to_signed 16 x.
Definition int (x : Z) : Z := to_signed 32 x.
Definition size_t (x : Z) : Z := to_unsigned 32 x.

Definition INT_MAX : Z := 2147483647.
Definition INT_MIN : Z := -2147483648.

Definition in_int (x : Z) : Prop := INT_MIN <= x <= INT_MAX.
Definition in_short (x : Z) : Prop := -32768 <= x <= 32767.

(** [a / b] on [int]: the quotient truncated toward zero. *)
Definition div (a b : Z) : Z := int (Z.quot a b).

(** [(double) x] for an integer [x] of at most 32 bits: exact. *)
Definition to_double (x : Z) : float :=
  if x <? 0 then PrimFloat.opp (PrimFloat.of_uint63 (Uint63.of_Z (- x)))
  else PrimFloat.of_uint63 (Uint63.of_Z x).

End CInt.

(** ** Bytes, little-endian fields *)

Definition byte_val (b : byte) : Z := Z.of_N (Byte.to_N b).

Fixpoint le_unsigned (bs : list byte) : Z :=
  match bs with
  | [] => 0
  | b :: rest => byte_val b + 256 * le_unsigned rest
  end.

(** The [n] bytes at offset [off] of [bs]. *)
Definition field (off n : nat) (bs : list byte) : list byte :=
  firstn n (skipn off bs).

Definition short_at (off : nat) (bs : list byte) : Z :=
  CInt.short (le_unsigned (field off 2 bs)).

Definition long_at (off : nat) (bs : list byte) : Z :=
  CInt.int (le_unsigned (field off 4 bs)).

(** ** The C stream [FILE* fp] *)

Record FILE : Type := mkFILE
  { contents : list byte;   (* the bytes of test1.plx *)
    position : nat;         (* the file position indicator *)
    eof_flag : bool }.      (* the end-of-file indicator *)

Definition remaining (fp : FILE) : list byte :=
  skipn (position fp) (contents fp).

Definition feof (fp : FILE) : bool := eof_flag fp.

(** [fread(ptr, size, 1, fp)] for a [size_t] value [size]: the bytes
    transferred, the number of whole items read (0 or 1) and the stream
    afterwards.  A short read transfers what is left and sets the
    end-of-file indicator; an item of size 0 reads nothing and returns 0. *)
Definition fread (size : Z) (fp : FILE) : list byte * Z * FILE :=
  let avail := remaining fp in
  let n := if size <? Z.of_nat (length avail) then Z.to_nat size
           else length avail in
  let short_read := Z.of_nat n <? size in
  (firstn n avail,
   if short_read || (size <=? 0) then 0 else 1,
   mkFILE (contents fp) (position fp + n) (eof_flag fp || short_read)).

(** [fseek(fp, offset, SEEK_SET)]: a negative offset fails and leaves the
    stream as it is; otherwise the indicator is cleared. *)
Definition fseek (fp : FILE) (offset : Z) : FILE :=
  if offset <? 0 then fp
  else mkFILE (contents fp) (Z.to_nat offset) false.

(** ** The data block header

    Section 2C of the program's header comment:
    [short Type; short UpperByteOf5ByteTimestamp; long TimeStamp;
     short Channel; short Unit; short NumberOfWaveforms;
     short NumberOfWordsInWaveform]. *)

Record PL_DataBlockHeader : Type := mkDB
  { db_Type : Z;
    UpperByteOf5ByteTimestamp : Z;
    TimeStamp : Z;
    Channel : Z;
    Unit : Z;
    NumberOfWaveforms : Z;
    NumberOfWordsInWaveform : Z }.

Definition sizeof_db : Z := 16.

(** [fread(&db, sizeof(db), 1, fp)] overlays the 16 bytes on the struct. *)
Definition overlay_db (bs : list byte) : PL_DataBlockHeader :=
  {| db_Type := short_at 0 bs;
     UpperByteOf5ByteTimestamp := short_at 2 bs;
     TimeStamp := long_at 4 bs;
     Channel := short_at 8 bs;
     Unit := short_at 10 bs;
     NumberOfWaveforms := short_at 12 bs;
     NumberOfWordsInWaveform := short_at 14 bs |}.

(** Block types and the strobed channel, as the header comment gives them. *)
Definition PL_SingleWFType : Z := 1.
Definition PL_ExtEventType : Z := 4.
Definition PL_ADDataType : Z := 5.
Definition PL_StrobedExtChannel : Z := 257.

(** ** [short buf[256]] *)

Definition buf_len : Z := 256.

(** [buf[i]]; [None] is an access outside the array. *)
Definition buf_get (buf : list byte) (i : Z) : option Z :=
  if (0 <=? i) && (i <? buf_len) then Some (short_at (Z.to_nat (2 * i)) buf)
  else None.

(** [fread(buf, ...)] transferring [got]: the leading bytes of [buf] are
    overwritten, the others keep what they held; [None] when the transfer
    runs past the array. *)
Definition buf_store (got buf : list byte) : option (list byte) :=
  if Z.of_nat (length got) <=? 2 * buf_len
  then Some (got ++ skipn (length got) buf)
  else None.

(** ** The loop head shared by the four scans

    [while(feof(fp) == 0 && fread(&db, sizeof(db), 1, fp) == 1){
       nbuf = 0;
       if(db.NumberOfWaveforms > 0){
         nbuf = db.NumberOfWaveforms*db.NumberOfWordsInWaveform;
         fread(buf, nbuf*2, 1, fp);
       } ... }] *)

(** What the loop head comes to: the loop ends ([Stop]), a block is handed
    to the body with [nbuf] and the buffer as read ([Fetched]), or the
    read of the samples ran past [buf] ([Smashed]). *)
Inductive fetched : Type :=
| Stop (fp' : FILE)
| Fetched (db : PL_DataBlockHeader) (nbuf : Z) (fp' : FILE) (buf' : list byte)
| Smashed.

Definition fetch (fp : FILE) (buf : list byte) : fetched :=
  if feof fp then Stop fp
  else
    let '(hdr, items, fp1) := fread sizeof_db fp in
    if items =? 1 then
      let db := overlay_db hdr in
      if 0 <? NumberOfWaveforms db then
        let nbuf :=
          CInt.int (NumberOfWaveforms db * NumberOfWordsInWaveform db) in
        let '(got, _, fp2) := fread (CInt.size_t (nbuf * 2)) fp1 in
        match buf_store got buf with
        | Some buf' => Fetched db nbuf fp2 buf'
        | None => Smashed
        end
      else Fetched db 0 fp1 buf
    else Stop fp1.

(** What a scan leaves behind: the locals of its body, the stream and the
    buffer; [Undefined] when the program ran outside [buf]. *)
Inductive result (S : Type) : Type :=
| Finished (s : S) (fp : FILE) (buf : list byte)
| Undefined.
Arguments Finished {S} s fp buf.
Arguments Undefined {S}.

(** ** A scan: the loop with a body

    [body db nbuf buf s] runs the statements after the loop head on the
    locals [s]; [None] when it reads outside [buf]. *)

Section Scan.

Context {S : Type}.
Variable body : PL_DataBlockHeader -> Z -> list byte -> S -> option S.

Equations? scan (fp : FILE) (buf : list byte) (s : S) : result S
  by wf (length (remaining fp)) lt :=
  scan fp buf s with inspect (fetch fp buf) := {
    | @exist (Stop fp') _ := Finished s fp' buf
    | @exist Smashed _ := Undefined
    | @exist (Fetched db nbuf fp' buf') H with body db nbuf buf' s := {
        | Some s' := scan fp' buf' s'
        | None := Undefined } }.
Proof.
  (* a fetched block moves the cursor forward, inside the file *)
  assert (Hread : forall size g,
    contents (snd (fread size g)) = contents g /\
    (position g <= position (snd (fread size g)))%nat /\
    (snd (fst (fread size g)) = 1 ->
     (position g + Z.to_nat size <= length (contents g))%nat /\
     position (snd (fread size g)) = (position g + Z.to_nat size)%nat /\
     0 < size)).
  { intros size g. unfold fread, remaining. cbn [fst snd contents position].
    rewrite length_skipn. split; [reflexivity|]. split; [lia|].
    destruct (size <? Z.of_nat (length (contents g) - position g)) eqn:E;
      [apply Z.ltb_lt in E|apply Z.ltb_ge in E];
      match goal with |- context [?a <? size] => destruct (a <? size) eqn:F end;
      cbn [orb]; try discriminate;
      destruct (size <=? 0) eqn:G; try discriminate;
      apply Z.ltb_ge in F; apply Z.leb_gt in G; intros _; lia. }
  unfold fetch in H. destruct (feof fp); [discriminate|].
  pose proof (Hread sizeof_db fp) as (C1 & _ & W1).
  destruct (fread sizeof_db fp) as [[hdr items] fp1].
  cbn [fst snd] in C1, W1.
  destruct (items =? 1) eqn:I; [apply Z.eqb_eq in I|discriminate].
  destruct (W1 I) as (A1 & P1 & _).
  change (Z.to_nat sizeof_db) with 16%nat in *.
  unfold remaining. rewrite !length_skipn.
  destruct (0 <? NumberOfWaveforms (overlay_db hdr)).
  - match type of H with context [fread ?n fp1] =>
      pose proof (Hread n fp1) as (C2 & M2 & _);
      destruct (fread n fp1) as [[got k] fp2] end.
    cbn [fst snd] in C2, M2.
    destruct (buf_store got buf); [|discriminate].
    inversion H; subst. rewrite C2, C1. lia.
  - inversion H; subst. rewrite C1. lia.
Qed.

End Scan.

(** ** What the program declares in [Plexon.h]

    [Plexon.h] gives the layout of the file header and of the channel
    headers.  The program uses them through [sizeof] and through the
    fields below, so the sizes are a parameter of the embedding and the
    overlaid structs are given by their fields. *)

Record Plexon_h : Type := mkPlexon_h
  { sizeof_PL_FileHeader : Z;
    sizeof_PL_ChanHeader : Z;
    sizeof_PL_EventHeader : Z;
    sizeof_PL_SlowChannelHeader : Z }.

(** The sizes are object sizes, and the three tables the program declares
    ([channels[128]], [evheaders[512]], [slowheaders[64]]) are objects too:
    their sizes are [size_t] values, and with the file header they stay in
    the range of [int]. *)
Definition object_sizes (h : Plexon_h) : Prop :=
  0 < sizeof_PL_FileHeader h /\ 0 < sizeof_PL_ChanHeader h /\
  0 < sizeof_PL_EventHeader h /\ 0 < sizeof_PL_SlowChannelHeader h /\
  sizeof_PL_FileHeader h + 128 * sizeof_PL_ChanHeader h +
  512 * sizeof_PL_EventHeader h + 64 * sizeof_PL_SlowChannelHeader h
  <= CInt.INT_MAX.

(** The fields of [PL_FileHeader] that [main] reads. *)
Record PL_FileHeader : Type := mkFH
  { ADFrequency : Z;
    NumDSPChannels : Z;
    NumEventChannels : Z;
    NumSlowChannels : Z }.

(** The fields of [PL_SlowChannelHeader] that [main] reads. *)
Module Slow.
Record PL_SlowChannelHeader : Type := mk
  { Channel : Z;
    ADFreq : Z;
    Gain : Z }.
End Slow.

(** ** What the program prints

    One constructor for each data [printf]; a [double] argument is kept as
    the [float] the program computes. *)
Inductive line : Type :=
| Spike (count ticks : Z) (seconds : float)
| Waveform (samples : list Z)
| Event (count ticks : Z) (seconds : float)
| FirstPoint (count ticks : Z) (seconds : float)
| ADValue (raw : Z) (v : float) (ts : Z) (seconds : float)
| NoHeader
| NoFreqOrGain.

(** [x/(double)fh.ADFrequency] *)
Definition seconds (fh : PL_FileHeader) (x : Z) : float :=
  (CInt.to_double x / CInt.to_double (ADFrequency fh))%float.

(** [for(i=i0; i<...; i++)] run [n] times, collecting what [f i] yields;
    [None] as soon as one round is undefined. *)
Fixpoint for_each {A : Type} (f : Z -> option A) (i0 : Z) (n : nat)
  : option (list A) :=
  match n with
  | O => Some []
  | S n' =>
      match f i0 with
      | None => None
      | Some a =>
          match for_each f (i0 + 1) n' with
          | None => None
          | Some rest => Some (a :: rest)
          end
      end
  end.

(** The locals of the first three scans. *)
Record counting : Type := mkCounting
  { count : Z;
    printed : list line }.

(** The locals of the fourth scan. *)
Record sampling : Type := mkSampling
  { ad_count : Z;
    first_timestamp : Z;
    ad_printed : list line }.

Section Samples.

Variable fh : PL_FileHeader.

(** SAMPLE 1: the timestamps for a spike channel. *)
Definition sample1_body (channel_to_extract unit_to_extract : Z)
    (db : PL_DataBlockHeader) (nbuf : Z) (buf : list byte) (s : counting)
  : option counting :=
  if db_Type db =? PL_SingleWFType then
    if (Channel db =? channel_to_extract) && (Unit db =? unit_to_extract)
    then Some {| count := CInt.int (count s + 1);
                 printed := printed s ++
                   [Spike (count s) (TimeStamp db)
                          (seconds fh (TimeStamp db))] |}
    else Some s
  else Some s.

(** SAMPLE 2: the waveforms for a spike channel. *)
Definition sample2_body (channel_to_extract unit_to_extract : Z)
    (db : PL_DataBlockHeader) (nbuf : Z) (buf : list byte) (s : counting)
  : option counting :=
  if (db_Type db =? PL_SingleWFType) && (0 <? nbuf) then
    if (Channel db =? channel_to_extract) && (Unit db =? unit_to_extract)
    then
      match for_each (buf_get buf) 0
              (Z.to_nat (NumberOfWordsInWaveform db)) with
      | Some samples =>
          Some {| count := CInt.int (count s + 1);
                  printed := printed s ++
                    [Spike (count s) (TimeStamp db)
                           (seconds fh (TimeStamp db));
                     Waveform samples] |}
      | None => None
      end
    else Some s
  else Some s.

(** SAMPLE 3: the timestamps for an external event channel. *)
Definition sample3_body (event_to_extract : Z)
    (db : PL_DataBlockHeader) (nbuf : Z) (buf : list byte) (s : counting)
  : option counting :=
  if db_Type db =? PL_ExtEventType then
    if Channel db =? event_to_extract
    then Some {| count := CInt.int (count s + 1);
                 printed := printed s ++
                   [Event (count s) (TimeStamp db)
                          (seconds fh (TimeStamp db))] |}
    else Some s
  else Some s.

(** SAMPLE 4: continuous data for one channel.
    [ts = db.TimeStamp + i*ticks_in_adcycle;
     double v = (buf[i]*5./2048.)/(double)gain;] *)
Definition ad_line (gain ticks_in_adcycle : Z) (db : PL_DataBlockHeader)
    (buf : list byte) (i : Z) : option line :=
  match buf_get buf i with
  | Some raw =>
      let ts := CInt.int (TimeStamp db + CInt.int (i * ticks_in_adcycle)) in
      let v := ((CInt.to_double raw * 5 / 2048) / CInt.to_double gain)%float in
      Some (ADValue raw v ts (seconds fh ts))
  | None => None
  end.

Definition sample4_body (channel_to_extract gain ticks_in_adcycle : Z)
    (db : PL_DataBlockHeader) (nbuf : Z) (buf : list byte) (s : sampling)
  : option sampling :=
  if db_Type db =? PL_ADDataType then
    if Channel db =? channel_to_extract then
      let first := first_timestamp s =? -1 in
      match for_each (ad_line gain ticks_in_adcycle db buf) 0
              (Z.to_nat (NumberOfWordsInWaveform db)) with
      | Some values =>
          Some {| ad_count := CInt.int (ad_count s + 1);
                  first_timestamp :=
                    if first then TimeStamp db else first_timestamp s;
                  ad_printed := ad_printed s ++
                    (if first
                     then [FirstPoint (ad_count s) (TimeStamp db)
                                      (seconds fh (TimeStamp db))]
                     else []) ++ values |}
      | None => None
      end
    else Some s
  else Some s.

(** [for(i=0; i<fh.NumSlowChannels; i++) if(slowheaders[i].Channel ==
    channel_to_extract){ header_num = i; break; }]: the first of the
    declared headers that carries the channel.  [slowheaders] holds the
    entries of the array; a search that runs past them is undefined. *)
Inductive lookup : Type :=
| Found (sh : Slow.PL_SlowChannelHeader)
| Missing
| Outside.

Definition find_slow_header (slowheaders : list Slow.PL_SlowChannelHeader)
    (channel_to_extract : Z) : lookup :=
  match find (fun sh => Slow.Channel sh =? channel_to_extract)
             (firstn (Z.to_nat (NumSlowChannels fh)) slowheaders) with
  | Some sh => Found sh
  | None =>
      if NumSlowChannels fh <=? Z.of_nat (length slowheaders)
      then Missing else Outside
  end.

End Samples.

(** ** Opening the file and the headers *)

(** [fopen("test1.plx", "rb")] on a file that exists and holds [file]. *)
Definition fopen (file : list byte) : FILE := mkFILE file 0 false.

(** [int datastart = sizeof(fh) + fh.NumDSPChannels*sizeof(PL_ChanHeader)
      + fh.NumEventChannels*sizeof(PL_EventHeader)
      + fh.NumSlowChannels*sizeof(PL_SlowChannelHeader);]
    The operands are converted to [size_t], the sum is converted to [int]. *)
Definition datastart (h : Plexon_h) (fh : PL_FileHeader) : Z :=
  let dsp := CInt.size_t (CInt.size_t (NumDSPChannels fh) *
                          sizeof_PL_ChanHeader h) in
  let ev := CInt.size_t (CInt.size_t (NumEventChannels fh) *
                         sizeof_PL_EventHeader h) in
  let slow := CInt.size_t (CInt.size_t (NumSlowChannels fh) *
                           sizeof_PL_SlowChannelHeader h) in
  CInt.int
    (CInt.size_t
       (CInt.size_t (CInt.size_t (sizeof_PL_FileHeader h + dsp) + ev) + slow)).

(** [fread(table, count*sizeof(elem), 1, fp)] into an array of [capacity]
    elements; [None] when the transfer runs past the array. *)
Definition read_table (count elem capacity : Z) (fp : FILE) : option FILE :=
  let '(got, _, fp') := fread (CInt.size_t (CInt.size_t count * elem)) fp in
  if Z.of_nat (length got) <=? capacity * elem then Some fp' else None.

(** The reads before the first scan:
    [fread(&fh, sizeof(fh), 1, fp);
     if(fh.NumDSPChannels > 0) fread(channels, ...);
     if(fh.NumEventChannels> 0) fread(evheaders, ...);
     if(fh.NumSlowChannels) fread(slowheaders, ...);]
    [fh] is what the first read overlays. *)
Definition read_headers (h : Plexon_h) (fh : PL_FileHeader) (fp : FILE)
  : option FILE :=
  let '(_, _, fp0) := fread (sizeof_PL_FileHeader h) fp in
  match (if 0 <? NumDSPChannels fh
         then read_table (NumDSPChannels fh) (sizeof_PL_ChanHeader h) 128 fp0
         else Some fp0) with
  | None => None
  | Some fp1 =>
      match (if 0 <? NumEventChannels fh
             then read_table (NumEventChannels fh)
                    (sizeof_PL_EventHeader h) 512 fp1
             else Some fp1) with
      | None => None
      | Some fp2 =>
          if NumSlowChannels fh =? 0 then Some fp2
          else read_table (NumSlowChannels fh)
                 (sizeof_PL_SlowChannelHeader h) 64 fp2
      end
  end.

(** ** The four scans *)

(** The first three samples: each starts with [count = 1] and runs the
    loop with its body; the channel, unit and event to extract are the
    locals [main] sets before the loop. *)
Definition sample1 (fh : PL_FileHeader) (channel_to_extract unit_to_extract : Z)
    (fp : FILE) (buf : list byte) : result counting :=
  scan (sample1_body fh channel_to_extract unit_to_extract) fp buf
       {| count := 1; printed := [] |}.

Definition sample2 (fh : PL_FileHeader) (channel_to_extract unit_to_extract : Z)
    (fp : FILE) (buf : list byte) : result counting :=
  scan (sample2_body fh channel_to_extract unit_to_extract) fp buf
       {| count := 1; printed := [] |}.

Definition sample3 (fh : PL_FileHeader) (event_to_extract : Z)
    (fp : FILE) (buf : list byte) : result counting :=
  scan (sample3_body fh event_to_extract) fp buf
       {| count := 1; printed := [] |}.

(** The outcome of the continuous-data sample: it may leave the program
    through [exit(1)] before it reads a block. *)
Inductive outcome : Type :=
| Returned (out : list line)
| Exited (out : list line)
| Crashed.

(** SAMPLE 4: the header of the channel is looked up, [gain] and [adfreq]
    are taken from it, the program exits when one of them is 0, and
    [ticks_in_adcycle = fh.ADFrequency/adfreq] is used by the loop. *)
Definition sample4 (fh : PL_FileHeader)
    (slowheaders : list Slow.PL_SlowChannelHeader) (channel_to_extract : Z)
    (fp : FILE) (buf : list byte) : outcome :=
  match find_slow_header fh slowheaders channel_to_extract with
  | Outside => Crashed
  | Missing => Exited [NoHeader]
  | Found sh =>
      let gain := Slow.Gain sh in
      let adfreq := Slow.ADFreq sh in
      if (adfreq =? 0) || (gain =? 0) then Exited [NoFreqOrGain]
      else
        let ticks_in_adcycle := CInt.div (ADFrequency fh) adfreq in
        match scan (sample4_body fh channel_to_extract gain ticks_in_adcycle)
                fp buf
                {| ad_count := 1; first_timestamp := -1; ad_printed := [] |}
        with
        | Finished s _ _ => Returned (ad_printed s)
        | Undefined => Crashed
        end
  end.

(** ** Building test files

    The program only reads; these helpers write the bytes of a block so
    that examples can state a file by its blocks. *)

(** The byte of value [x mod 256], and the [n] little-endian bytes of [x]. *)
Definition byte_of (x : Z) : byte :=
  match Byte.of_N (Z.to_N (x mod 256)) with
  | Some b => b
  | None => x00
  end.

Fixpoint le_bytes (n : nat) (x : Z) : list byte :=
  match n with
  | O => []
  | S n' => byte_of x :: le_bytes n' (x / 256)
  end.

(** The 16 bytes of a block header, the bytes of its samples, and the
    block. *)
Definition header_bytes (db : PL_DataBlockHeader) : list byte :=
  le_bytes 2 (db_Type db) ++ le_bytes 2 (UpperByteOf5ByteTimestamp db) ++
  le_bytes 4 (TimeStamp db) ++ le_bytes 2 (Channel db) ++
  le_bytes 2 (Unit db) ++ le_bytes 2 (NumberOfWaveforms db) ++
  le_bytes 2 (NumberOfWordsInWaveform db).

Definition sample_bytes (samples : list Z) : list byte :=
  flat_map (le_bytes 2) samples.

Definition block_bytes (db : PL_DataBlockHeader) (samples : list Z)
  : list byte :=
  header_bytes db ++ sample_bytes samples.

(** ** Models of the specification's formulas

    Each follows the words of the specification and is compared below with
    what the program computes. *)

(** The specification's 40-bit timestamp of a block:
    [(high << 32) | lowUnsigned], the high byte being the second field of
    the header and [lowUnsigned] the 32 bits of the third read as an
    unsigned word. *)
Definition timestamp40_spec (db : PL_DataBlockHeader) : Z :=
  Z.lor (Z.shiftl (UpperByteOf5ByteTimestamp db) 32)
        (CInt.to_unsigned 32 (TimeStamp db)).

(** The specification's [dataStartOffset = headerSize +
    sum (channelCount_i * channelHeaderSize_i)] over the three channel
    kinds in their declared order: DSP, event, slow. *)
Definition dataStartOffset_spec (h : Plexon_h) (fh : PL_FileHeader) : Z :=
  sizeof_PL_FileHeader h +
  NumDSPChannels fh * sizeof_PL_ChanHeader h +
  NumEventChannels fh * sizeof_PL_EventHeader h +
  NumSlowChannels fh * sizeof_PL_SlowChannelHeader h.

(** The specification's [adVoltage(raw, gain) = raw * 5.0 / 2048.0 / gain]. *)
Definition adVoltage_spec (raw gain : Z) : float :=
  (CInt.to_double raw * 5.0 / 2048.0 / CInt.to_double gain)%float.

(** The specification's sample count of a block,
    [waveformCount * wordsPerWaveform]. *)
Definition sampleCount_spec (db : PL_DataBlockHeader) : Z :=
  NumberOfWaveforms db * NumberOfWordsInWaveform db.

(** Modelled from the spec: [spikeVoltage(raw, gain) = raw * 3.0 / 2048.0 /
    gain].  The program prints the raw samples of a spike waveform and never
    converts one; what it has is the sentence of its header comment
    (section 2C.1), [spike_voltage_doc] below. *)
Definition spikeVoltage (raw gain : Z) : float :=
  (CInt.to_double raw * 3.0 / 2048.0 / CInt.to_double gain)%float.

(** The header comment of the program:
    [voltage = (a_d_value*3./2048.)/gain]. *)
Definition spike_voltage_doc (a_d_value gain : Z) : float :=
  ((CInt.to_double a_d_value * 3 / 2048) / CInt.to_double gain)%float.

(** ** Notions of the statements and example files *)

(** The counts a header can declare for tables that are in the file: none
    is negative and none exceeds the array the program reads it into. *)
Definition declared_counts (fh : PL_FileHeader) : Prop :=
  0 <= NumDSPChannels fh <= 128 /\
  0 <= NumEventChannels fh <= 512 /\
  0 <= NumSlowChannels fh <= 64.

(** A layout and a header for the examples: the sizes are those of the
    Plexon SDK structs, 7504 bytes of file header and 1020, 296 and 296
    bytes for a DSP, an event and a slow channel header. *)
Definition example_layout : Plexon_h := mkPlexon_h 7504 1020 296 296.
Definition example_header : PL_FileHeader := mkFH 40000 2 1 1.

(** A file long enough for the tables of [example_header]. *)
Definition example_tables : list byte := repeat x00 (Z.to_nat 10200).

(** The block header under the cursor. *)
Definition header_at (fp : FILE) : PL_DataBlockHeader :=
  overlay_db (firstn 16 (remaining fp)).

(** A buffer that holds zeros on entry. *)
Definition example_buf : list byte := repeat x00 512.

(** Three blocks: a spike with a waveform of three samples, a strobed
    event without samples, and an A/D block of three samples. *)
Definition example_spike : PL_DataBlockHeader := mkDB 1 0 100 1 1 1 3.
Definition example_event : PL_DataBlockHeader := mkDB 4 0 200 257 42 0 0.
Definition example_ad : PL_DataBlockHeader := mkDB 5 0 1000 0 0 1 3.

Definition example_blocks : list byte :=
  block_bytes example_spike [10; -10; 5] ++
  block_bytes example_event [] ++
  block_bytes example_ad [4096; 0; -4096].

(** The line SAMPLE 4 prints before the samples of the first block of the
    channel. *)
Definition first_line (fh : PL_FileHeader) (s : sampling)
    (db : PL_DataBlockHeader) : list line :=
  if first_timestamp s =? -1
  then [FirstPoint (ad_count s) (TimeStamp db) (seconds fh (TimeStamp db))]
  else [].

(** The line of sample [i] of a block. *)
Definition value_line (fh : PL_FileHeader) (gain ticks : Z)
    (db : PL_DataBlockHeader) (buf : list byte) (i : Z) : line :=
  let raw := short_at (Z.to_nat (2 * i)) buf in
  let ts := CInt.int (TimeStamp db + i * ticks) in
  ADValue raw ((CInt.to_double raw * 5 / 2048) / CInt.to_double gain)%float
          ts (seconds fh ts).

(** The lines of an outcome. *)
Definition returned (o : outcome) : list line :=
  match o with
  | Returned out => out
  | Exited out => out
  | Crashed => []
  end.

(** The timestamps and the voltages of the A/D values in an output. *)
Definition ad_timestamps (out : list line) : list Z :=
  flat_map (fun l => match l with ADValue _ _ ts _ => [ts] | _ => [] end) out.

Definition ad_voltages (out : list line) : list float :=
  flat_map (fun l => match l with ADValue _ v _ _ => [v] | _ => [] end) out.

(** The line is an A/D value. *)
Definition is_ad_value (l : line) : Prop :=
  match l with ADValue _ _ _ _ => True | _ => False end.

(** The A/D block of the examples alone in a file, with the header of
    channel 0 sampled at 20000 Hz under a clock of 40000 Hz, gain 1. *)
Definition example_ad_file : list byte :=
  block_bytes example_ad [4096; 0; -4096].
Definition example_ad_header : PL_FileHeader := mkFH 40000 0 0 1.
Definition example_slowheaders : list Slow.PL_SlowChannelHeader :=
  [Slow.mk 0 20000 1].

(** An A/D block that declares two waveforms of three samples. *)
Definition example_ad2 : PL_DataBlockHeader := mkDB 5 0 1000 0 0 2 3.
Definition example_ad2_file : list byte :=
  block_bytes example_ad2 [1; 2; 3; 4; 5; 6].

(** The lines of a counting scan, and the ticks they show. *)
Definition lines_of (r : result counting) : list line :=
  match r with
  | Finished s _ _ => printed s
  | Undefined => []
  end.

Definition ticks_of (out : list line) : list Z :=
  flat_map (fun l => match l with
                     | Spike _ t _ | Event _ t _ | FirstPoint _ t _ => [t]
                     | _ => []
                     end) out.

(** Two spikes without waveform: one whose low word has its top bit set,
    one whose high byte is 1. *)
Definition late_spike : PL_DataBlockHeader := mkDB 1 0 (-2147483648) 1 1 0 0.
Definition later_spike : PL_DataBlockHeader := mkDB 1 1 5 1 1 0 0.
Definition late_file : list byte :=
  header_bytes late_spike ++ header_bytes later_spike.

(** The block [db] with another value in the unit field. *)
Definition with_unit (db : PL_DataBlockHeader) (u : Z) : PL_DataBlockHeader :=
  {| db_Type := db_Type db;
     UpperByteOf5ByteTimestamp := UpperByteOf5ByteTimestamp db;
     TimeStamp := TimeStamp db;
     Channel := Channel db;
     Unit := u;
     NumberOfWaveforms := NumberOfWaveforms db;
     NumberOfWordsInWaveform := NumberOfWordsInWaveform db |}.

(** C9 says that the record of an event on channel 257 carries the unit
    field as its strobed value: some reading [strobedValue] of the printed
    line gives back [Unit] for every such block. *)
Definition strobed_value_exposed : Prop :=
  exists strobedValue : line -> option Z,
  forall fh db nbuf buf s s',
    db_Type db = PL_ExtEventType ->
    Channel db = PL_StrobedExtChannel ->
    sample3_body fh PL_StrobedExtChannel db nbuf buf s = Some s' ->
    exists l, printed s' = printed s ++ [l] /\ strobedValue l = Some (Unit db).

(** The bytes of payload the header of a block asks [fread] for. *)
Definition declared_payload (db : PL_DataBlockHeader) : Z :=
  CInt.size_t
    (CInt.int (NumberOfWaveforms db * NumberOfWordsInWaveform db) * 2).

(** The cursor is on a block whose header is whole and whose declared
    payload is longer than what is left of the file. *)
Definition truncated_block (fp : FILE) : Prop :=
  feof fp = false /\
  sizeof_db <= Z.of_nat (length (remaining fp)) /\
  0 < NumberOfWaveforms (header_at fp) /\
  Z.of_nat (length (remaining fp)) - sizeof_db
    < declared_payload (header_at fp).

(** The file of the examples cut two bytes into the waveform of a second
    spike. *)
Definition cut_spike : PL_DataBlockHeader := mkDB 1 0 300 1 1 1 3.
Definition whole_part : list byte := block_bytes example_spike [10; -10; 5].
Definition cut_file : list byte :=
  whole_part ++ header_bytes cut_spike ++ sample_bytes [7].

(** [buf] after the whole spike of [cut_file]. *)
Definition cut_buf : list byte :=
  sample_bytes [10; -10; 5] ++ skipn 6 example_buf.

(** The [n] integers from [x] on; every value of a [short]. *)
Fixpoint count_from (n : nat) (x : Z) : list Z :=
  match n with
  | O => []
  | S n' => x :: count_from n' (x + 1)
  end.

Definition all_shorts : list Z := count_from (Z.to_nat 65536) (-32768).

(** The three scans that count records: spike timestamps, spike
    waveforms, event timestamps. *)
Inductive counting_scan : Type :=
| Timestamps (channel_to_extract unit_to_extract : Z)
| Waveforms (channel_to_extract unit_to_extract : Z)
| Events (event_to_extract : Z).

Definition body_of (fh : PL_FileHeader) (k : counting_scan)
  : PL_DataBlockHeader -> Z -> list byte -> counting -> option counting :=
  match k with
  | Timestamps c u => sample1_body fh c u
  | Waveforms c u => sample2_body fh c u
  | Events e => sample3_body fh e
  end.

(** ** Files of whole blocks *)

(** The fields of a block header fit their C types. *)
Definition well_typed (db : PL_DataBlockHeader) : Prop :=
  CInt.in_short (db_Type db) /\
  CInt.in_short (UpperByteOf5ByteTimestamp db) /\
  CInt.in_int (TimeStamp db) /\
  CInt.in_short (Channel db) /\
  CInt.in_short (Unit db) /\
  CInt.in_short (NumberOfWaveforms db) /\
  CInt.in_short (NumberOfWordsInWaveform db).

(** A block as a file holds it whole and as [buf] can take it: a header
    with counts that are not negative, followed by
    [NumberOfWaveforms * NumberOfWordsInWaveform] samples, at most 256. *)
Definition whole_block (b : PL_DataBlockHeader * list Z) : Prop :=
  well_typed (fst b) /\
  Forall CInt.in_short (snd b) /\
  0 <= NumberOfWaveforms (fst b) /\
  0 <= NumberOfWordsInWaveform (fst b) /\
  Z.of_nat (length (snd b)) = sampleCount_spec (fst b) /\
  sampleCount_spec (fst b) <= buf_len.

(** The bytes of a sequence of blocks. *)
Definition blocks_bytes (blocks : list (PL_DataBlockHeader * list Z))
  : list byte :=
  flat_map (fun b => block_bytes (fst b) (snd b)) blocks.

(** [buf] after the samples of a block were read into it. *)
Definition refill (b : PL_DataBlockHeader * list Z) (buf : list byte)
  : list byte :=
  sample_bytes (snd b) ++ skipn (length (sample_bytes (snd b))) buf.

(** The rounds of a loop told by the blocks instead of the bytes: each
    block in turn refills [buf] and goes to the body with
    [nbuf = NumberOfWaveforms * NumberOfWordsInWaveform]. *)
Fixpoint run {S : Type}
    (body : PL_DataBlockHeader -> Z -> list byte -> S -> option S)
    (blocks : list (PL_DataBlockHeader * list Z)) (buf : list byte) (s : S)
  : option (S * list byte) :=
  match blocks with
  | [] => Some (s, buf)
  | b :: rest =>
      match body (fst b) (sampleCount_spec (fst b)) (refill b buf) s with
      | Some s' => run body rest (refill b buf) s'
      | None => None
      end
  end.

(** ** What the four samples select *)

(** The tests of the four bodies on a block header. *)
Definition is_spike_of (c u : Z) (db : PL_DataBlockHeader) : bool :=
  (db_Type db =? PL_SingleWFType) && ((Channel db =? c) && (Unit db =? u)).

Definition has_waveform (db : PL_DataBlockHeader) : bool :=
  0 <? sampleCount_spec db.

Definition is_event_of (e : Z) (db : PL_DataBlockHeader) : bool :=
  (db_Type db =? PL_ExtEventType) && (Channel db =? e).

Definition is_ad_of (ch : Z) (db : PL_DataBlockHeader) : bool :=
  (db_Type db =? PL_ADDataType) && (Channel db =? ch).

(** The lines of SAMPLE 1 for a list of spikes, counted from [k] with the
    [count++] of an [int]. *)
Fixpoint spike_lines (fh : PL_FileHeader) (k : Z)
    (dbs : list PL_DataBlockHeader) : list line :=
  match dbs with
  | [] => []
  | db :: rest =>
      Spike k (TimeStamp db) (seconds fh (TimeStamp db))
      :: spike_lines fh (CInt.int (k + 1)) rest
  end.

(** The lines of SAMPLE 3 for a list of events. *)
Fixpoint event_lines (fh : PL_FileHeader) (k : Z)
    (dbs : list PL_DataBlockHeader) : list line :=
  match dbs with
  | [] => []
  | db :: rest =>
      Event k (TimeStamp db) (seconds fh (TimeStamp db))
      :: event_lines fh (CInt.int (k + 1)) rest
  end.

(** The lines of SAMPLE 2 for a list of spikes with their samples: the
    spike, then the first [NumberOfWordsInWaveform] samples. *)
Fixpoint waveform_lines (fh : PL_FileHeader) (k : Z)
    (blocks : list (PL_DataBlockHeader * list Z)) : list line :=
  match blocks with
  | [] => []
  | b :: rest =>
      Spike k (TimeStamp (fst b)) (seconds fh (TimeStamp (fst b)))
      :: Waveform (firstn (Z.to_nat (NumberOfWordsInWaveform (fst b)))
                          (snd b))
      :: waveform_lines fh (CInt.int (k + 1)) rest
  end.

(** The line of SAMPLE 4 for the sample [raw] at index [i] of a block, and
    the lines for the samples from index [i] on. *)
Definition sample_line (fh : PL_FileHeader) (gain ticks : Z)
    (db : PL_DataBlockHeader) (i raw : Z) : line :=
  ADValue raw ((CInt.to_double raw * 5 / 2048) / CInt.to_double gain)%float
          (CInt.int (TimeStamp db + i * ticks))
          (seconds fh (CInt.int (TimeStamp db + i * ticks))).

Fixpoint values_from (fh : PL_FileHeader) (gain ticks : Z)
    (db : PL_DataBlockHeader) (i : Z) (samples : list Z) : list line :=
  match samples with
  | [] => []
  | raw :: rest =>
      sample_line fh gain ticks db i raw
      :: values_from fh gain ticks db (i + 1) rest
  end.

(** The samples SAMPLE 4 prints for a block: the first
    [NumberOfWordsInWaveform] ones. *)
Definition block_values (fh : PL_FileHeader) (gain ticks : Z)
    (b : PL_DataBlockHeader * list Z) : list line :=
  values_from fh gain ticks (fst b) 0
    (firstn (Z.to_nat (NumberOfWordsInWaveform (fst b))) (snd b)).

(** The lines of SAMPLE 4 for a list of blocks, from the locals [count = k]
    and [first_timestamp = first]. *)
Fixpoint continuous_lines (fh : PL_FileHeader) (ch gain ticks k first : Z)
    (blocks : list (PL_DataBlockHeader * list Z)) : list line :=
  match blocks with
  | [] => []
  | b :: rest =>
      if is_ad_of ch (fst b) then
        (if first =? -1
         then [FirstPoint k (TimeStamp (fst b))
                          (seconds fh (TimeStamp (fst b)))]
         else []) ++
        block_values fh gain ticks b ++
        continuous_lines fh ch gain ticks (CInt.int (k + 1))
          (if first =? -1 then TimeStamp (fst b) else first) rest
      else continuous_lines fh ch gain ticks k first rest
  end.

(** The counts shown by the lines of spikes, events and first points. *)
Definition counts_of (out : list line) : list Z :=
  flat_map (fun l => match l with
                     | Spike k _ _ | Event k _ _ | FirstPoint k _ _ => [k]
                     | _ => []
                     end) out.

(** The A/D value lines of an output, and its first-point lines. *)
Definition ad_values (out : list line) : list line :=
  filter (fun l => match l with ADValue _ _ _ _ => true | _ => false end) out.

Definition first_points (out : list line) : list line :=
  filter (fun l => match l with FirstPoint _ _ _ => true | _ => false end) out.

(** The first-point lines of SAMPLE 4 for the A/D blocks of the channel,
    from [count = k]: one for the first block, and one more for each
    block that follows blocks stamped -1 only. *)
Fixpoint first_point_lines (fh : PL_FileHeader) (k : Z)
    (dbs : list PL_DataBlockHeader) : list line :=
  match dbs with
  | [] => []
  | db :: rest =>
      FirstPoint k (TimeStamp db) (seconds fh (TimeStamp db))
      :: (if TimeStamp db =? -1
          then first_point_lines fh (CInt.int (k + 1)) rest
          else [])
  end.

(** The A/D blocks of the channel all have a waveform. *)
Definition ad_blocks_have_waveform (ch : Z)
    (blocks : list (PL_DataBlockHeader * list Z)) : Prop :=
  Forall (fun b => is_ad_of ch (fst b) = true ->
                   0 < NumberOfWaveforms (fst b)) blocks.

(** ** Notions of the further properties *)

(** The body of a scan does not look at [buf]. *)
Definition ignores_buf {S : Type}
    (body : PL_DataBlockHeader -> Z -> list byte -> S -> option S) : Prop :=
  forall db nbuf buf1 buf2 s, body db nbuf buf1 s = body db nbuf buf2 s.

(** What a scan leaves behind apart from [buf]. *)
Definition locals_and_stream {S : Type} (r : result S) : option (S * FILE) :=
  match r with
  | Finished s fp _ => Some (s, fp)
  | Undefined => None
  end.

(** ** The header banner

    [printheaderinfo] reads the version, the comment and the three count
    tables of the file header, besides the fields [main] uses.  The tables
    are the arrays [int TSCounts[130][5]], [int WFCounts[130][5]] and
    [int EVCounts[512]], given by their entries; the loops stay inside
    them. *)
Record PL_FileHeader_tables : Type := mkTables
  { Version : Z;
    Comment : list byte;
    TSCounts : Z -> Z -> Z;
    WFCounts : Z -> Z -> Z;
    EVCounts : Z -> Z }.

(** One constructor for each [printf] of [printheaderinfo]. *)
Inductive banner_line : Type :=
| FileVersion (v : Z)
| FileComment (text : list byte)
| Frequency (f : Z)
| DSPChannels (n : Z)
| EventChannels (n : Z)
| ADChannels (n : Z)
| TimestampCount (channel unit count : Z)
| WaveformCount (channel unit count : Z)
| EventCount (event count : Z)
| ADPoints (channel points : Z)
| TimestampsHeading
| WaveformsHeading
| EventsHeading
| ADChannelsHeading.

(** The characters [%s] prints: those before the first NUL; [None] when
    the array holds no NUL. *)
Fixpoint c_string (bs : list byte) : option (list byte) :=
  match bs with
  | [] => None
  | b :: rest =>
      if Byte.eqb b x00 then Some []
      else match c_string rest with
           | Some text => Some (b :: text)
           | None => None
           end
  end.

(** [for(i=0; i<130; i++) for(j=0; j<5; j++) if(test[i][j] > 0)
      printf(..., i, j, fh.TSCounts[i][j]);] *)
Definition count_table (mk : Z -> Z -> Z -> banner_line)
    (test shown : Z -> Z -> Z) : list banner_line :=
  flat_map (fun i =>
    flat_map (fun j => if 0 <? test i j then [mk i j (shown i j)] else [])
             (count_from 5 0))
    (count_from 130 0).

(** [printheaderinfo]; [None] when the comment is not terminated.  The
    waveform loop tests [WFCounts] and prints [TSCounts], as the source
    does. *)
Definition printheaderinfo (fh : PL_FileHeader) (t : PL_FileHeader_tables)
  : option (list banner_line) :=
  match c_string (Comment t) with
  | None => None
  | Some text =>
      Some
        ([FileVersion (Version t); FileComment text;
          Frequency (ADFrequency fh); DSPChannels (NumDSPChannels fh);
          EventChannels (NumEventChannels fh);
          ADChannels (NumSlowChannels fh)] ++
         TimestampsHeading ::
         count_table TimestampCount (TSCounts t) (TSCounts t) ++
         WaveformsHeading ::
         count_table WaveformCount (WFCounts t) (TSCounts t) ++
         EventsHeading ::
         flat_map (fun i => if 0 <? EVCounts t i
                            then [EventCount i (EVCounts t i)] else [])
                  (count_from 299 0) ++
         ADChannelsHeading ::
         flat_map (fun i => if 0 <? EVCounts t i
                            then [ADPoints (i - 300 + 1) (EVCounts t i)]
                            else [])
                  (count_from 212 300))
  end.

(** Tables for the examples: one spike channel with 7 timestamps and 3
    waveforms for unit 1, counts in the last event slot and in the first
    and the last A/D slot. *)
Definition example_tables_of_counts : PL_FileHeader_tables :=
  mkTables 105 [x61; x62; x00; x63]
    (fun i j => if (i =? 1) && (j =? 1) then 7 else 0)
    (fun i j => if (i =? 1) && (j =? 1) then 3 else 0)
    (fun i => if i =? 299 then 4
              else if i =? 300 then 10
              else if i =? 511 then 20 else 0).

(** ** The whole program

    [main] prints the banner of the file header, then for each sample its
    heading and its lines. *)

(** One constructor for each [printf] of [main] that is not a line of a
    sample, and the lines of the samples. *)
Inductive printout : Type :=
| CannotOpen
| Banner (b : banner_line)
| TimestampsFor (channel unit : Z)
| WaveformsFor (channel unit : Z)
| EventTimestampsFor (event : Z)
| ContinuousDataFor (channel : Z)
| Data (l : line).

(** How [main] ends: at its last statement, through [exit(1)], or in
    undefined behaviour. *)
Inductive ending : Type :=
| Ended (out : list printout)
| Exit1 (out : list printout)
| Fault.

(** What was printed before SAMPLE 4, put in front of its outcome. *)
Definition append (out : list printout) (o : outcome) : ending :=
  match o with
  | Returned l => Ended (out ++ map Data l)
  | Exited l => Exit1 (out ++ map Data l)
  | Crashed => Fault
  end.

(** [main].  [test1_plx] is the file of that name, [None] when [fopen]
    returns 0; [fh] and [t] are the fields that
    [fread(&fh, sizeof(fh), 1, fp)] leaves in the file header,
    [slowheaders] is what the array of that name holds after the [memset]
    and the [fread] of its table, and [buf0] is what the automatic array
    [buf] holds on entry.  The arrays [channels] and [evheaders] are
    written by the reads of their tables and read nowhere. *)
Definition main (h : Plexon_h) (fh : PL_FileHeader)
    (t : PL_FileHeader_tables)
    (slowheaders : list Slow.PL_SlowChannelHeader)
    (test1_plx : option (list byte)) (buf0 : list byte) : ending :=
  match test1_plx with
  | None => Exit1 [CannotOpen]
  | Some file =>
      match printheaderinfo fh t with
      | None => Fault
      | Some banner =>
          match read_headers h fh (fopen file) with
          | None => Fault
          | Some fp =>
              match sample1 fh 1 1 fp buf0 with
              | Undefined => Fault
              | Finished s1 fp1 buf1 =>
                  match sample2 fh 1 1 (fseek fp1 (datastart h fh)) buf1 with
                  | Undefined => Fault
                  | Finished s2 fp2 buf2 =>
                      match sample3 fh 1 (fseek fp2 (datastart h fh)) buf2
                      with
                      | Undefined => Fault
                      | Finished s3 fp3 buf3 =>
                          append
                            (map Banner banner ++
                             TimestampsFor 1 1 :: map Data (printed s1) ++
                             WaveformsFor 1 1 :: map Data (printed s2) ++
                             EventTimestampsFor 1 :: map Data (printed s3) ++
                             [ContinuousDataFor 0])
                            (sample4 fh slowheaders 0
                               (fseek fp3 (datastart h fh)) buf3)
                      end
                  end
              end
          end
      end
  end.

(** What [main] prints on a file of [blocks] before the lookup of
    SAMPLE 4. *)
Definition three_listings (fh : PL_FileHeader) (banner : list banner_line)
    (blocks : list (PL_DataBlockHeader * list Z)) : list printout :=
  map Banner banner ++
  TimestampsFor 1 1 ::
  map Data (spike_lines fh 1 (filter (is_spike_of 1 1) (map fst blocks))) ++
  WaveformsFor 1 1 ::
  map Data
    (waveform_lines fh 1
       (filter (fun b => is_spike_of 1 1 (fst b) && has_waveform (fst b))
               blocks)) ++
  EventTimestampsFor 1 ::
  map Data (event_lines fh 1 (filter (is_event_of 1) (map fst blocks))) ++
  [ContinuousDataFor 0].

(** The array [slowheaders] as
    [memset(slowheaders, 0, 64*sizeof(PL_SlowChannelHeader))] leaves it. *)
Definition memset_slowheaders : list Slow.PL_SlowChannelHeader :=
  repeat (Slow.mk 0 0 0) 64.

(** A file header of zeros: every field is 0 and the comment is empty. *)
Definition zero_header : PL_FileHeader := mkFH 0 0 0 0.
Definition zero_tables : PL_FileHeader_tables :=
  mkTables 0 (repeat x00 128) (fun _ _ => 0) (fun _ _ => 0) (fun _ => 0).

(** The block [db] with another value in the high byte of the timestamp. *)
Definition with_high (db : PL_DataBlockHeader) (high : Z)
  : PL_DataBlockHeader :=
  {| db_Type := db_Type db;
     UpperByteOf5ByteTimestamp := high;
     TimeStamp := TimeStamp db;
     Channel := Channel db;
     Unit := Unit db;
     NumberOfWaveforms := NumberOfWaveforms db;
     NumberOfWordsInWaveform := NumberOfWordsInWaveform db |}.

(** The A/D block of the examples with a high byte of 1. *)
Definition late_ad : PL_DataBlockHeader := mkDB 5 1 1000 0 0 1 3.

(** The records of the blocks that a counting scan prints: those of
    SAMPLE 1, SAMPLE 2 and SAMPLE 3. *)
Definition records_of (fh : PL_FileHeader) (k : counting_scan)
    (blocks : list (PL_DataBlockHeader * list Z)) : list line :=
  match k with
  | Timestamps c u =>
      spike_lines fh 1 (filter (is_spike_of c u) (map fst blocks))
  | Waveforms c u =>
      waveform_lines fh 1
        (filter (fun b => is_spike_of c u (fst b) && has_waveform (fst b))
                blocks)
  | Events e =>
      event_lines fh 1 (filter (is_event_of e) (map fst blocks))
  end.

(** The stream behind the first [n] bytes of what is left. *)
Definition behind (fp : FILE) (n : nat) : FILE :=
  mkFILE (contents fp) (position fp + n) false.

(** ** Example files told by their blocks *)

(** Two spikes and an event of channel 1, and an A/D block of channel 0. *)
Definition example_session : list (PL_DataBlockHeader * list Z) :=
  [(example_spike, [10; -10; 5]); (mkDB 4 0 150 1 0 0 0, []);
   (mkDB 1 0 180 1 1 1 2, [7; 8]); (example_ad, [4096; 0; -4096])].

(** The file header and the one slow channel header of a file, as bytes
    under [example_layout].  The fields lie where the structs of the
    Plexon SDK have them: the version at offset 4, the comment at 8, the
    frequency at 136 and the three channel counts at 140, 144 and 148 of
    the file header, the count tables from 256 on; the channel, the
    frequency and the gain at 32, 36 and 40 of a slow channel header.  The
    embedding does not decode these bytes: [example_ad_header],
    [example_ad_counts] and [example_slowheaders] are their overlays. *)
Definition example_ad_tables : list byte :=
  (repeat x00 4 ++ le_bytes 4 105 ++
   ([x61; x62] ++ repeat x00 126) ++
   le_bytes 4 40000 ++ le_bytes 4 0 ++ le_bytes 4 0 ++ le_bytes 4 1 ++
   repeat x00 (Z.to_nat (7504 - 152))) ++
  (repeat x00 32 ++ le_bytes 4 0 ++ le_bytes 4 20000 ++ le_bytes 4 1 ++
   repeat x00 (296 - 44)).
Definition example_ad_counts : PL_FileHeader_tables :=
  mkTables 105 ([x61; x62] ++ repeat x00 126)
    (fun _ _ => 0) (fun _ _ => 0) (fun _ => 0).

(** A whole file for [main]: these headers, then the three example
    blocks. *)
Definition example_plx : list byte := example_ad_tables ++ example_blocks.

(** A file header of zeros, as a file: every field of its overlay is 0,
    the comment is empty and no slow channel header is declared. *)
Definition zero_header_file : list byte := repeat x00 (Z.to_nat 7504).

(** A block that declares 300 samples and has them, and one that declares
    1000 samples and has 300. *)
Definition oversized_file : list byte :=
  header_bytes (mkDB 1 0 100 1 1 1 300) ++ repeat x00 600.
Definition overdeclared_file : list byte :=
  header_bytes (mkDB 1 0 100 1 1 1 1000) ++ repeat x00 600.

(** A block with a negative number of words, before a spike. *)
Definition negative_words_file : list byte :=
  header_bytes (mkDB 1 0 50 1 1 1 (-1)) ++ block_bytes example_spike
    [10; -10; 5].

(** An A/D block that declares words and no waveform. *)
Definition stale_ad : PL_DataBlockHeader := mkDB 5 0 1000 0 0 0 3.

(** Headers of channel 0 behind one of channel 1; the first of channel 0
    has no frequency. *)
Definition example_header_array : list Slow.PL_SlowChannelHeader :=
  [Slow.mk 1 1000 1; Slow.mk 0 0 5; Slow.mk 0 20000 1].
Definition three_slow_channels : PL_FileHeader := mkFH 40000 0 0 3.

(** * Properties *)

(** ** Machine integers *)

Lemma int_small x : CInt.in_int x -> CInt.int x = x.
Proof.
  unfold CInt.in_int, CInt.INT_MIN, CInt.INT_MAX, CInt.int, CInt.to_signed.
  intros H. change (2 ^ 32) with 4294967296. change (2 ^ (32 - 1)) with 2147483648.
  destruct (Z_lt_le_dec x 0).
  - replace (x mod 4294967296) with (x + 4294967296).
    + destruct (x + 4294967296 <? 2147483648) eqn:E;
        [apply Z.ltb_lt in E|]; lia.
    + apply Z.mod_unique with (q := -1); lia.
  - rewrite Z.mod_small by lia.
    destruct (x <? 2147483648) eqn:E; [|apply Z.ltb_ge in E]; lia.
Qed.

Lemma int_range x : CInt.in_int (CInt.int x).
Proof.
  unfold CInt.in_int, CInt.INT_MIN, CInt.INT_MAX, CInt.int, CInt.to_signed.
  change (2 ^ 32) with 4294967296. change (2 ^ (32 - 1)) with 2147483648.
  pose proof (Z.mod_pos_bound x 4294967296 ltac:(lia)).
  destruct (x mod 4294967296 <? 2147483648) eqn:E;
    [apply Z.ltb_lt in E|apply Z.ltb_ge in E]; lia.
Qed.

Lemma int_congruent x : (CInt.int x) mod 2 ^ 32 = x mod 2 ^ 32.
Proof.
  unfold CInt.int, CInt.to_signed.
  change (2 ^ 32) with 4294967296. change (2 ^ (32 - 1)) with 2147483648.
  destruct (x mod 4294967296 <? 2147483648).
  - apply Z.mod_mod; lia.
  - replace (x mod 4294967296 - 4294967296)
      with (x mod 4294967296 + (-1) * 4294967296) by lia.
    rewrite Z.mod_add by lia. apply Z.mod_mod; lia.
Qed.

(** [int] depends on its argument modulo [2^32] only. *)
Lemma int_of_congruent x y :
  x mod 2 ^ 32 = y mod 2 ^ 32 -> CInt.int x = CInt.int y.
Proof. unfold CInt.int, CInt.to_signed. intros ->. reflexivity. Qed.

Lemma int_add_int x y : CInt.int (x + CInt.int y) = CInt.int (x + y).
Proof.
  apply int_of_congruent.
  rewrite Z.add_mod by (change (2 ^ 32) with 4294967296; lia).
  rewrite int_congruent.
  rewrite <- Z.add_mod by (change (2 ^ 32) with 4294967296; lia).
  reflexivity.
Qed.

Lemma int_mul_int x y : CInt.int (x * CInt.int y) = CInt.int (x * y).
Proof.
  apply int_of_congruent.
  rewrite Z.mul_mod by (change (2 ^ 32) with 4294967296; lia).
  rewrite int_congruent.
  rewrite <- Z.mul_mod by (change (2 ^ 32) with 4294967296; lia).
  reflexivity.
Qed.

Lemma size_t_small x : 0 <= x < 2 ^ 32 -> CInt.size_t x = x.
Proof. intros H. unfold CInt.size_t, CInt.to_unsigned. apply Z.mod_small, H. Qed.

(** ** The stream *)

Lemma fread_position size fp :
  position (snd (fread size fp)) =
  (position fp + length (fst (fst (fread size fp))))%nat.
Proof.
  unfold fread; simpl. rewrite length_firstn.
  destruct (size <? Z.of_nat (length (remaining fp))) eqn:E.
  - apply Z.ltb_lt in E. lia.
  - lia.
Qed.

Lemma fread_contents size fp : contents (snd (fread size fp)) = contents fp.
Proof. reflexivity. Qed.

Lemma remaining_length fp :
  length (remaining fp) = (length (contents fp) - position fp)%nat.
Proof. unfold remaining. apply length_skipn. Qed.

Lemma fread_whole_item size fp :
  snd (fst (fread size fp)) = 1 ->
  0 < size /\ length (fst (fst (fread size fp))) = Z.to_nat size /\
  (Z.to_nat size <= length (remaining fp))%nat.
Proof.
  unfold fread; simpl. rewrite length_firstn.
  destruct (size <? Z.of_nat (length (remaining fp))) eqn:E.
  - apply Z.ltb_lt in E.
    destruct (Z.of_nat (Z.to_nat size) <? size) eqn:F; simpl; try discriminate.
    destruct (size <=? 0) eqn:G; try discriminate.
    apply Z.leb_gt in G. apply Z.ltb_ge in F. lia.
  - apply Z.ltb_ge in E.
    destruct (Z.of_nat (length (remaining fp)) <? size) eqn:F; simpl;
      try discriminate.
    destruct (size <=? 0) eqn:G; try discriminate.
    apply Z.leb_gt in G. apply Z.ltb_ge in F. lia.
Qed.

(** Every fetched block moves the cursor forward by at least the header,
    inside the file: this is what makes a scan terminate. *)
Lemma fetch_progress fp buf db nbuf fp' buf' :
  fetch fp buf = Fetched db nbuf fp' buf' ->
  (length (remaining fp') < length (remaining fp))%nat.
Proof.
  unfold fetch. destruct (feof fp); [discriminate|].
  destruct (fread sizeof_db fp) as [[hdr items] fp1] eqn:R1.
  destruct (items =? 1) eqn:I; [|discriminate].
  apply Z.eqb_eq in I. subst items.
  pose proof (fread_whole_item sizeof_db fp) as W.
  pose proof (fread_position sizeof_db fp) as P1.
  rewrite R1 in W, P1. simpl in W, P1. specialize (W eq_refl).
  destruct W as (_ & L & A).
  assert (C1 : contents fp1 = contents fp)
    by (change fp1 with (snd (hdr, 1, fp1)); rewrite <- R1; reflexivity).
  change (Z.to_nat sizeof_db) with 16%nat in *.
  destruct (0 <? NumberOfWaveforms (overlay_db hdr)).
  - destruct (fread _ fp1) as [[got k] fp2] eqn:R2.
    pose proof (fread_position
      (CInt.size_t (CInt.int (NumberOfWaveforms (overlay_db hdr) *
         NumberOfWordsInWaveform (overlay_db hdr)) * 2)) fp1) as P2.
    rewrite R2 in P2. simpl in P2.
    assert (C2 : contents fp2 = contents fp).
    { rewrite <- C1. change fp2 with (snd (got, k, fp2)).
      rewrite <- R2. reflexivity. }
    destruct (buf_store got buf); [|discriminate].
    intros E; inversion E; subst.
    rewrite !remaining_length in *. rewrite C2. lia.
  - intros E; inversion E; subst.
    rewrite !remaining_length in *. rewrite C1. lia.
Qed.

Lemma fread_enough size fp :
  0 < size -> size <= Z.of_nat (length (remaining fp)) ->
  fread size fp =
  (firstn (Z.to_nat size) (remaining fp), 1,
   mkFILE (contents fp) (position fp + Z.to_nat size) (eof_flag fp)).
Proof.
  intros Hpos Hle. unfold fread.
  destruct (size <? Z.of_nat (length (remaining fp))) eqn:E.
  - replace (Z.of_nat (Z.to_nat size) <? size) with false
      by (symmetry; apply Z.ltb_ge; lia).
    replace (size <=? 0) with false by (symmetry; apply Z.leb_gt; lia).
    rewrite !orb_false_r. reflexivity.
  - apply Z.ltb_ge in E.
    assert (Hn : length (remaining fp) = Z.to_nat size) by lia.
    rewrite Hn.
    replace (Z.of_nat (Z.to_nat size) <? size) with false
      by (symmetry; apply Z.ltb_ge; lia).
    replace (size <=? 0) with false by (symmetry; apply Z.leb_gt; lia).
    rewrite !orb_false_r. reflexivity.
Qed.

Lemma fread_nothing fp :
  fread 0 fp = ([], 0, mkFILE (contents fp) (position fp) (eof_flag fp)).
Proof.
  unfold fread.
  destruct (0 <? Z.of_nat (length (remaining fp))) eqn:E.
  - simpl. rewrite Nat.add_0_r, orb_false_r. reflexivity.
  - apply Z.ltb_ge in E.
    assert (Hn : length (remaining fp) = 0%nat) by lia.
    rewrite Hn. simpl. rewrite Nat.add_0_r, orb_false_r. reflexivity.
Qed.

Lemma fread_short size fp :
  Z.of_nat (length (remaining fp)) < size ->
  fread size fp =
  (remaining fp, 0,
   mkFILE (contents fp) (position fp + length (remaining fp)) true).
Proof.
  intros Hlt. unfold fread.
  replace (size <? Z.of_nat (length (remaining fp))) with false
    by (symmetry; apply Z.ltb_ge; lia).
  replace (Z.of_nat (length (remaining fp)) <? size) with true
    by (symmetry; apply Z.ltb_lt; lia).
  rewrite firstn_all, orb_true_r. reflexivity.
Qed.

(** The loop of a scan, one round unfolded. *)
Lemma scan_round {S : Type}
    (body : PL_DataBlockHeader -> Z -> list byte -> S -> option S)
    (fp : FILE) (buf : list byte) (s : S) :
  scan body fp buf s =
  match fetch fp buf with
  | Stop fp' => Finished s fp' buf
  | Smashed => Undefined
  | Fetched db nbuf fp' buf' =>
      match body db nbuf buf' s with
      | Some s' => scan body fp' buf' s'
      | None => Undefined
      end
  end.
Proof.
  funelim (scan body fp buf s);
    match goal with E : fetch _ _ = _ |- _ => rewrite E end;
    try match goal with E : body _ _ _ _ = _ |- _ => rewrite E end;
    reflexivity.
Qed.

(** ** The data-start offset *)

Lemma read_table_whole count elem capacity fp :
  0 < count <= capacity -> 0 < elem -> capacity * elem < 2 ^ 32 ->
  count * elem <= Z.of_nat (length (remaining fp)) ->
  read_table count elem capacity fp =
  Some (mkFILE (contents fp) (position fp + Z.to_nat (count * elem))
               (eof_flag fp)).
Proof.
  intros Hc He Hcap Hfile. unfold read_table.
  assert (Hce : 0 < count * elem <= capacity * elem) by nia.
  rewrite (size_t_small count) by nia.
  rewrite (size_t_small (count * elem)) by lia.
  rewrite fread_enough by lia.
  rewrite length_firstn.
  replace (Z.of_nat (Nat.min (Z.to_nat (count * elem))
                             (length (remaining fp))) <=? capacity * elem)
    with true by (symmetry; apply Z.leb_le; lia).
  reflexivity.
Qed.

Lemma remaining_at file p e :
  Z.of_nat (length (remaining (mkFILE file p e))) =
  Z.max 0 (Z.of_nat (length file) - Z.of_nat p).
Proof. rewrite remaining_length. simpl. lia. Qed.

Local Ltac at_file :=
  rewrite ?remaining_at; cbn [contents position eof_flag].

Local Ltac whole_table capacity :=
  rewrite (read_table_whole _ _ capacity) by (at_file; nia); at_file.

Lemma add_congruent a a' b b' :
  a mod 2 ^ 32 = a' mod 2 ^ 32 -> b mod 2 ^ 32 = b' mod 2 ^ 32 ->
  (a + b) mod 2 ^ 32 = (a' + b') mod 2 ^ 32.
Proof.
  intros Ha Hb.
  assert (M : 2 ^ 32 <> 0) by (change (2 ^ 32) with 4294967296; lia).
  rewrite Z.add_mod, Ha, Hb, <- Z.add_mod by exact M. reflexivity.
Qed.

(** [count*sizeof(elem)] in [size_t]. *)
Lemma table_size_congruent count elem :
  (CInt.size_t (CInt.size_t count * elem)) mod 2 ^ 32 =
  (count * elem) mod 2 ^ 32.
Proof.
  assert (M : 2 ^ 32 <> 0) by (change (2 ^ 32) with 4294967296; lia).
  unfold CInt.size_t, CInt.to_unsigned.
  rewrite Z.mod_mod, Zmult_mod_idemp_l by exact M. reflexivity.
Qed.

(** The arithmetic of [datastart] is that of [size_t]; the result is the
    sum of the specification whenever that sum is an [int]. *)
Lemma datastart_formula h fh :
  CInt.in_int (dataStartOffset_spec h fh) ->
  datastart h fh = dataStartOffset_spec h fh.
Proof.
  intros Hr. rewrite <- (int_small _ Hr).
  unfold datastart, dataStartOffset_spec.
  apply int_of_congruent.
  assert (M : 2 ^ 32 <> 0) by (change (2 ^ 32) with 4294967296; lia).
  unfold CInt.size_t at 1 2 3, CInt.to_unsigned.
  rewrite Z.mod_mod by exact M.
  apply add_congruent; [|apply table_size_congruent].
  rewrite Z.mod_mod by exact M.
  apply add_congruent; [|apply table_size_congruent].
  rewrite Z.mod_mod by exact M.
  apply add_congruent; [reflexivity|apply table_size_congruent].
Qed.

(** C1.  [datastart] is the size of the file header plus, for the DSP,
    event and slow channels in this order, the declared count times the
    size of that channel header (whenever this sum is an [int]).  For
    every header whose counts are counts of tables in the file it is the
    offset of the first data block: the reads of the headers leave the
    stream there for the first scan, and each rewind of a later scan puts
    it back there. *)
Theorem datastart_offset (h : Plexon_h) (fh : PL_FileHeader)
    (file : list byte) :
  (CInt.in_int (dataStartOffset_spec h fh) ->
   datastart h fh = dataStartOffset_spec h fh)
  /\ (object_sizes h -> declared_counts fh ->
      dataStartOffset_spec h fh <= Z.of_nat (length file) ->
      datastart h fh = dataStartOffset_spec h fh /\
      read_headers h fh (fopen file) =
        Some (mkFILE file (Z.to_nat (datastart h fh)) false) /\
      forall fp, contents fp = file ->
        fseek fp (datastart h fh) =
        mkFILE file (Z.to_nat (datastart h fh)) false).
Proof.
  split; [apply datastart_formula|].
  intros (Hfh & Hch & Hev & Hsl & Hmax) (Hd & He & Hs).
  unfold CInt.INT_MAX in Hmax.
  assert (Hdsp : 0 <= NumDSPChannels fh * sizeof_PL_ChanHeader h
                 <= 128 * sizeof_PL_ChanHeader h) by nia.
  assert (Hevt : 0 <= NumEventChannels fh * sizeof_PL_EventHeader h
                 <= 512 * sizeof_PL_EventHeader h) by nia.
  assert (Hslw : 0 <= NumSlowChannels fh * sizeof_PL_SlowChannelHeader h
                 <= 64 * sizeof_PL_SlowChannelHeader h) by nia.
  assert (P32 : 2 ^ 32 = 4294967296) by reflexivity.
  assert (Hform : datastart h fh = dataStartOffset_spec h fh).
  { apply datastart_formula.
    unfold dataStartOffset_spec, CInt.in_int, CInt.INT_MIN, CInt.INT_MAX.
    lia. }
  rewrite Hform. unfold dataStartOffset_spec in *.
  intros Hfile. split; [reflexivity|]. split.
  - unfold read_headers, fopen.
    rewrite fread_enough by (at_file; lia). at_file.
    destruct (0 <? NumDSPChannels fh) eqn:Ed;
      [apply Z.ltb_lt in Ed; whole_table 128 | apply Z.ltb_ge in Ed];
      (destruct (0 <? NumEventChannels fh) eqn:Ee;
         [apply Z.ltb_lt in Ee; whole_table 512 | apply Z.ltb_ge in Ee]);
      (destruct (NumSlowChannels fh =? 0) eqn:Es;
         [apply Z.eqb_eq in Es | apply Z.eqb_neq in Es; whole_table 64]);
      f_equal; f_equal; nia.
  - intros fp Hfp. unfold fseek.
    replace (_ <? 0) with false by (symmetry; apply Z.ltb_ge; lia).
    rewrite Hfp. reflexivity.
Qed.

Lemma datastart_offset_witness :
  datastart example_layout example_header =
    7504 + 2 * 1020 + 1 * 296 + 1 * 296 /\
  read_headers example_layout example_header (fopen example_tables) =
    Some (mkFILE example_tables (Z.to_nat 10136) false) /\
  forall fp, contents fp = example_tables ->
    fseek fp (datastart example_layout example_header) =
    mkFILE example_tables (Z.to_nat 10136) false.
Proof.
  assert (Hs : object_sizes example_layout)
    by (unfold object_sizes, CInt.INT_MAX; simpl; lia).
  assert (Hc : declared_counts example_header)
    by (unfold declared_counts; simpl; lia).
  apply (proj2 (datastart_offset example_layout example_header
                  example_tables) Hs Hc).
  vm_compute. discriminate.
Defined.

(** ** The bytes a block takes *)

Lemma remaining_after fp n e :
  Z.of_nat (length (remaining (mkFILE (contents fp) (position fp + n) e))) =
  Z.max 0 (Z.of_nat (length (remaining fp)) - Z.of_nat n).
Proof. rewrite !remaining_length. simpl. lia. Qed.

Lemma short_range x : CInt.in_short (CInt.short x).
Proof.
  unfold CInt.in_short, CInt.short, CInt.to_signed.
  change (2 ^ 16) with 65536. change (2 ^ (16 - 1)) with 32768.
  pose proof (Z.mod_pos_bound x 65536 ltac:(lia)).
  destruct (x mod 65536 <? 32768) eqn:E;
    [apply Z.ltb_lt in E|apply Z.ltb_ge in E]; lia.
Qed.

(** The loop head on a stream that holds a whole block header. *)
Lemma fetch_header fp buf :
  feof fp = false ->
  sizeof_db <= Z.of_nat (length (remaining fp)) ->
  fetch fp buf =
    if 0 <? NumberOfWaveforms (header_at fp) then
      let '(got, _, fp2) :=
        fread (CInt.size_t (CInt.int (sampleCount_spec (header_at fp)) * 2))
              (mkFILE (contents fp) (position fp + 16) false) in
      match buf_store got buf with
      | Some buf' =>
          Fetched (header_at fp) (CInt.int (sampleCount_spec (header_at fp)))
                  fp2 buf'
      | None => Smashed
      end
    else Fetched (header_at fp) 0
           (mkFILE (contents fp) (position fp + 16) false) buf.
Proof.
  intros Heof Hhdr. unfold feof in Heof. unfold fetch, feof. rewrite Heof.
  rewrite fread_enough by (unfold sizeof_db in *; lia).
  rewrite Heof. reflexivity.
Qed.

Lemma remaining_skip fp n e :
  remaining (mkFILE (contents fp) (position fp + n) e) =
  skipn n (remaining fp).
Proof.
  unfold remaining. cbn [contents position].
  rewrite skipn_skipn. f_equal. lia.
Qed.

(** The loop head on a block that is whole in the file: it takes the
    header and the declared samples, unless they run past [buf]. *)
Lemma fetch_whole fp buf :
  feof fp = false ->
  0 <= NumberOfWaveforms (header_at fp) ->
  0 <= NumberOfWordsInWaveform (header_at fp) ->
  sizeof_db + 2 * sampleCount_spec (header_at fp)
    <= Z.of_nat (length (remaining fp)) ->
  fetch fp buf =
    match buf_store
            (firstn (Z.to_nat (2 * sampleCount_spec (header_at fp)))
                    (skipn 16 (remaining fp))) buf with
    | Some buf' =>
        Fetched (header_at fp) (sampleCount_spec (header_at fp))
          (mkFILE (contents fp)
             (position fp + 16 +
              Z.to_nat (2 * sampleCount_spec (header_at fp))) false)
          buf'
    | None => Smashed
    end.
Proof.
  intros Heof Hw Hn Hfile.
  pose proof (short_range (le_unsigned (field 12 2 (firstn 16 (remaining fp)))))
    as Rw.
  pose proof (short_range (le_unsigned (field 14 2 (firstn 16 (remaining fp)))))
    as Rn.
  change (CInt.short _) with (NumberOfWaveforms (header_at fp)) in Rw.
  change (CInt.short _) with (NumberOfWordsInWaveform (header_at fp)) in Rn.
  unfold CInt.in_short in Rw, Rn.
  unfold sampleCount_spec, sizeof_db in *.
  set (db := header_at fp) in *.
  set (n := NumberOfWaveforms db * NumberOfWordsInWaveform db) in *.
  assert (Hn0 : 0 <= n <= 32767 * 32767) by (subst n; nia).
  rewrite fetch_header by (unfold sizeof_db; first [exact Heof | lia]).
  fold db. unfold sampleCount_spec. fold n.
  destruct (0 <? NumberOfWaveforms db) eqn:E.
  - rewrite (int_small n)
      by (unfold CInt.in_int, CInt.INT_MIN, CInt.INT_MAX; lia).
    rewrite size_t_small by (change (2 ^ 32) with 4294967296; lia).
    destruct (Z.eq_dec n 0) as [Hz|Hz].
    + rewrite Hz. simpl (0 * 2). rewrite fread_nothing.
      cbn [contents position eof_flag]. simpl (Z.to_nat (2 * 0)).
      rewrite Nat.add_0_r. reflexivity.
    + pose proof (remaining_after fp 16 false) as R.
      rewrite fread_enough by lia.
      cbn [contents position eof_flag]. rewrite remaining_skip.
      replace (n * 2) with (2 * n) by lia. reflexivity.
  - apply Z.ltb_ge in E.
    assert (Hz : n = 0) by (subst n; nia).
    rewrite Hz. simpl (Z.to_nat (2 * 0)). rewrite Nat.add_0_r. reflexivity.
Qed.

(** ** The loop over the samples of a block *)

Lemma for_each_length {A : Type} (f : Z -> option A) n :
  forall i0 l, for_each f i0 n = Some l -> length l = n.
Proof.
  induction n as [|n IH]; simpl; intros i0 l H.
  - inversion H. reflexivity.
  - destruct (f i0); [|discriminate].
    destruct (for_each f (i0 + 1) n) eqn:E; [|discriminate].
    inversion H. simpl. f_equal. eapply IH, E.
Qed.

Lemma for_each_nth {A : Type} (f : Z -> option A) n :
  forall i0 l, for_each f i0 n = Some l ->
  forall k, (k < n)%nat -> nth_error l k = f (i0 + Z.of_nat k).
Proof.
  induction n as [|n IH]; simpl; intros i0 l H k Hk; [lia|].
  destruct (f i0) eqn:F; [|discriminate].
  destruct (for_each f (i0 + 1) n) eqn:E; [|discriminate].
  inversion H; subst l. destruct k as [|k].
  - simpl. rewrite Z.add_0_r. symmetry. exact F.
  - simpl nth_error. rewrite (IH _ _ E k) by lia. f_equal. lia.
Qed.

Lemma for_each_defined {A : Type} (f : Z -> option A) n :
  forall i0,
  (forall k, (k < n)%nat -> f (i0 + Z.of_nat k) <> None) ->
  exists l, for_each f i0 n = Some l.
Proof.
  induction n as [|n IH]; simpl; intros i0 H.
  - eexists; reflexivity.
  - destruct (f i0) eqn:F.
    + destruct (IH (i0 + 1)) as [l Hl].
      { intros k Hk. replace (i0 + 1 + Z.of_nat k)
          with (i0 + Z.of_nat (Datatypes.S k)) by lia. apply H. lia. }
      rewrite Hl. eexists; reflexivity.
    + exfalso. apply (H 0%nat); [lia|]. rewrite Z.add_0_r. exact F.
Qed.

Lemma buf_get_inside buf i :
  0 <= i < buf_len -> buf_get buf i = Some (short_at (Z.to_nat (2 * i)) buf).
Proof.
  intros H. unfold buf_get.
  replace (0 <=? i) with true by (symmetry; apply Z.leb_le; lia).
  replace (i <? buf_len) with true by (symmetry; apply Z.ltb_lt; lia).
  reflexivity.
Qed.

(** What one round of the loop of SAMPLE 4 prints for the sample [raw]
    found at [buf[i]]. *)
Lemma ad_line_of_sample fh gain ticks db buf i raw :
  buf_get buf i = Some raw ->
  ad_line fh gain ticks db buf i =
  Some (ADValue raw
          ((CInt.to_double raw * 5 / 2048) / CInt.to_double gain)%float
          (CInt.int (TimeStamp db + i * ticks))
          (seconds fh (CInt.int (TimeStamp db + i * ticks)))).
Proof.
  intros H. unfold ad_line. rewrite H, int_add_int. reflexivity.
Qed.

Lemma ad_lines_defined fh gain ticks db buf :
  NumberOfWordsInWaveform db <= buf_len ->
  exists values,
    for_each (ad_line fh gain ticks db buf) 0
      (Z.to_nat (NumberOfWordsInWaveform db)) = Some values.
Proof.
  intros H. apply for_each_defined. intros k Hk.
  assert (Hi : 0 <= 0 + Z.of_nat k < buf_len) by lia.
  rewrite (ad_line_of_sample _ _ _ _ _ _ _ (buf_get_inside buf _ Hi)).
  discriminate.
Qed.

(** The body of SAMPLE 4 on a block of the extracted channel. *)
Lemma sample4_body_matching fh ch gain ticks db nbuf buf s :
  db_Type db = PL_ADDataType -> Channel db = ch ->
  sample4_body fh ch gain ticks db nbuf buf s =
  match for_each (ad_line fh gain ticks db buf) 0
          (Z.to_nat (NumberOfWordsInWaveform db)) with
  | Some values =>
      Some {| ad_count := CInt.int (ad_count s + 1);
              first_timestamp :=
                if first_timestamp s =? -1 then TimeStamp db
                else first_timestamp s;
              ad_printed := ad_printed s ++
                (if first_timestamp s =? -1
                 then [FirstPoint (ad_count s) (TimeStamp db)
                                  (seconds fh (TimeStamp db))]
                 else []) ++ values |}
  | None => None
  end.
Proof.
  intros Ht Hc. unfold sample4_body. rewrite Ht, Hc, !Z.eqb_refl. reflexivity.
Qed.

(** A block of the extracted channel whose samples lie in [buf]: the body
    is defined and prints one line for each of its
    [NumberOfWordsInWaveform] samples. *)
Lemma sample4_block fh ch gain ticks db nbuf buf s :
  db_Type db = PL_ADDataType -> Channel db = ch ->
  NumberOfWordsInWaveform db <= buf_len ->
  exists s' values,
    sample4_body fh ch gain ticks db nbuf buf s = Some s' /\
    ad_printed s' = ad_printed s ++ first_line fh s db ++ values /\
    length values = Z.to_nat (NumberOfWordsInWaveform db) /\
    forall i, 0 <= i < NumberOfWordsInWaveform db ->
      nth_error values (Z.to_nat i) = Some (value_line fh gain ticks db buf i).
Proof.
  intros Ht Hc Hn.
  destruct (ad_lines_defined fh gain ticks db buf Hn) as [values Hv].
  rewrite (sample4_body_matching _ _ _ _ _ _ _ _ Ht Hc), Hv.
  eexists. exists values. split; [reflexivity|].
  split; [reflexivity|]. split; [eapply for_each_length, Hv|].
  intros i Hi.
  rewrite (for_each_nth _ _ _ _ Hv) by lia.
  rewrite Z.add_0_l, Z2Nat.id by lia.
  apply ad_line_of_sample, buf_get_inside. lia.
Qed.

Lemma ad_line_is_value_line fh gain ticks db buf i l :
  ad_line fh gain ticks db buf i = Some l ->
  l = value_line fh gain ticks db buf i.
Proof.
  unfold ad_line, buf_get, value_line.
  destruct ((0 <=? i) && (i <? buf_len)); [|discriminate].
  rewrite int_add_int. intros H. inversion H. reflexivity.
Qed.

(** Whenever the body of SAMPLE 4 is defined on a block of the extracted
    channel, it has printed one line for each of the
    [NumberOfWordsInWaveform] samples. *)
Lemma sample4_block_lines fh ch gain ticks db nbuf buf s s' :
  db_Type db = PL_ADDataType -> Channel db = ch ->
  sample4_body fh ch gain ticks db nbuf buf s = Some s' ->
  exists values,
    ad_printed s' = ad_printed s ++ first_line fh s db ++ values /\
    length values = Z.to_nat (NumberOfWordsInWaveform db) /\
    forall i, 0 <= i < NumberOfWordsInWaveform db ->
      nth_error values (Z.to_nat i) = Some (value_line fh gain ticks db buf i).
Proof.
  intros Ht Hc. rewrite (sample4_body_matching _ _ _ _ _ _ _ _ Ht Hc).
  destruct (for_each _ 0 _) as [values|] eqn:Hv; [|discriminate].
  intros H. inversion H; subst s'. cbn [ad_printed].
  exists values. split; [reflexivity|].
  pose proof (for_each_length _ _ _ _ Hv) as Hl. split; [exact Hl|].
  intros i Hi.
  pose proof (for_each_nth _ _ _ _ Hv (Z.to_nat i) ltac:(lia)) as Hn.
  rewrite Z.add_0_l, Z2Nat.id in Hn by lia.
  destruct (nth_error values (Z.to_nat i)) as [l|] eqn:E.
  - f_equal. apply ad_line_is_value_line. symmetry. exact Hn.
  - exfalso. apply nth_error_None in E. lia.
Qed.

Lemma sample4_block_defined fh ch gain ticks db nbuf buf s :
  db_Type db = PL_ADDataType -> Channel db = ch ->
  NumberOfWordsInWaveform db <= buf_len ->
  exists s', sample4_body fh ch gain ticks db nbuf buf s = Some s'.
Proof.
  intros Ht Hc Hn.
  destruct (sample4_block fh ch gain ticks db nbuf buf s Ht Hc Hn)
    as (s' & _ & Hb & _).
  exists s'. exact Hb.
Qed.

(** ** Timestamps of continuous data *)

Lemma div_is_quot a b : CInt.div a b = CInt.int (Z.quot a b).
Proof. reflexivity. Qed.

Lemma int_add_mul_int t i q :
  CInt.int (t + i * CInt.int q) = CInt.int (t + i * q).
Proof. rewrite <- int_add_int, int_mul_int, int_add_int. reflexivity. Qed.

(** C6 as stated: a timestamp [block.timestamp + i * (masterFrequency /
    channelFrequency)] for every sample index [i] below the sample count
    [waveformCount * wordsPerWaveform].  The block of [example_ad2_file]
    has 2 waveforms of 3 words, a sample count of 6, and SAMPLE 4 prints
    3 timestamps for it: the samples 3, 4 and 5 get none.  And
    [block.timestamp] is the 40-bit timestamp of the block: [late_ad] is
    stamped 4294968296, high byte 1 and low word 1000, and its samples are
    printed at 1000, 1002 and 1004. *)
Lemma reconstructed_timestamps_fall_short :
  (sampleCount_spec example_ad2 = 6 /\
   ad_timestamps
     (returned (sample4 example_ad_header example_slowheaders 0
                  (fopen example_ad2_file) example_buf))
   = [1000; 1002; 1004]) /\
  (overlay_db (header_bytes late_ad) = late_ad /\
   timestamp40_spec late_ad = 4294968296 /\
   ad_timestamps
     (returned (sample4 example_ad_header example_slowheaders 0
                  (fopen (block_bytes late_ad [4096; 0; -4096]))
                  example_buf))
   = [1000; 1002; 1004] /\
   ad_timestamps
     (returned (sample4 example_ad_header example_slowheaders 0
                  (fopen (block_bytes late_ad [4096; 0; -4096]))
                  example_buf))
   <> map (fun i => timestamp40_spec late_ad + i * Z.quot 40000 20000)
          [0; 1; 2]).
Proof. repeat split; vm_compute; congruence. Qed.

(** C6, amended.  For every A/D block of the extracted channel, with a
    channel frequency that is not 0, the samples that are printed are
    those of index [i] below [NumberOfWordsInWaveform], and sample [i] is
    printed with the timestamp [TimeStamp + i * (ADFrequency / adfreq)],
    [TimeStamp] being the low word of the block's timestamp read as a
    signed [long] and the division the truncating one of [int]: as an
    [int], and as that very number when it is in the range of [int].  The
    samples are printed whenever they lie in [buf].  The indices are all
    those below the sample count when the block has one waveform, and
    [TimeStamp] is the 40-bit timestamp of the block when the high byte is
    0 and the low word has its top bit clear.  The example block at 1000
    ticks, clock 40000 and channel frequency 20000, gets 1000, 1002,
    1004. *)
Theorem reconstructed_timestamps fh ch gain adfreq db nbuf buf s :
  adfreq <> 0 ->
  db_Type db = PL_ADDataType -> Channel db = ch ->
  (forall s',
     sample4_body fh ch gain (CInt.div (ADFrequency fh) adfreq)
       db nbuf buf s = Some s' ->
     exists values,
       ad_printed s' = ad_printed s ++ first_line fh s db ++ values /\
       length values = Z.to_nat (NumberOfWordsInWaveform db) /\
       forall i, 0 <= i < NumberOfWordsInWaveform db ->
         exists raw v ts secs,
           nth_error values (Z.to_nat i) = Some (ADValue raw v ts secs) /\
           ts = CInt.int (TimeStamp db + i * Z.quot (ADFrequency fh) adfreq) /\
           (CInt.in_int (TimeStamp db + i * Z.quot (ADFrequency fh) adfreq) ->
            ts = TimeStamp db + i * Z.quot (ADFrequency fh) adfreq))
  /\ (NumberOfWordsInWaveform db <= buf_len ->
      exists s',
        sample4_body fh ch gain (CInt.div (ADFrequency fh) adfreq)
          db nbuf buf s = Some s')
  /\ (NumberOfWaveforms db = 1 ->
      sampleCount_spec db = NumberOfWordsInWaveform db)
  /\ (UpperByteOf5ByteTimestamp db = 0 -> 0 <= TimeStamp db < 2 ^ 31 ->
      TimeStamp db = timestamp40_spec db)
  /\ ad_timestamps
       (returned (sample4 example_ad_header example_slowheaders 0
                    (fopen example_ad_file) example_buf))
     = [1000; 1002; 1004].
Proof.
  intros _ Ht Hc.
  split; [|split; [|split; [|split; [|vm_compute; reflexivity]]]].
  - intros s' Hb.
    destruct (sample4_block_lines _ _ _ _ _ _ _ _ _ Ht Hc Hb)
      as (values & Hp & Hl & Hv).
    exists values. repeat split; try assumption.
    intros i Hi. rewrite (Hv i Hi). unfold value_line.
    do 4 eexists. split; [reflexivity|].
    rewrite div_is_quot, int_add_mul_int. split; [reflexivity|].
    intros Hr. apply int_small, Hr.
  - apply sample4_block_defined; assumption.
  - intros H1. unfold sampleCount_spec. rewrite H1. lia.
  - intros Hh Hlow. unfold timestamp40_spec, CInt.to_unsigned.
    rewrite Hh. change (Z.shiftl 0 32) with 0. rewrite Z.lor_0_l.
    symmetry. apply Z.mod_small.
    change (2 ^ 32) with 4294967296. change (2 ^ 31) with 2147483648 in Hlow.
    lia.
Qed.

Lemma reconstructed_timestamps_witness :
  exists s',
    sample4_body example_ad_header 0 1 (CInt.div 40000 20000)
      example_ad 3 (sample_bytes [4096; 0; -4096] ++ skipn 6 example_buf)
      (mkSampling 1 (-1) []) = Some s' /\
    ad_timestamps (ad_printed s') = [1000; 1002; 1004].
Proof.
  destruct (reconstructed_timestamps example_ad_header 0 1 20000 example_ad 3
              (sample_bytes [4096; 0; -4096] ++ skipn 6 example_buf)
              (mkSampling 1 (-1) []))
    as (_ & Hdef & _); try reflexivity; try discriminate.
  destruct Hdef as [s' Hs']; [vm_compute; discriminate|].
  exists s'. split; [exact Hs'|].
  vm_compute in Hs'. inversion Hs'. reflexivity.
Defined.

Lemma Forall_by_index {A : Type} (P : A -> Prop) (l : list A) :
  (forall k, (k < length l)%nat ->
     exists a, nth_error l k = Some a /\ P a) ->
  Forall P l.
Proof.
  intros H. apply Forall_forall. intros a Ha.
  destruct (In_nth_error _ _ Ha) as [k Hk].
  destruct (H k) as (b & Hb & Pb).
  - apply nth_error_Some. rewrite Hk. discriminate.
  - rewrite Hk in Hb. inversion Hb. exact Pb.
Qed.




(** ** Voltages of continuous data *)

(** C7.  For every raw sample [buf[i]] and every gain that is not 0,
    SAMPLE 4 prints the voltage [raw * 5.0 / 2048.0 / gain]; the samples
    4096, 0, -4096 at gain 1 give 10.0, 0.0, -10.0, alone and in the scan
    of the example block. *)
Theorem ad_voltage_conversion fh gain ticks db buf i raw :
  gain <> 0 ->
  buf_get buf i = Some raw ->
  (exists ts secs,
     ad_line fh gain ticks db buf i =
     Some (ADValue raw (adVoltage_spec raw gain) ts secs))
  /\ map (fun x => adVoltage_spec x 1) [4096; 0; -4096]
     = [10%float; 0%float; (-10)%float]
  /\ ad_voltages
       (returned (sample4 example_ad_header example_slowheaders 0
                    (fopen example_ad_file) example_buf))
     = [10%float; 0%float; (-10)%float].
Proof.
  intros _ Hraw. split; [|split; vm_compute; reflexivity].
  rewrite (ad_line_of_sample _ _ _ _ _ _ _ Hraw).
  do 2 eexists. reflexivity.
Qed.

Lemma ad_voltage_conversion_witness :
  (exists ts secs,
     ad_line example_ad_header 1 2 example_ad
       (sample_bytes [4096; 0; -4096] ++ skipn 6 example_buf) 2 =
     Some (ADValue (-4096) (adVoltage_spec (-4096) 1) ts secs))
  /\ map (fun x => adVoltage_spec x 1) [4096; 0; -4096]
     = [10%float; 0%float; (-10)%float]
  /\ ad_voltages
       (returned (sample4 example_ad_header example_slowheaders 0
                    (fopen example_ad_file) example_buf))
     = [10%float; 0%float; (-10)%float].
Proof.
  apply (ad_voltage_conversion example_ad_header 1 2 example_ad
           (sample_bytes [4096; 0; -4096] ++ skipn 6 example_buf) 2 (-4096)).
  - discriminate.
  - vm_compute; reflexivity.
Defined.

(** ** Samples printed for an A/D block *)

(** C4 as stated asks for [waveformCount * wordsPerWaveform] pairs and an
    anomaly when the waveform count is not 1.  For the block of two
    waveforms of three samples that is 6 pairs; SAMPLE 4 prints 3, and
    nothing else but the line of the first data point. *)
Lemma two_waveforms_three_pairs :
  sampleCount_spec example_ad2 = 6 /\
  returned (sample4 example_ad_header example_slowheaders 0
              (fopen example_ad2_file) example_buf)
  = [FirstPoint 1 1000 (seconds example_ad_header 1000);
     value_line example_ad_header 1 2 example_ad2
       (sample_bytes [1; 2; 3; 4; 5; 6] ++ skipn 12 example_buf) 0;
     value_line example_ad_header 1 2 example_ad2
       (sample_bytes [1; 2; 3; 4; 5; 6] ++ skipn 12 example_buf) 1;
     value_line example_ad_header 1 2 example_ad2
       (sample_bytes [1; 2; 3; 4; 5; 6] ++ skipn 12 example_buf) 2] /\
  Z.of_nat (length (ad_timestamps
     (returned (sample4 example_ad_header example_slowheaders 0
                  (fopen example_ad2_file) example_buf))))
  <> sampleCount_spec example_ad2.
Proof. repeat split; vm_compute; congruence. Qed.

(** C4, amended.  For every block of the extracted channel that has a
    waveform, SAMPLE 4 prints exactly [NumberOfWordsInWaveform] pairs of a
    timestamp and a voltage, one waveform's worth whatever the waveform
    count, and no other line than the one of the first data point; that
    is [waveformCount * wordsPerWaveform] pairs when the waveform count
    is 1.  The pairs are printed whenever the samples lie in [buf]. *)
Theorem continuous_pairs_per_block fh ch gain ticks db nbuf buf s :
  db_Type db = PL_ADDataType -> Channel db = ch ->
  0 < NumberOfWaveforms db ->
  (forall s',
     sample4_body fh ch gain ticks db nbuf buf s = Some s' ->
     exists values,
       ad_printed s' = ad_printed s ++ first_line fh s db ++ values /\
       Forall is_ad_value values /\
       length values = Z.to_nat (NumberOfWordsInWaveform db) /\
       (NumberOfWaveforms db = 1 -> 0 <= NumberOfWordsInWaveform db ->
        Z.of_nat (length values) = sampleCount_spec db))
  /\ (NumberOfWordsInWaveform db <= buf_len ->
      exists s', sample4_body fh ch gain ticks db nbuf buf s = Some s').
Proof.
  intros Ht Hc _. split.
  - intros s' Hb.
    destruct (sample4_block_lines _ _ _ _ _ _ _ _ _ Ht Hc Hb)
      as (values & Hp & Hl & Hv).
    exists values. repeat split; try assumption.
    + apply Forall_by_index. intros k Hk.
      specialize (Hv (Z.of_nat k) ltac:(lia)). rewrite Nat2Z.id in Hv.
      eexists. split; [exact Hv|]. exact I.
    + intros H1 H0. unfold sampleCount_spec. rewrite H1, Hl. lia.
  - apply sample4_block_defined; assumption.
Qed.

Lemma continuous_pairs_per_block_witness :
  exists s',
    sample4_body example_ad_header 0 1 2 example_ad2 6
      (sample_bytes [1; 2; 3; 4; 5; 6] ++ skipn 12 example_buf)
      (mkSampling 1 (-1) []) = Some s' /\
    length (ad_timestamps (ad_printed s')) = 3%nat.
Proof.
  destruct (continuous_pairs_per_block example_ad_header 0 1 2 example_ad2 6
              (sample_bytes [1; 2; 3; 4; 5; 6] ++ skipn 12 example_buf)
              (mkSampling 1 (-1) []))
    as (_ & Hdef); try reflexivity.
  destruct Hdef as [s' Hs']; [vm_compute; discriminate|].
  exists s'. split; [exact Hs'|].
  vm_compute in Hs'. inversion Hs'. reflexivity.
Defined.

(** ** The timestamp of a block *)

(** C2 as stated: the timestamp of a record is [(high << 32) |
    lowUnsigned].  The two spikes of [late_file] are read back as written,
    their 40-bit timestamps are 2147483648 and 4294967301, and SAMPLE 1
    prints -2147483648 and 5. *)
Lemma late_timestamps_wrap :
  map timestamp40_spec
      [overlay_db (header_bytes late_spike);
       overlay_db (header_bytes later_spike)]
  = [2147483648; 4294967301] /\
  ticks_of (lines_of (sample1 example_ad_header 1 1
                        (fopen late_file) example_buf))
  = [-2147483648; 5] /\
  ticks_of (lines_of (sample1 example_ad_header 1 1
                        (fopen late_file) example_buf))
  <> map timestamp40_spec
         [overlay_db (header_bytes late_spike);
          overlay_db (header_bytes later_spike)].
Proof. repeat split; vm_compute; congruence. Qed.

Lemma lor_high_low h low :
  0 <= low < 2 ^ 32 -> Z.lor (Z.shiftl h 32) low = h * 2 ^ 32 + low.
Proof.
  intros Hlow.
  assert (Hland : Z.land (Z.shiftl h 32) low = 0).
  { apply Z.bits_inj'. intros n Hn.
    rewrite Z.land_spec, Z.bits_0.
    destruct (Z_lt_le_dec n 32).
    - rewrite Z.shiftl_spec_low by lia. reflexivity.
    - rewrite <- (Z.mod_small low (2 ^ 32)) by lia.
      rewrite Z.mod_pow2_bits_high by lia. apply andb_false_r. }
  rewrite <- Z.lxor_lor by exact Hland.
  rewrite <- Z.add_nocarry_lxor by exact Hland.
  rewrite Z.shiftl_mul_pow2 by lia. reflexivity.
Qed.

(** ** Event records *)

(** C9 as stated fails: the strobed event of the examples, unit 42, is
    printed as its count and timestamp, the same line as with unit 7, so
    no reading of the line gives the unit back; and [main], which
    extracts event channel 1, prints no record for it at all. *)
Lemma strobed_value_lost :
  lines_of (sample3 example_ad_header PL_StrobedExtChannel
              (fopen (header_bytes example_event)) example_buf)
  = [Event 1 200 (seconds example_ad_header 200)] /\
  lines_of (sample3 example_ad_header PL_StrobedExtChannel
              (fopen (header_bytes (with_unit example_event 7))) example_buf)
  = [Event 1 200 (seconds example_ad_header 200)] /\
  lines_of (sample3 example_ad_header 1
              (fopen (header_bytes example_event)) example_buf) = [] /\
  ~ strobed_value_exposed.
Proof.
  split; [vm_compute; reflexivity|]. split; [vm_compute; reflexivity|].
  split; [vm_compute; reflexivity|].
  intros [strobedValue H].
  destruct (H example_ad_header example_event 0 example_buf
              (mkCounting 1 []) _ eq_refl eq_refl eq_refl) as (l & Hl & Hv).
  destruct (H example_ad_header (with_unit example_event 7) 0 example_buf
              (mkCounting 1 []) _ eq_refl eq_refl eq_refl) as (l' & Hl' & Hv').
  simpl in Hl, Hl'. inversion Hl. inversion Hl'. subst l l'.
  rewrite Hv in Hv'. discriminate.
Qed.

(** C9, amended.  The record of an event is its running count and the
    timestamp of the block: the body of SAMPLE 3 yields the same result
    whatever the unit field holds, on channel 257 as on any other; an event
    of the extracted channel prints one line, an event of another channel
    prints nothing. *)
Theorem event_record_ignores_unit fh ev db u nbuf buf (s : counting) :
  sample3_body fh ev (with_unit db u) nbuf buf s =
  sample3_body fh ev db nbuf buf s
  /\ (db_Type db = PL_ExtEventType -> Channel db = ev ->
      sample3_body fh ev db nbuf buf s =
      Some {| count := CInt.int (count s + 1);
              printed := printed s ++
                [Event (count s) (TimeStamp db) (seconds fh (TimeStamp db))] |})
  /\ (Channel db <> ev -> sample3_body fh ev db nbuf buf s = Some s).
Proof.
  split; [reflexivity|]. split.
  - intros Ht Hc. unfold sample3_body. rewrite Ht, Hc, !Z.eqb_refl.
    reflexivity.
  - intros Hc. unfold sample3_body.
    destruct (db_Type db =? PL_ExtEventType); [|reflexivity].
    replace (Channel db =? ev) with false
      by (symmetry; apply Z.eqb_neq; exact Hc).
    reflexivity.
Qed.

Lemma event_record_ignores_unit_witness :
  sample3_body example_ad_header PL_StrobedExtChannel example_event 0
    example_buf (mkCounting 1 []) =
  Some (mkCounting 2 [Event 1 200 (seconds example_ad_header 200)]) /\
  sample3_body example_ad_header 1 example_event 0
    example_buf (mkCounting 1 []) = Some (mkCounting 1 []).
Proof.
  pose proof (event_record_ignores_unit example_ad_header
                PL_StrobedExtChannel example_event 42 0 example_buf
                (mkCounting 1 [])) as (_ & H1 & _).
  pose proof (event_record_ignores_unit example_ad_header
                1 example_event 42 0 example_buf
                (mkCounting 1 [])) as (_ & _ & H2).
  split; [exact (H1 eq_refl eq_refl)|].
  apply H2. vm_compute. discriminate.
Defined.

(** ** A file that ends inside a block *)

(** The loop head on a block whose payload is cut: the short read moves
    what is left of the file into [buf], in front of what [buf] held
    before, and sets the end-of-file indicator. *)
Lemma fetch_truncated fp buf :
  truncated_block fp ->
  fetch fp buf =
  match buf_store (skipn 16 (remaining fp)) buf with
  | Some buf' =>
      Fetched (header_at fp) (CInt.int (sampleCount_spec (header_at fp)))
        (mkFILE (contents fp) (position fp + length (remaining fp)) true)
        buf'
  | None => Smashed
  end.
Proof.
  intros (Heof & Hhdr & Hw & Hshort).
  rewrite (fetch_header fp buf Heof Hhdr).
  unfold sizeof_db, declared_payload in *.
  replace (0 <? NumberOfWaveforms (header_at fp)) with true
    by (symmetry; apply Z.ltb_lt; exact Hw).
  pose proof (remaining_after fp 16 false) as R.
  unfold sampleCount_spec.
  rewrite fread_short by lia.
  cbn [contents position eof_flag]. rewrite remaining_skip, length_skipn.
  replace (position fp + 16 + (length (remaining fp) - 16))%nat
    with (position fp + length (remaining fp))%nat by lia.
  reflexivity.
Qed.

(** C3 as stated: the scan yields the records before the truncated block,
    signals the truncation and yields nothing for that block.  On
    [cut_file] SAMPLE 1 and SAMPLE 2 yield a record for the cut spike, the
    waveform being its one sample followed by two samples of the spike
    before; and the scan ends as it does on the whole part alone, at the
    end of the file with the end-of-file indicator set. *)
Lemma truncated_block_is_yielded :
  lines_of (sample2 example_ad_header 1 1 (fopen whole_part) example_buf)
  = [Spike 1 100 (seconds example_ad_header 100); Waveform [10; -10; 5]] /\
  lines_of (sample2 example_ad_header 1 1 (fopen cut_file) example_buf)
  = [Spike 1 100 (seconds example_ad_header 100); Waveform [10; -10; 5];
     Spike 2 300 (seconds example_ad_header 300); Waveform [7; -10; 5]] /\
  ticks_of (lines_of (sample1 example_ad_header 1 1
                        (fopen cut_file) example_buf)) = [100; 300] /\
  (exists s buf,
     sample2 example_ad_header 1 1 (fopen cut_file) example_buf =
     Finished s (mkFILE cut_file (length cut_file) true) buf) /\
  (exists s buf,
     sample2 example_ad_header 1 1 (fopen whole_part) example_buf =
     Finished s (mkFILE whole_part (length whole_part) true) buf) /\
  lines_of (sample2 example_ad_header 1 1 (fopen cut_file) example_buf)
  <> lines_of (sample2 example_ad_header 1 1 (fopen whole_part) example_buf).
Proof.
  split; [vm_compute; reflexivity|]. split; [vm_compute; reflexivity|].
  split; [vm_compute; reflexivity|].
  split; [do 2 eexists; vm_compute; reflexivity|].
  split; [do 2 eexists; vm_compute; reflexivity|].
  vm_compute; congruence.
Qed.

(** The scan of a file that ends inside a block: the block is handled as
    any other, on the buffer the short read left, and the loop then stops
    on the end-of-file indicator. *)
Lemma scan_truncated {S : Type}
    (body : PL_DataBlockHeader -> Z -> list byte -> S -> option S)
    (fp : FILE) (buf : list byte) (s : S) :
  truncated_block fp ->
  scan body fp buf s =
    match buf_store (skipn 16 (remaining fp)) buf with
    | Some buf' =>
        match body (header_at fp)
                (CInt.int (sampleCount_spec (header_at fp))) buf' s with
        | Some s' =>
            Finished s'
              (mkFILE (contents fp) (position fp + length (remaining fp))
                      true)
              buf'
        | None => Undefined
        end
    | None => Undefined
    end.
Proof.
  intros Ht.
  rewrite scan_round, (fetch_truncated fp buf Ht).
  destruct (buf_store _ buf) as [buf'|]; [|reflexivity].
  destruct (body _ _ _ s) as [s'|]; [|reflexivity].
  rewrite scan_round. reflexivity.
Qed.

Lemma for_each_buf_defined buf n :
  n <= buf_len -> exists l, for_each (buf_get buf) 0 (Z.to_nat n) = Some l.
Proof.
  intros H. apply for_each_defined. intros k Hk.
  rewrite buf_get_inside by lia. discriminate.
Qed.

(** The bodies of the counting scans only add lines to what they
    printed. *)
Lemma counting_body_appends fh k db nbuf buf s s' :
  body_of fh k db nbuf buf s = Some s' ->
  exists more, printed s' = printed s ++ more.
Proof.
  destruct k as [c u|c u|e]; simpl;
    unfold sample1_body, sample2_body, sample3_body; intros H;
    repeat match type of H with
           | context [if ?c then _ else _] => destruct c
           | context [match ?c with Some _ => _ | None => _ end] => destruct c
           end;
    inversion H; subst; simpl;
    solve [eexists; reflexivity | exists []; symmetry; apply app_nil_r].
Qed.

(** They are defined on a block whose waveform lies in [buf]. *)
Lemma counting_body_defined fh k db nbuf buf s :
  NumberOfWordsInWaveform db <= buf_len ->
  exists s', body_of fh k db nbuf buf s = Some s'.
Proof.
  intros Hn.
  destruct k as [c u|c u|e]; simpl;
    unfold sample1_body, sample2_body, sample3_body.
  - destruct (db_Type db =? PL_SingleWFType); [|eexists; reflexivity].
    destruct ((Channel db =? c) && (Unit db =? u)); eexists; reflexivity.
  - destruct ((db_Type db =? PL_SingleWFType) && (0 <? nbuf));
      [|eexists; reflexivity].
    destruct ((Channel db =? c) && (Unit db =? u)); [|eexists; reflexivity].
    destruct (for_each_buf_defined buf _ Hn) as [l Hl]. rewrite Hl.
    eexists; reflexivity.
  - destruct (db_Type db =? PL_ExtEventType); [|eexists; reflexivity].
    destruct (Channel db =? e); eexists; reflexivity.
Qed.

(** ** The timestamp a scan exposes *)

(** C2, amended.  The timestamp that every scan exposes for a record of a
    block is the field [TimeStamp] alone, the low 32-bit word of the block
    header read as a signed [long]: the spike line of SAMPLE 1, the spike
    line of SAMPLE 2, the event line of SAMPLE 3 and the first-data-point
    line of SAMPLE 4 carry it, and the value lines of SAMPLE 4 carry the
    timestamps reconstructed from it.  The high byte is overlaid on the
    header and used by no scan: each of the four bodies yields the same
    with any other high byte.  For a high byte in 0..255, [TimeStamp] is
    the 40-bit timestamp of the block exactly when the high byte is 0 and
    the low word has its top bit clear. *)
Theorem exposed_timestamp fh hdr high c u e ch gain ticks nbuf buf
    (s : counting) (a : sampling) :
  TimeStamp (overlay_db hdr) = CInt.to_signed 32 (le_unsigned (field 4 4 hdr))
  /\ (sample1_body fh c u (with_high (overlay_db hdr) high) nbuf buf s =
      sample1_body fh c u (overlay_db hdr) nbuf buf s /\
      sample2_body fh c u (with_high (overlay_db hdr) high) nbuf buf s =
      sample2_body fh c u (overlay_db hdr) nbuf buf s /\
      sample3_body fh e (with_high (overlay_db hdr) high) nbuf buf s =
      sample3_body fh e (overlay_db hdr) nbuf buf s /\
      sample4_body fh ch gain ticks (with_high (overlay_db hdr) high)
        nbuf buf a =
      sample4_body fh ch gain ticks (overlay_db hdr) nbuf buf a)
  /\ (forall k s',
        body_of fh k (overlay_db hdr) nbuf buf s = Some s' ->
        s' = s \/
        exists more,
          printed s' = printed s ++ more /\
          ticks_of more = [TimeStamp (overlay_db hdr)])
  /\ (forall a',
        sample4_body fh ch gain ticks (overlay_db hdr) nbuf buf a = Some a' ->
        a' = a \/
        exists values,
          ad_printed a' =
            ad_printed a ++ first_line fh a (overlay_db hdr) ++ values /\
          Forall (fun t => t = TimeStamp (overlay_db hdr))
                 (ticks_of (first_line fh a (overlay_db hdr))) /\
          length values =
            Z.to_nat (NumberOfWordsInWaveform (overlay_db hdr)) /\
          forall i, 0 <= i < NumberOfWordsInWaveform (overlay_db hdr) ->
            exists raw v ts secs,
              nth_error values (Z.to_nat i) = Some (ADValue raw v ts secs) /\
              ts = CInt.int (TimeStamp (overlay_db hdr) + i * ticks))
  /\ (db_Type (overlay_db hdr) = PL_SingleWFType ->
      Channel (overlay_db hdr) = c -> Unit (overlay_db hdr) = u ->
      sample1_body fh c u (overlay_db hdr) nbuf buf s =
      Some {| count := CInt.int (count s + 1);
              printed := printed s ++
                [Spike (count s) (TimeStamp (overlay_db hdr))
                       (seconds fh (TimeStamp (overlay_db hdr)))] |})
  /\ (db_Type (overlay_db hdr) = PL_SingleWFType -> 0 < nbuf ->
      Channel (overlay_db hdr) = c -> Unit (overlay_db hdr) = u ->
      NumberOfWordsInWaveform (overlay_db hdr) <= buf_len ->
      exists samples,
        sample2_body fh c u (overlay_db hdr) nbuf buf s =
        Some {| count := CInt.int (count s + 1);
                printed := printed s ++
                  [Spike (count s) (TimeStamp (overlay_db hdr))
                         (seconds fh (TimeStamp (overlay_db hdr)));
                   Waveform samples] |})
  /\ (db_Type (overlay_db hdr) = PL_ExtEventType ->
      Channel (overlay_db hdr) = e ->
      sample3_body fh e (overlay_db hdr) nbuf buf s =
      Some {| count := CInt.int (count s + 1);
              printed := printed s ++
                [Event (count s) (TimeStamp (overlay_db hdr))
                       (seconds fh (TimeStamp (overlay_db hdr)))] |})
  /\ (db_Type (overlay_db hdr) = PL_ADDataType ->
      Channel (overlay_db hdr) = ch ->
      first_timestamp a = -1 ->
      NumberOfWordsInWaveform (overlay_db hdr) <= buf_len ->
      exists a' values,
        sample4_body fh ch gain ticks (overlay_db hdr) nbuf buf a = Some a' /\
        ad_printed a' =
          ad_printed a ++
          FirstPoint (ad_count a) (TimeStamp (overlay_db hdr))
            (seconds fh (TimeStamp (overlay_db hdr))) :: values)
  /\ (0 <= UpperByteOf5ByteTimestamp (overlay_db hdr) <= 255 ->
      (TimeStamp (overlay_db hdr) = timestamp40_spec (overlay_db hdr) <->
       UpperByteOf5ByteTimestamp (overlay_db hdr) = 0 /\
       0 <= TimeStamp (overlay_db hdr))).
Proof.
  set (db := overlay_db hdr).
  split; [reflexivity|].
  split; [repeat split; reflexivity|].
  split; [|split; [|split; [|split; [|split; [|split]]]]].
  - intros k s' Hb.
    destruct k as [c' u'|c' u'|e']; cbn [body_of] in Hb;
      unfold sample1_body, sample2_body, sample3_body in Hb;
      repeat match type of Hb with
             | context [if ?x then _ else _] => destruct x
             | context [match ?x with Some _ => _ | None => _ end] =>
                 destruct x
             end;
      try discriminate Hb; inversion Hb; subst;
      first [left; reflexivity
            | right; eexists; split; [reflexivity|reflexivity]].
  - intros a' Hb. unfold sample4_body in Hb.
    destruct (db_Type db =? PL_ADDataType) eqn:Et;
      [|left; inversion Hb; reflexivity].
    destruct (Channel db =? ch) eqn:Ec;
      [|left; inversion Hb; reflexivity].
    apply Z.eqb_eq in Et, Ec. right.
    assert (Hb' : sample4_body fh ch gain ticks db nbuf buf a = Some a').
    { unfold sample4_body. rewrite Et, Ec, !Z.eqb_refl. exact Hb. }
    destruct (sample4_block_lines _ _ _ _ _ _ _ _ _ Et Ec Hb')
      as (values & Hp & Hl & Hv).
    exists values. split; [exact Hp|]. split; [|split; [exact Hl|]].
    + unfold first_line. destruct (first_timestamp a =? -1);
        repeat constructor.
    + intros i Hi. rewrite (Hv i Hi). unfold value_line.
      do 4 eexists. split; reflexivity.
  - intros Ht Hc Hu. unfold sample1_body.
    rewrite Ht, Hc, Hu, !Z.eqb_refl. reflexivity.
  - intros Ht Hn Hc Hu Hfit. unfold sample2_body.
    rewrite Ht, Hc, Hu, !Z.eqb_refl.
    replace (0 <? nbuf) with true by (symmetry; apply Z.ltb_lt; exact Hn).
    destruct (for_each_buf_defined buf _ Hfit) as [l Hl].
    cbn [andb]. rewrite Hl. exists l. reflexivity.
  - intros Ht Hc. unfold sample3_body. rewrite Ht, Hc, !Z.eqb_refl.
    reflexivity.
  - intros Ht Hc Hfirst Hfit.
    destruct (sample4_block_defined fh ch gain ticks db nbuf buf a Ht Hc Hfit)
      as [a' Ha'].
    destruct (sample4_block_lines _ _ _ _ _ _ _ _ _ Ht Hc Ha')
      as (values & Hp & _).
    exists a', values. split; [exact Ha'|].
    rewrite Hp. unfold first_line. rewrite Hfirst. reflexivity.
  - intros Hh.
    assert (Hr : CInt.in_int (TimeStamp db)) by apply int_range.
    unfold CInt.in_int, CInt.INT_MIN, CInt.INT_MAX in Hr.
    unfold timestamp40_spec, CInt.to_unsigned.
    assert (P32 : 2 ^ 32 = 4294967296) by reflexivity.
    pose proof (Z.mod_pos_bound (TimeStamp db) (2 ^ 32) ltac:(lia)) as Hm.
    rewrite lor_high_low by exact Hm. rewrite P32 in *.
    destruct (Z_lt_le_dec (TimeStamp db) 0) as [Hneg|Hpos].
    + assert (Hmod : TimeStamp db mod 4294967296 =
                     TimeStamp db + 4294967296)
        by (symmetry; apply Z.mod_unique with (q := -1); lia).
      rewrite Hmod. lia.
    + rewrite Z.mod_small by lia. lia.
Qed.

Lemma exposed_timestamp_witness :
  (TimeStamp (overlay_db (header_bytes later_spike)) = 5 /\
   timestamp40_spec (overlay_db (header_bytes later_spike)) = 4294967301 /\
   sample1_body example_ad_header 1 1 (overlay_db (header_bytes later_spike))
     0 example_buf (mkCounting 1 []) =
   Some (mkCounting 2 [Spike 1 5 (seconds example_ad_header 5)])) /\
  (timestamp40_spec (overlay_db (header_bytes late_ad)) = 4294968296 /\
   exists a' values,
     sample4_body example_ad_header 0 1 2 (overlay_db (header_bytes late_ad))
       3 (sample_bytes [4096; 0; -4096] ++ skipn 6 example_buf)
       (mkSampling 1 (-1) []) = Some a' /\
     ad_printed a' =
       [] ++ FirstPoint 1 (TimeStamp (overlay_db (header_bytes late_ad)))
               (seconds example_ad_header
                  (TimeStamp (overlay_db (header_bytes late_ad))))
             :: values).
Proof.
  split.
  - pose proof (exposed_timestamp example_ad_header
                  (header_bytes later_spike) 0 1 1 1 0 1 2
                  0 example_buf (mkCounting 1 []) (mkSampling 1 (-1) []))
      as (_ & _ & _ & _ & H1 & _).
    split; [reflexivity|]. split; [reflexivity|].
    exact (H1 eq_refl eq_refl eq_refl).
  - split; [reflexivity|].
    pose proof (exposed_timestamp example_ad_header
                  (header_bytes late_ad) 0 1 1 1 0 1 2
                  3 (sample_bytes [4096; 0; -4096] ++ skipn 6 example_buf)
                  (mkCounting 1 []) (mkSampling 1 (-1) []))
      as (_ & _ & _ & _ & _ & _ & _ & H4 & _).
    apply H4; try reflexivity. vm_compute. discriminate.
Defined.

(** ** Spike voltages *)

Lemma count_from_complete n :
  forall x y, x <= y < x + Z.of_nat n -> In y (count_from n x).
Proof.
  induction n as [|n IH]; intros x y H; [lia|].
  simpl. destruct (Z.eq_dec x y) as [E|E]; [left; exact E|].
  right. apply IH. lia.
Qed.

Lemma all_shorts_complete raw : CInt.in_short raw -> In raw all_shorts.
Proof.
  unfold CInt.in_short. intros H. apply count_from_complete. lia.
Qed.

Lemma zero_gain_all_shorts :
  forallb (fun raw => negb (PrimFloat.is_finite (spikeVoltage raw 0)))
          all_shorts = true.
Proof. vm_compute. reflexivity. Qed.

(** C8.  For every raw sample and every gain that is not 0 the spike
    voltage of the specification, [raw * 3.0 / 2048.0 / gain], is the
    voltage the header comment of the program gives,
    [(a_d_value*3./2048.)/gain]; [spikeVoltage(10, 2)] is 0.00732421875;
    and a gain of 0 is not handled apart: the division gives no finite
    number for any sample. *)
Theorem spike_voltage_conversion raw gain :
  gain <> 0 ->
  spikeVoltage raw gain = spike_voltage_doc raw gain
  /\ spikeVoltage 10 2 = 0.00732421875%float
  /\ (CInt.in_short raw ->
      PrimFloat.is_finite (spikeVoltage raw 0) = false).
Proof.
  intros _. split; [reflexivity|]. split; [vm_compute; reflexivity|].
  intros Hraw. apply all_shorts_complete in Hraw.
  pose proof zero_gain_all_shorts as H.
  rewrite forallb_forall in H. specialize (H raw Hraw).
  apply negb_true_iff in H. exact H.
Qed.

Lemma spike_voltage_conversion_witness :
  spikeVoltage (-10) 2 = spike_voltage_doc (-10) 2
  /\ spikeVoltage 10 2 = 0.00732421875%float
  /\ (CInt.in_short (-10) ->
      PrimFloat.is_finite (spikeVoltage (-10) 0) = false).
Proof.
  apply (spike_voltage_conversion (-10) 2). discriminate.
Defined.

(** ** The whole program on the example file *)

(** [main] on [example_plx]: the banner of the file header, then behind
    their headings the spike of channel 1, unit 1, twice (its timestamp,
    then its waveform), nothing for the event of channel 257, and the
    three samples of A/D channel 0. *)
Example main_on_example_plx :
  main example_layout example_ad_header example_ad_counts
       example_slowheaders (Some example_plx) example_buf =
  Ended
    [Banner (FileVersion 105); Banner (FileComment [x61; x62]);
     Banner (Frequency 40000); Banner (DSPChannels 0);
     Banner (EventChannels 0); Banner (ADChannels 1);
     Banner TimestampsHeading; Banner WaveformsHeading;
     Banner EventsHeading; Banner ADChannelsHeading;
     TimestampsFor 1 1;
     Data (Spike 1 100 (seconds example_ad_header 100));
     WaveformsFor 1 1;
     Data (Spike 1 100 (seconds example_ad_header 100));
     Data (Waveform [10; -10; 5]);
     EventTimestampsFor 1;
     ContinuousDataFor 0;
     Data (FirstPoint 1 1000 (seconds example_ad_header 1000));
     Data (ADValue 4096 10 1000 (seconds example_ad_header 1000));
     Data (ADValue 0 0 1002 (seconds example_ad_header 1002));
     Data (ADValue (-4096) (-10) 1004 (seconds example_ad_header 1004))].
Proof. vm_compute. reflexivity. Qed.

(** The headers of the examples are read back as they were written. *)
Example example_headers_read_back :
  map (fun db => overlay_db (header_bytes db))
      [example_spike; example_event; example_ad; example_ad2;
       late_spike; later_spike; cut_spike]
  = [example_spike; example_event; example_ad; example_ad2;
     late_spike; later_spike; cut_spike].
Proof. vm_compute. reflexivity. Qed.

(** * Further properties of the reader *)

Local Ltac whole_blocks := repeat constructor; vm_compute; congruence.

(** ** Little-endian fields read back *)

Lemma byte_val_byte_of x : byte_val (byte_of x) = x mod 256.
Proof.
  unfold byte_val, byte_of.
  pose proof (Z.mod_pos_bound x 256 ltac:(lia)) as Hb.
  destruct (Byte.of_N (Z.to_N (x mod 256))) as [b|] eqn:E.
  - apply Byte.to_of_N in E. rewrite E. lia.
  - apply Byte.of_N_None_iff in E. lia.
Qed.

Lemma le_unsigned_le_bytes n x :
  le_unsigned (le_bytes n x) = x mod 256 ^ Z.of_nat n.
Proof.
  revert x. induction n as [|n IH]; intros x.
  - simpl. rewrite Z.mod_1_r. reflexivity.
  - cbn [le_bytes le_unsigned]. rewrite byte_val_byte_of, IH.
    rewrite Nat2Z.inj_succ, Z.pow_succ_r by lia.
    rewrite Z.rem_mul_r by lia. reflexivity.
Qed.

Lemma length_le_bytes n x : length (le_bytes n x) = n.
Proof. revert x. induction n; intros x; simpl; [|rewrite IHn]; reflexivity. Qed.

Lemma short_small x : CInt.in_short x -> CInt.short x = x.
Proof.
  unfold CInt.in_short, CInt.short, CInt.to_signed.
  intros H. change (2 ^ 16) with 65536. change (2 ^ (16 - 1)) with 32768.
  destruct (Z_lt_le_dec x 0).
  - replace (x mod 65536) with (x + 65536)
      by (apply Z.mod_unique with (q := -1); lia).
    destruct (x + 65536 <? 32768) eqn:E; [apply Z.ltb_lt in E|]; lia.
  - rewrite Z.mod_small by lia.
    destruct (x <? 32768) eqn:E; [|apply Z.ltb_ge in E]; lia.
Qed.

Lemma short_of_le_bytes x :
  CInt.in_short x -> CInt.short (le_unsigned (le_bytes 2 x)) = x.
Proof.
  intros H. rewrite le_unsigned_le_bytes. rewrite <- (short_small x H) at 2.
  unfold CInt.short, CInt.to_signed.
  change (256 ^ Z.of_nat 2) with (2 ^ 16).
  rewrite Z.mod_mod by (change (2 ^ 16) with 65536; lia). reflexivity.
Qed.

Lemma long_of_le_bytes x :
  CInt.in_int x -> CInt.int (le_unsigned (le_bytes 4 x)) = x.
Proof.
  intros H. rewrite le_unsigned_le_bytes. rewrite <- (int_small x H) at 2.
  apply int_of_congruent. change (256 ^ Z.of_nat 4) with (2 ^ 32).
  apply Z.mod_mod. change (2 ^ 32) with 4294967296. lia.
Qed.

(** The overlay reads the seven fields back from the 16 bytes that hold
    them in little-endian order, whatever bytes follow. *)
Lemma overlay_roundtrip db rest :
  well_typed db -> overlay_db (header_bytes db ++ rest) = db.
Proof.
  intros (Ht & Hu & Hs & Hc & Hn & Hw & Hl).
  destruct db as [ty up ts ch un nw nl]. cbn [db_Type UpperByteOf5ByteTimestamp
    TimeStamp Channel Unit NumberOfWaveforms NumberOfWordsInWaveform] in *.
  unfold overlay_db, short_at, long_at, header_bytes.
  cbn [db_Type UpperByteOf5ByteTimestamp TimeStamp Channel Unit
       NumberOfWaveforms NumberOfWordsInWaveform].
  cbn [le_bytes app field skipn firstn].
  change [byte_of ty; byte_of (ty / 256)] with (le_bytes 2 ty).
  change [byte_of up; byte_of (up / 256)] with (le_bytes 2 up).
  change [byte_of ts; byte_of (ts / 256); byte_of (ts / 256 / 256);
          byte_of (ts / 256 / 256 / 256)] with (le_bytes 4 ts).
  change [byte_of ch; byte_of (ch / 256)] with (le_bytes 2 ch).
  change [byte_of un; byte_of (un / 256)] with (le_bytes 2 un).
  change [byte_of nw; byte_of (nw / 256)] with (le_bytes 2 nw).
  change [byte_of nl; byte_of (nl / 256)] with (le_bytes 2 nl).
  rewrite !short_of_le_bytes, long_of_le_bytes by assumption.
  reflexivity.
Qed.

(** ** The samples of a block in [buf] *)

Lemma length_sample_bytes samples :
  length (sample_bytes samples) = (2 * length samples)%nat.
Proof.
  unfold sample_bytes. induction samples as [|x r IH]; [reflexivity|].
  cbn [flat_map]. rewrite length_app, length_le_bytes, IH. simpl. lia.
Qed.

Lemma length_header_bytes db : length (header_bytes db) = 16%nat.
Proof. reflexivity. Qed.

Lemma length_block_bytes db samples :
  length (block_bytes db samples) = (16 + 2 * length samples)%nat.
Proof.
  unfold block_bytes.
  rewrite length_app, length_header_bytes, length_sample_bytes. reflexivity.
Qed.

(** Sample [k] of a block, read from the front of the buffer. *)
Lemma short_at_sample_bytes samples :
  Forall CInt.in_short samples ->
  forall k tail x, nth_error samples k = Some x ->
  short_at (2 * k) (sample_bytes samples ++ tail) = x.
Proof.
  induction 1 as [|y r Hy Hr IH]; intros k tail x Hk.
  - destruct k; discriminate.
  - destruct k as [|k].
    + inversion Hk; subst x. unfold short_at, sample_bytes.
      cbn [flat_map le_bytes app Nat.mul field skipn firstn].
      change [byte_of y; byte_of (y / 256)] with (le_bytes 2 y).
      apply short_of_le_bytes, Hy.
    + simpl in Hk. rewrite <- (IH k tail x Hk).
      replace (2 * Datatypes.S k)%nat with (Datatypes.S (Datatypes.S (2 * k)))
        by lia.
      unfold short_at, sample_bytes, field.
      cbn [flat_map le_bytes app skipn]. reflexivity.
Qed.

Lemma for_each_eq {A : Type} (f : Z -> option A) n :
  forall i0 l, length l = n ->
  (forall k, (k < n)%nat -> f (i0 + Z.of_nat k) = nth_error l k) ->
  for_each f i0 n = Some l.
Proof.
  induction n as [|n IH]; intros i0 l Hl H.
  - destruct l; [reflexivity|discriminate].
  - destruct l as [|a l]; [discriminate|].
    cbn [for_each]. pose proof (H 0%nat ltac:(lia)) as H0.
    rewrite Z.add_0_r in H0. rewrite H0. cbn [nth_error].
    rewrite (IH (i0 + 1) l); [reflexivity|simpl in Hl; lia|].
    intros k Hk. specialize (H (Datatypes.S k) ltac:(lia)).
    cbn [nth_error] in H. rewrite <- H. f_equal. lia.
Qed.

(** The first [n] samples of a block, as the loops of SAMPLE 2 and
    SAMPLE 4 read them from [buf]. *)
Lemma buf_get_samples samples tail n :
  Forall CInt.in_short samples ->
  Z.of_nat (length samples) <= buf_len ->
  n <= Z.of_nat (length samples) ->
  for_each (buf_get (sample_bytes samples ++ tail)) 0 (Z.to_nat n)
  = Some (firstn (Z.to_nat n) samples).
Proof.
  intros Hs Hlen Hn. apply for_each_eq.
  - rewrite length_firstn. lia.
  - intros k Hk. rewrite Z.add_0_l.
    rewrite buf_get_inside by (unfold buf_len in *; lia).
    rewrite nth_error_firstn.
    replace (k <? Z.to_nat n)%nat with true
      by (symmetry; apply Nat.ltb_lt; exact Hk).
    destruct (nth_error samples k) as [x|] eqn:E.
    + f_equal. replace (Z.to_nat (2 * Z.of_nat k)) with (2 * k)%nat by lia.
      apply short_at_sample_bytes; assumption.
    + apply nth_error_None in E. lia.
Qed.

(** ** The loop on a file of whole blocks *)

Lemma header_at_block fp db samples rest :
  well_typed db ->
  remaining fp = block_bytes db samples ++ rest ->
  header_at fp = db.
Proof.
  intros Hw Hr. unfold header_at. rewrite Hr. unfold block_bytes.
  rewrite <- app_assoc.
  replace (firstn 16 (header_bytes db ++ sample_bytes samples ++ rest))
    with (header_bytes db ++ []).
  - apply overlay_roundtrip, Hw.
  - rewrite firstn_app, length_header_bytes, Nat.sub_diag, firstn_O.
    rewrite firstn_all2 by (rewrite length_header_bytes; lia). reflexivity.
Qed.

(** The loop head on a whole block: the block goes to the body with its
    own header, [nbuf] samples and its samples in front of [buf], and the
    cursor is behind the block. *)
Lemma fetch_block fp buf b rest :
  whole_block b -> feof fp = false ->
  remaining fp = block_bytes (fst b) (snd b) ++ rest ->
  fetch fp buf =
  Fetched (fst b) (sampleCount_spec (fst b))
    (mkFILE (contents fp)
       (position fp + length (block_bytes (fst b) (snd b))) false)
    (refill b buf).
Proof.
  destruct b as [db samples]. cbn [fst snd].
  intros (Hw & Hs & Hnw & Hnl & Hlen & Hfit) Heof Hr. cbn [fst snd] in *.
  pose proof (header_at_block fp db samples rest Hw Hr) as Hh.
  assert (Hrl : Z.of_nat (length (remaining fp)) =
                16 + 2 * sampleCount_spec db + Z.of_nat (length rest)).
  { rewrite Hr, length_app, length_block_bytes. lia. }
  rewrite (fetch_whole fp buf Heof); rewrite ?Hh;
    try assumption; [|unfold sizeof_db; lia].
  assert (Hgot : firstn (Z.to_nat (2 * sampleCount_spec db))
                        (skipn 16 (remaining fp)) = sample_bytes samples).
  { rewrite Hr. unfold block_bytes. rewrite <- app_assoc.
    rewrite skipn_app, length_header_bytes, Nat.sub_diag, skipn_O.
    rewrite skipn_all2 by (rewrite length_header_bytes; lia).
    cbn [app]. rewrite firstn_app.
    replace (Z.to_nat (2 * sampleCount_spec db) -
             length (sample_bytes samples))%nat with 0%nat
      by (rewrite length_sample_bytes; lia).
    cbn [firstn]. rewrite app_nil_r.
    apply firstn_all2. rewrite length_sample_bytes. lia. }
  rewrite Hgot. unfold buf_store.
  replace (Z.of_nat (length (sample_bytes samples)) <=? 2 * buf_len)
    with true
    by (symmetry; apply Z.leb_le; rewrite length_sample_bytes; lia).
  unfold refill. cbn [snd].
  rewrite length_block_bytes.
  replace (position fp + 16 + Z.to_nat (2 * sampleCount_spec db))%nat
    with (position fp + (16 + 2 * length samples))%nat by lia.
  reflexivity.
Qed.

Lemma remaining_behind fp n e l rest :
  remaining fp = l ++ rest -> length l = n ->
  remaining (mkFILE (contents fp) (position fp + n) e) = rest.
Proof.
  intros Hr Hl. rewrite remaining_skip, Hr, skipn_app, Hl, Nat.sub_diag.
  rewrite skipn_all2 by lia. reflexivity.
Qed.

(** The scan of a stream that holds whole blocks and then fewer than 16
    stray bytes is the run of its body over the blocks. *)
Lemma scan_on_blocks {S : Type}
    (body : PL_DataBlockHeader -> Z -> list byte -> S -> option S)
    (blocks : list (PL_DataBlockHeader * list Z)) (stray : list byte) :
  Forall whole_block blocks -> (length stray < 16)%nat ->
  forall fp buf s,
  feof fp = false ->
  remaining fp = blocks_bytes blocks ++ stray ->
  scan body fp buf s =
  match run body blocks buf s with
  | Some (s', buf') =>
      Finished s'
        (mkFILE (contents fp) (position fp + length (remaining fp)) true)
        buf'
  | None => Undefined
  end.
Proof.
  intros Hall Hstray. induction Hall as [|b rest Hb Hrest IH];
    intros fp buf s Heof Hr.
  - cbn [blocks_bytes flat_map app] in Hr. cbn [run].
    rewrite scan_round. unfold fetch. rewrite Heof.
    rewrite fread_short by (rewrite Hr; unfold sizeof_db; lia).
    reflexivity.
  - cbn [blocks_bytes flat_map] in Hr. rewrite <- app_assoc in Hr.
    fold (blocks_bytes rest) in Hr.
    rewrite scan_round, (fetch_block fp buf b _ Hb Heof Hr). cbn [run].
    destruct (body (fst b) (sampleCount_spec (fst b)) (refill b buf) s)
      as [s'|]; [|reflexivity].
    rewrite IH;
      [|reflexivity|eapply remaining_behind; [exact Hr|reflexivity]].
    cbn [contents position].
    rewrite (remaining_behind fp _ false _ _ Hr eq_refl).
    rewrite Hr, !length_app, !Nat.add_assoc. reflexivity.
Qed.

(** ** The bytes the loop head consumes *)

(** C5.  For every data block the loop head takes the 16 bytes of the
    header and exactly [NumberOfWaveforms * NumberOfWordsInWaveform]
    samples of two bytes.  Told by the bytes of the file: when a whole
    block lies under the cursor, the loop head hands that block to the
    body with [nbuf] the product of its counts, and the cursor stands
    behind the header and the samples of the block, on the header of the
    block that follows.  Told by the header the loop head reads: with
    counts that are not negative and the samples in the file, whenever it
    hands the block to the body the cursor has moved by 16 bytes and two
    for each sample, and it does hand it over when the samples fit [buf].
    When the waveform count is 0 it takes the header only and leaves
    [buf] as it was. *)
Theorem fetch_consumes (fp : FILE) (buf : list byte) :
  feof fp = false ->
  sizeof_db <= Z.of_nat (length (remaining fp)) ->
  (forall b rest,
     whole_block b ->
     remaining fp = block_bytes (fst b) (snd b) ++ rest ->
     Z.of_nat (length (snd b)) =
       NumberOfWaveforms (fst b) * NumberOfWordsInWaveform (fst b) /\
     (exists buf',
        fetch fp buf =
        Fetched (fst b)
          (NumberOfWaveforms (fst b) * NumberOfWordsInWaveform (fst b))
          (behind fp (16 + 2 * length (snd b))) buf') /\
     remaining (behind fp (16 + 2 * length (snd b))) = rest /\
     (forall next more,
        whole_block next ->
        rest = block_bytes (fst next) (snd next) ++ more ->
        header_at (behind fp (16 + 2 * length (snd b))) = fst next) /\
     (NumberOfWaveforms (fst b) = 0 ->
      fetch fp buf = Fetched (fst b) 0 (behind fp 16) buf))
  /\ (0 <= NumberOfWaveforms (header_at fp) ->
      0 <= NumberOfWordsInWaveform (header_at fp) ->
      sizeof_db + 2 * sampleCount_spec (header_at fp)
        <= Z.of_nat (length (remaining fp)) ->
      (forall db nbuf fp' buf',
         fetch fp buf = Fetched db nbuf fp' buf' ->
         db = header_at fp /\ nbuf = sampleCount_spec (header_at fp) /\
         fp' = mkFILE (contents fp)
                 (position fp + 16 +
                  Z.to_nat (2 * sampleCount_spec (header_at fp))) false)
      /\ (sampleCount_spec (header_at fp) <= buf_len ->
          exists buf',
            fetch fp buf =
            Fetched (header_at fp) (sampleCount_spec (header_at fp))
              (mkFILE (contents fp)
                 (position fp + 16 +
                  Z.to_nat (2 * sampleCount_spec (header_at fp))) false)
              buf'))
  /\ (NumberOfWaveforms (header_at fp) = 0 ->
      fetch fp buf =
      Fetched (header_at fp) 0
        (mkFILE (contents fp) (position fp + 16) false) buf).
Proof.
  intros Heof Hhdr. split; [|split].
  - intros b rest Hb Hr.
    pose proof Hb as (Hw & Hs & Hnw & Hnww & Hlen & Hfit).
    unfold sampleCount_spec in Hlen.
    pose proof (fetch_block fp buf b rest Hb Heof Hr) as Hf.
    rewrite length_block_bytes in Hf. unfold sampleCount_spec in Hf.
    split; [exact Hlen|]. split; [|split; [|split]].
    + exists (refill b buf). exact Hf.
    + unfold behind. apply (remaining_behind fp _ false _ _ Hr).
      apply length_block_bytes.
    + intros next more Hnext Hrest.
      apply (header_at_block _ (fst next) (snd next) more);
        [apply Hnext|].
      unfold behind.
      rewrite (remaining_behind fp _ false _ _ Hr (length_block_bytes _ _)).
      exact Hrest.
    + intros Hz.
      rewrite (fetch_header fp buf Heof Hhdr).
      rewrite (header_at_block fp (fst b) (snd b) rest Hw Hr), Hz.
      reflexivity.
  - intros Hw Hn Hfile.
    rewrite (fetch_whole fp buf Heof Hw Hn Hfile). split.
    + intros db nbuf fp' buf' H.
      destruct (buf_store _ buf); [|discriminate].
      inversion H. repeat split.
    + intros Hfit. unfold buf_store.
      rewrite length_firstn, length_skipn.
      unfold sampleCount_spec, buf_len, sizeof_db in *.
      match goal with |- context [?a <=? ?b] =>
        replace (a <=? b) with true by (symmetry; apply Z.leb_le; nia)
      end.
      eexists. reflexivity.
  - intros Hz. rewrite (fetch_header fp buf Heof Hhdr), Hz. reflexivity.
Qed.

Lemma fetch_consumes_witness :
  (exists buf',
     fetch (fopen example_blocks) example_buf =
     Fetched example_spike 3 (mkFILE example_blocks 22 false) buf') /\
  remaining (mkFILE example_blocks 22 false) =
    block_bytes example_event [] ++
    block_bytes example_ad [4096; 0; -4096] /\
  header_at (mkFILE example_blocks 22 false) = example_event /\
  fetch (mkFILE example_blocks 22 false) example_buf =
    Fetched example_event 0 (mkFILE example_blocks 38 false) example_buf.
Proof.
  destruct (proj1 (fetch_consumes (fopen example_blocks) example_buf
                     eq_refl ltac:(vm_compute; discriminate))
              (example_spike, [10; -10; 5])
              (block_bytes example_event [] ++
               block_bytes example_ad [4096; 0; -4096])
              ltac:(whole_blocks) eq_refl)
    as (_ & Hfetch & Hrest & Hnext & _).
  split; [exact Hfetch|]. split; [exact Hrest|].
  split.
  - exact (Hnext (example_event, [])
             (block_bytes example_ad [4096; 0; -4096])
             ltac:(whole_blocks) eq_refl).
  - destruct (proj1 (fetch_consumes (mkFILE example_blocks 22 false)
                       example_buf eq_refl ltac:(vm_compute; discriminate))
                (example_event, [])
                (block_bytes example_ad [4096; 0; -4096])
                ltac:(whole_blocks) eq_refl)
      as (_ & _ & _ & _ & Hzero).
    exact (Hzero eq_refl).
Defined.

(** ** The spikes and events a scan selects *)

Lemma run_sample1 fh c u blocks :
  forall buf s,
  exists s' buf',
    run (sample1_body fh c u) blocks buf s = Some (s', buf') /\
    printed s' = printed s ++
      spike_lines fh (count s) (filter (is_spike_of c u) (map fst blocks)).
Proof.
  induction blocks as [|b rest IH]; intros buf s.
  - exists s, buf. split; [reflexivity|]. simpl. symmetry. apply app_nil_r.
  - cbn [run map filter]. unfold sample1_body, is_spike_of.
    destruct (db_Type (fst b) =? PL_SingleWFType); cbn [andb].
    + destruct ((Channel (fst b) =? c) && (Unit (fst b) =? u)).
      * destruct (IH (refill b buf)
           {| count := CInt.int (count s + 1);
              printed := printed s ++
                [Spike (count s) (TimeStamp (fst b))
                       (seconds fh (TimeStamp (fst b)))] |})
          as (s' & buf' & Hr & Hp).
        exists s', buf'. split; [exact Hr|]. rewrite Hp.
        cbn [count printed spike_lines]. rewrite <- app_assoc. reflexivity.
      * apply IH.
    + apply IH.
Qed.

Lemma run_sample3 fh e blocks :
  forall buf s,
  exists s' buf',
    run (sample3_body fh e) blocks buf s = Some (s', buf') /\
    printed s' = printed s ++
      event_lines fh (count s) (filter (is_event_of e) (map fst blocks)).
Proof.
  induction blocks as [|b rest IH]; intros buf s.
  - exists s, buf. split; [reflexivity|]. simpl. symmetry. apply app_nil_r.
  - cbn [run map filter]. unfold sample3_body, is_event_of.
    destruct (db_Type (fst b) =? PL_ExtEventType); cbn [andb].
    + destruct (Channel (fst b) =? e).
      * destruct (IH (refill b buf)
           {| count := CInt.int (count s + 1);
              printed := printed s ++
                [Event (count s) (TimeStamp (fst b))
                       (seconds fh (TimeStamp (fst b)))] |})
          as (s' & buf' & Hr & Hp).
        exists s', buf'. split; [exact Hr|]. rewrite Hp.
        cbn [count printed event_lines]. rewrite <- app_assoc. reflexivity.
      * apply IH.
    + apply IH.
Qed.

(** While [count] stays in the range of [int], the lines are counted
    [k], [k+1], ... *)
Lemma counts_of_spike_lines fh dbs :
  forall k, CInt.INT_MIN <= k ->
  k + Z.of_nat (length dbs) <= CInt.INT_MAX + 1 ->
  counts_of (spike_lines fh k dbs) = count_from (length dbs) k.
Proof.
  unfold CInt.INT_MIN, CInt.INT_MAX.
  induction dbs as [|db rest IH]; intros k Hk Hn; [reflexivity|].
  cbn [spike_lines counts_of flat_map app length count_from].
  f_equal. destruct rest as [|db' rest']; [reflexivity|].
  cbn [length] in Hn.
  rewrite int_small
    by (unfold CInt.in_int, CInt.INT_MIN, CInt.INT_MAX; lia).
  apply IH; cbn [length]; lia.
Qed.

Lemma counts_of_event_lines fh dbs :
  forall k, CInt.INT_MIN <= k ->
  k + Z.of_nat (length dbs) <= CInt.INT_MAX + 1 ->
  counts_of (event_lines fh k dbs) = count_from (length dbs) k.
Proof.
  unfold CInt.INT_MIN, CInt.INT_MAX.
  induction dbs as [|db rest IH]; intros k Hk Hn; [reflexivity|].
  cbn [event_lines counts_of flat_map app length count_from].
  f_equal. destruct rest as [|db' rest']; [reflexivity|].
  cbn [length] in Hn.
  rewrite int_small
    by (unfold CInt.in_int, CInt.INT_MIN, CInt.INT_MAX; lia).
  apply IH; cbn [length]; lia.
Qed.

Lemma ticks_of_spike_lines fh dbs :
  forall k, ticks_of (spike_lines fh k dbs) = map TimeStamp dbs.
Proof.
  induction dbs as [|db rest IH]; intros k; [reflexivity|].
  cbn [spike_lines ticks_of flat_map app map]. f_equal. apply IH.
Qed.

Lemma ticks_of_event_lines fh dbs :
  forall k, ticks_of (event_lines fh k dbs) = map TimeStamp dbs.
Proof.
  induction dbs as [|db rest IH]; intros k; [reflexivity|].
  cbn [event_lines ticks_of flat_map app map]. f_equal. apply IH.
Qed.

(** X3.  On a stream of whole blocks, SAMPLE 1 prints one line for each
    spike block whose channel and unit are the extracted ones, and for no
    other block: in file order, with the timestamp of the block, counted
    from 1 (as long as [count] is in the range of [int]). *)
Theorem sample1_selects fh c u blocks stray fp buf :
  Forall whole_block blocks -> (length stray < 16)%nat ->
  feof fp = false ->
  remaining fp = blocks_bytes blocks ++ stray ->
  (exists s' fp' buf', sample1 fh c u fp buf = Finished s' fp' buf') /\
  lines_of (sample1 fh c u fp buf) =
    spike_lines fh 1 (filter (is_spike_of c u) (map fst blocks)) /\
  ticks_of (lines_of (sample1 fh c u fp buf)) =
    map TimeStamp (filter (is_spike_of c u) (map fst blocks)) /\
  (Z.of_nat (length blocks) <= CInt.INT_MAX ->
   counts_of (lines_of (sample1 fh c u fp buf)) =
     count_from (length (filter (is_spike_of c u) (map fst blocks))) 1).
Proof.
  intros Hall Hstray Heof Hr. unfold sample1.
  rewrite (scan_on_blocks _ blocks stray Hall Hstray fp buf _ Heof Hr).
  destruct (run_sample1 fh c u blocks buf {| count := 1; printed := [] |})
    as (s' & buf' & Hrun & Hp).
  rewrite Hrun. cbn [lines_of]. cbn [count printed app] in Hp. rewrite Hp.
  split; [do 3 eexists; reflexivity|]. split; [reflexivity|].
  split; [apply ticks_of_spike_lines|].
  intros Hn. apply counts_of_spike_lines.
  - unfold CInt.INT_MIN. lia.
  - pose proof (filter_length_le (is_spike_of c u) (map fst blocks)) as Hf.
    rewrite length_map in Hf. lia.
Qed.

Lemma sample1_selects_witness :
  ticks_of
    (lines_of
       (sample1 example_header 1 1
          (fopen (blocks_bytes example_session ++ [x01])) example_buf))
  = [100; 180].
Proof.
  refine (proj1 (proj2 (proj2
            (sample1_selects example_header 1 1 example_session [x01]
               (fopen (blocks_bytes example_session ++ [x01])) example_buf
               _ _ eq_refl eq_refl)))).
  - whole_blocks.
  - simpl; lia.
Defined.

(** X4.  On a stream of whole blocks, SAMPLE 3 prints one line for each
    event block of the extracted channel, and for no other block: in file
    order, with the timestamp of the block, counted from 1. *)
Theorem sample3_selects fh e blocks stray fp buf :
  Forall whole_block blocks -> (length stray < 16)%nat ->
  feof fp = false ->
  remaining fp = blocks_bytes blocks ++ stray ->
  (exists s' fp' buf', sample3 fh e fp buf = Finished s' fp' buf') /\
  lines_of (sample3 fh e fp buf) =
    event_lines fh 1 (filter (is_event_of e) (map fst blocks)) /\
  ticks_of (lines_of (sample3 fh e fp buf)) =
    map TimeStamp (filter (is_event_of e) (map fst blocks)) /\
  (Z.of_nat (length blocks) <= CInt.INT_MAX ->
   counts_of (lines_of (sample3 fh e fp buf)) =
     count_from (length (filter (is_event_of e) (map fst blocks))) 1).
Proof.
  intros Hall Hstray Heof Hr. unfold sample3.
  rewrite (scan_on_blocks _ blocks stray Hall Hstray fp buf _ Heof Hr).
  destruct (run_sample3 fh e blocks buf {| count := 1; printed := [] |})
    as (s' & buf' & Hrun & Hp).
  rewrite Hrun. cbn [lines_of]. cbn [count printed app] in Hp. rewrite Hp.
  split; [do 3 eexists; reflexivity|]. split; [reflexivity|].
  split; [apply ticks_of_event_lines|].
  intros Hn. apply counts_of_event_lines.
  - unfold CInt.INT_MIN. lia.
  - pose proof (filter_length_le (is_event_of e) (map fst blocks)) as Hf.
    rewrite length_map in Hf. lia.
Qed.

Lemma sample3_selects_witness :
  ticks_of
    (lines_of
       (sample3 example_header 1
          (fopen (blocks_bytes example_session ++ [x01])) example_buf))
  = [150].
Proof.
  refine (proj1 (proj2 (proj2
            (sample3_selects example_header 1 example_session [x01]
               (fopen (blocks_bytes example_session ++ [x01])) example_buf
               _ _ eq_refl eq_refl)))).
  - whole_blocks.
  - simpl; lia.
Defined.

(** ** The waveforms and the A/D values a scan prints *)

(** A block with samples has at least [NumberOfWordsInWaveform] of them. *)
Lemma words_within_samples b :
  whole_block b -> 0 < NumberOfWaveforms (fst b) ->
  NumberOfWordsInWaveform (fst b) <= Z.of_nat (length (snd b)).
Proof.
  intros (_ & _ & Hw & Hn & Hl & _) Hpos.
  rewrite Hl. unfold sampleCount_spec. nia.
Qed.

Lemma run_sample2 fh c u blocks :
  Forall whole_block blocks ->
  forall buf s,
  exists s' buf',
    run (sample2_body fh c u) blocks buf s = Some (s', buf') /\
    printed s' = printed s ++
      waveform_lines fh (count s)
        (filter (fun b => is_spike_of c u (fst b) && has_waveform (fst b))
                blocks).
Proof.
  induction 1 as [|b rest Hb Hrest IH]; intros buf s.
  - exists s, buf. split; [reflexivity|]. simpl. symmetry. apply app_nil_r.
  - cbn [run filter]. unfold sample2_body, is_spike_of, has_waveform.
    destruct (db_Type (fst b) =? PL_SingleWFType); cbn [andb]; [|apply IH].
    destruct (0 <? sampleCount_spec (fst b)) eqn:Hw;
      [|rewrite andb_false_r; apply IH].
    destruct ((Channel (fst b) =? c) && (Unit (fst b) =? u));
      cbn [andb]; [|apply IH].
    apply Z.ltb_lt in Hw.
    assert (Hpos : 0 < NumberOfWaveforms (fst b)).
    { destruct Hb as (_ & _ & H0 & H1 & _). unfold sampleCount_spec in Hw.
      nia. }
    pose proof (words_within_samples b Hb Hpos) as Hn.
    destruct Hb as (_ & Hs & _ & _ & Hl & Hfit).
    unfold refill at 1.
    rewrite (buf_get_samples (snd b) _ _ Hs) by lia.
    destruct (IH (refill b buf)
       {| count := CInt.int (count s + 1);
          printed := printed s ++
            [Spike (count s) (TimeStamp (fst b))
                   (seconds fh (TimeStamp (fst b)));
             Waveform (firstn (Z.to_nat (NumberOfWordsInWaveform (fst b)))
                              (snd b))] |})
      as (s' & buf' & Hr & Hp).
    exists s', buf'. split; [exact Hr|]. rewrite Hp.
    cbn [count printed waveform_lines]. rewrite <- app_assoc. reflexivity.
Qed.

(** X5.  On a stream of whole blocks, SAMPLE 2 prints, for each spike
    block of the extracted channel and unit that has samples, and for no
    other block, the spike and the first [NumberOfWordsInWaveform]
    samples of that very block (all of them when it has one waveform), in
    file order; nothing of what [buf] held before is printed. *)
Theorem sample2_selects fh c u blocks stray fp buf :
  Forall whole_block blocks -> (length stray < 16)%nat ->
  feof fp = false ->
  remaining fp = blocks_bytes blocks ++ stray ->
  (exists s' fp' buf', sample2 fh c u fp buf = Finished s' fp' buf') /\
  lines_of (sample2 fh c u fp buf) =
    waveform_lines fh 1
      (filter (fun b => is_spike_of c u (fst b) && has_waveform (fst b))
              blocks) /\
  (forall b, whole_block b -> NumberOfWaveforms (fst b) = 1 ->
     firstn (Z.to_nat (NumberOfWordsInWaveform (fst b))) (snd b) = snd b).
Proof.
  intros Hall Hstray Heof Hr. unfold sample2.
  rewrite (scan_on_blocks _ blocks stray Hall Hstray fp buf _ Heof Hr).
  destruct (run_sample2 fh c u blocks Hall buf {| count := 1; printed := [] |})
    as (s' & buf' & Hrun & Hp).
  rewrite Hrun. cbn [lines_of]. cbn [count printed app] in Hp. rewrite Hp.
  split; [do 3 eexists; reflexivity|]. split; [reflexivity|].
  intros b (_ & _ & _ & Hn & Hl & _) H1.
  unfold sampleCount_spec in Hl. rewrite H1 in Hl.
  apply firstn_all2. lia.
Qed.

Lemma sample2_selects_witness :
  lines_of
    (sample2 example_header 1 1
       (fopen (blocks_bytes example_session ++ [x01])) example_buf)
  = waveform_lines example_header 1
      [(example_spike, [10; -10; 5]); (mkDB 1 0 180 1 1 1 2, [7; 8])].
Proof.
  refine (proj1 (proj2
            (sample2_selects example_header 1 1 example_session [x01]
               (fopen (blocks_bytes example_session ++ [x01])) example_buf
               _ _ eq_refl eq_refl))).
  - whole_blocks.
  - simpl; lia.
Defined.

Lemma nth_error_values_from fh gain ticks db samples :
  forall i k,
  nth_error (values_from fh gain ticks db i samples) k =
  option_map (sample_line fh gain ticks db (i + Z.of_nat k))
             (nth_error samples k).
Proof.
  induction samples as [|x r IH]; intros i k.
  - destruct k; reflexivity.
  - destruct k as [|k].
    + cbn. rewrite Z.add_0_r. reflexivity.
    + cbn [values_from nth_error]. rewrite IH. f_equal. f_equal. lia.
Qed.

Lemma length_values_from fh gain ticks db samples :
  forall i, length (values_from fh gain ticks db i samples) = length samples.
Proof.
  induction samples as [|x r IH]; intros i; [reflexivity|].
  cbn [values_from length]. rewrite IH. reflexivity.
Qed.

(** The loop of SAMPLE 4 on a block that has a waveform reads the samples
    of that block. *)
Lemma ad_lines_of_block fh gain ticks b buf :
  whole_block b -> 0 < NumberOfWaveforms (fst b) ->
  for_each (ad_line fh gain ticks (fst b) (refill b buf)) 0
    (Z.to_nat (NumberOfWordsInWaveform (fst b)))
  = Some (block_values fh gain ticks b).
Proof.
  intros Hb Hpos. pose proof (words_within_samples b Hb Hpos) as Hn.
  destruct Hb as (_ & Hs & _ & Hn0 & Hl & Hfit).
  unfold block_values. apply for_each_eq.
  - rewrite length_values_from, length_firstn. lia.
  - intros k Hk. rewrite Z.add_0_l, nth_error_values_from, Z.add_0_l.
    rewrite nth_error_firstn.
    replace (k <? Z.to_nat (NumberOfWordsInWaveform (fst b)))%nat with true
      by (symmetry; apply Nat.ltb_lt; exact Hk).
    destruct (nth_error (snd b) k) as [x|] eqn:E.
    + cbn [option_map]. unfold sample_line.
      apply ad_line_of_sample.
      rewrite buf_get_inside by (unfold buf_len in *; lia).
      f_equal. unfold refill.
      replace (Z.to_nat (2 * Z.of_nat k)) with (2 * k)%nat by lia.
      apply short_at_sample_bytes; assumption.
    + apply nth_error_None in E. lia.
Qed.

Lemma run_sample4 fh ch gain ticks blocks :
  Forall whole_block blocks -> ad_blocks_have_waveform ch blocks ->
  forall buf s,
  exists s' buf',
    run (sample4_body fh ch gain ticks) blocks buf s = Some (s', buf') /\
    ad_printed s' = ad_printed s ++
      continuous_lines fh ch gain ticks (ad_count s) (first_timestamp s)
        blocks.
Proof.
  induction 1 as [|b rest Hb Hrest IH]; intros Hwf buf s.
  - exists s, buf. split; [reflexivity|]. simpl. symmetry. apply app_nil_r.
  - inversion Hwf as [|? ? Hbw Hrw]; subst.
    cbn [run continuous_lines]. unfold sample4_body, is_ad_of in *.
    destruct (db_Type (fst b) =? PL_ADDataType); cbn [andb] in *;
      [|apply IH; assumption].
    destruct (Channel (fst b) =? ch); [|apply IH; assumption].
    rewrite (ad_lines_of_block fh gain ticks b buf Hb (Hbw eq_refl)).
    match goal with |- context [run _ rest _ ?st] =>
      destruct (IH Hrw (refill b buf) st) as (s' & buf' & Hr & Hp)
    end.
    exists s', buf'. split; [exact Hr|]. rewrite Hp.
    cbn [ad_count first_timestamp ad_printed].
    rewrite <- !app_assoc. reflexivity.
Qed.

(** SAMPLE 4 on a stream of whole blocks, with the header of the channel
    found and neither its frequency nor its gain 0. *)
Lemma sample4_on_blocks fh slowheaders ch sh blocks stray fp buf :
  Forall whole_block blocks -> ad_blocks_have_waveform ch blocks ->
  (length stray < 16)%nat ->
  feof fp = false ->
  remaining fp = blocks_bytes blocks ++ stray ->
  find_slow_header fh slowheaders ch = Found sh ->
  Slow.ADFreq sh <> 0 -> Slow.Gain sh <> 0 ->
  sample4 fh slowheaders ch fp buf =
  Returned (continuous_lines fh ch (Slow.Gain sh)
              (CInt.div (ADFrequency fh) (Slow.ADFreq sh)) 1 (-1) blocks).
Proof.
  intros Hall Hwf Hstray Heof Hr Hfind Hf Hg. unfold sample4.
  rewrite Hfind.
  replace (Slow.ADFreq sh =? 0) with false
    by (symmetry; apply Z.eqb_neq; exact Hf).
  replace (Slow.Gain sh =? 0) with false
    by (symmetry; apply Z.eqb_neq; exact Hg).
  cbn [orb].
  rewrite (scan_on_blocks _ blocks stray Hall Hstray fp buf _ Heof Hr).
  match goal with |- context [run ?bd blocks buf ?st] =>
    destruct (run_sample4 fh ch (Slow.Gain sh)
                (CInt.div (ADFrequency fh) (Slow.ADFreq sh)) blocks
                Hall Hwf buf st) as (s' & buf' & Hrun & Hp)
  end.
  rewrite Hrun. cbn [ad_count first_timestamp ad_printed app] in Hp.
  rewrite Hp. reflexivity.
Qed.

Lemma ad_values_app l1 l2 : ad_values (l1 ++ l2) = ad_values l1 ++ ad_values l2.
Proof. apply filter_app. Qed.

Lemma first_points_app l1 l2 :
  first_points (l1 ++ l2) = first_points l1 ++ first_points l2.
Proof. apply filter_app. Qed.

Lemma ad_values_values_from fh gain ticks db samples :
  forall i, ad_values (values_from fh gain ticks db i samples) =
            values_from fh gain ticks db i samples.
Proof.
  induction samples as [|x r IH]; intros i; [reflexivity|].
  cbn [values_from]. unfold ad_values, sample_line in *. cbn [filter].
  f_equal. apply IH.
Qed.

Lemma first_points_values_from fh gain ticks db samples :
  forall i, first_points (values_from fh gain ticks db i samples) = [].
Proof.
  induction samples as [|x r IH]; intros i; [reflexivity|].
  cbn [values_from]. unfold first_points, sample_line in *. cbn [filter].
  apply IH.
Qed.

Lemma ad_values_continuous_lines fh ch gain ticks blocks :
  forall k first,
  ad_values (continuous_lines fh ch gain ticks k first blocks) =
  flat_map (block_values fh gain ticks)
           (filter (fun b => is_ad_of ch (fst b)) blocks).
Proof.
  induction blocks as [|b rest IH]; intros k first; [reflexivity|].
  cbn [continuous_lines filter].
  destruct (is_ad_of ch (fst b)); [|apply IH].
  cbn [flat_map]. rewrite !ad_values_app, IH.
  unfold block_values at 1. rewrite ad_values_values_from.
  destruct (first =? -1); reflexivity.
Qed.

Lemma first_points_continuous_lines fh ch gain ticks blocks :
  forall k first,
  first_points (continuous_lines fh ch gain ticks k first blocks) =
  if first =? -1
  then first_point_lines fh k
         (filter (is_ad_of ch) (map fst blocks))
  else [].
Proof.
  induction blocks as [|b rest IH]; intros k first.
  - destruct (first =? -1); reflexivity.
  - cbn [continuous_lines map filter].
    destruct (is_ad_of ch (fst b)); [|apply IH].
    rewrite !first_points_app, IH.
    unfold block_values. rewrite first_points_values_from.
    destruct (first =? -1) eqn:E.
    + cbn [first_points filter app first_point_lines].
      destruct (TimeStamp (fst b) =? -1); reflexivity.
    + rewrite E. reflexivity.
Qed.

(** X6.  On a stream of whole blocks whose A/D blocks of the extracted
    channel have a waveform, SAMPLE 4 prints, for each of these blocks in
    file order and for no other block, one value line for each of the
    first [NumberOfWordsInWaveform] samples of that very block: the raw
    sample, its voltage and the timestamp reconstructed from its index. *)
Theorem sample4_values fh slowheaders ch sh blocks stray fp buf :
  Forall whole_block blocks -> ad_blocks_have_waveform ch blocks ->
  (length stray < 16)%nat ->
  feof fp = false ->
  remaining fp = blocks_bytes blocks ++ stray ->
  find_slow_header fh slowheaders ch = Found sh ->
  Slow.ADFreq sh <> 0 -> Slow.Gain sh <> 0 ->
  exists out,
    sample4 fh slowheaders ch fp buf = Returned out /\
    ad_values out =
      flat_map (block_values fh (Slow.Gain sh)
                  (CInt.div (ADFrequency fh) (Slow.ADFreq sh)))
               (filter (fun b => is_ad_of ch (fst b)) blocks).
Proof.
  intros Hall Hwf Hstray Heof Hr Hfind Hf Hg.
  eexists. split.
  - eapply sample4_on_blocks; eassumption.
  - apply ad_values_continuous_lines.
Qed.

Lemma sample4_values_witness :
  exists out,
    sample4 example_ad_header example_slowheaders 0
      (fopen (blocks_bytes example_session)) example_buf = Returned out /\
    ad_values out =
      block_values example_ad_header 1 2 (example_ad, [4096; 0; -4096]).
Proof.
  destruct (sample4_values example_ad_header example_slowheaders 0
              (Slow.mk 0 20000 1) example_session []
              (fopen (blocks_bytes example_session)) example_buf)
    as (out & Hout & Hvalues).
  - whole_blocks.
  - repeat constructor; vm_compute; congruence.
  - simpl; lia.
  - reflexivity.
  - cbn [remaining fopen contents position skipn]. symmetry. apply app_nil_r.
  - reflexivity.
  - vm_compute; discriminate.
  - vm_compute; discriminate.
  - exists out. split; [exact Hout|]. rewrite Hvalues.
    cbn. apply app_nil_r.
Defined.

(** X7.  The line of the first data point is guarded by
    [first_timestamp == -1]: SAMPLE 4 prints it for the first A/D block of
    the channel, and again for each following block as long as all the
    blocks before it were stamped -1. *)
Theorem sample4_first_points fh slowheaders ch sh blocks stray fp buf :
  Forall whole_block blocks -> ad_blocks_have_waveform ch blocks ->
  (length stray < 16)%nat ->
  feof fp = false ->
  remaining fp = blocks_bytes blocks ++ stray ->
  find_slow_header fh slowheaders ch = Found sh ->
  Slow.ADFreq sh <> 0 -> Slow.Gain sh <> 0 ->
  exists out,
    sample4 fh slowheaders ch fp buf = Returned out /\
    first_points out =
      first_point_lines fh 1 (filter (is_ad_of ch) (map fst blocks)).
Proof.
  intros Hall Hwf Hstray Heof Hr Hfind Hf Hg.
  eexists. split.
  - eapply sample4_on_blocks; eassumption.
  - apply first_points_continuous_lines.
Qed.

Lemma sample4_first_points_witness :
  exists out,
    sample4 example_ad_header example_slowheaders 0
      (fopen (blocks_bytes example_session)) example_buf = Returned out /\
    first_points out =
      first_point_lines example_ad_header 1 [example_ad].
Proof.
  destruct (sample4_first_points example_ad_header example_slowheaders 0
              (Slow.mk 0 20000 1) example_session []
              (fopen (blocks_bytes example_session)) example_buf)
    as (out & Hout & Hpoints).
  - whole_blocks.
  - repeat constructor; vm_compute; congruence.
  - simpl; lia.
  - reflexivity.
  - cbn [remaining fopen contents position skipn]. symmetry. apply app_nil_r.
  - reflexivity.
  - vm_compute; discriminate.
  - vm_compute; discriminate.
  - exists out. split; [exact Hout|exact Hpoints].
Defined.

(** ** The whole program on a file of whole blocks *)

Lemma read_headers_whole h fh file :
  object_sizes h -> declared_counts fh ->
  dataStartOffset_spec h fh <= Z.of_nat (length file) ->
  datastart h fh = dataStartOffset_spec h fh /\
  read_headers h fh (fopen file) =
    Some (mkFILE file (Z.to_nat (dataStartOffset_spec h fh)) false).
Proof.
  intros (Hfh & Hch & Hev & Hsl & Hmax) (Hd & He & Hs).
  unfold CInt.INT_MAX in Hmax.
  assert (Hdsp : 0 <= NumDSPChannels fh * sizeof_PL_ChanHeader h
                 <= 128 * sizeof_PL_ChanHeader h) by nia.
  assert (Hevt : 0 <= NumEventChannels fh * sizeof_PL_EventHeader h
                 <= 512 * sizeof_PL_EventHeader h) by nia.
  assert (Hslw : 0 <= NumSlowChannels fh * sizeof_PL_SlowChannelHeader h
                 <= 64 * sizeof_PL_SlowChannelHeader h) by nia.
  assert (P32 : 2 ^ 32 = 4294967296) by reflexivity.
  intros Hfile. split.
  { apply datastart_formula.
    unfold dataStartOffset_spec, CInt.in_int, CInt.INT_MIN, CInt.INT_MAX.
    lia. }
  unfold dataStartOffset_spec in *.
  unfold read_headers, fopen.
  rewrite fread_enough by (at_file; lia). at_file.
  destruct (0 <? NumDSPChannels fh) eqn:Ed;
    [apply Z.ltb_lt in Ed; whole_table 128 | apply Z.ltb_ge in Ed];
    (destruct (0 <? NumEventChannels fh) eqn:Ee;
       [apply Z.ltb_lt in Ee; whole_table 512 | apply Z.ltb_ge in Ee]);
    (destruct (NumSlowChannels fh =? 0) eqn:Es;
       [apply Z.eqb_eq in Es | apply Z.eqb_neq in Es; whole_table 64]);
    f_equal; f_equal; nia.
Qed.

(** A counting scan on a stream of whole blocks finishes at the end of
    the file with the lines of the blocks it selects. *)
Lemma counting_scan_on_blocks fh k blocks stray fp buf :
  Forall whole_block blocks -> (length stray < 16)%nat ->
  feof fp = false ->
  remaining fp = blocks_bytes blocks ++ stray ->
  exists s' buf',
    scan (body_of fh k) fp buf {| count := 1; printed := [] |} =
      Finished s'
        (mkFILE (contents fp) (position fp + length (remaining fp)) true)
        buf' /\
    printed s' =
      match k with
      | Timestamps c u =>
          spike_lines fh 1 (filter (is_spike_of c u) (map fst blocks))
      | Waveforms c u =>
          waveform_lines fh 1
            (filter (fun b => is_spike_of c u (fst b) && has_waveform (fst b))
                    blocks)
      | Events e =>
          event_lines fh 1 (filter (is_event_of e) (map fst blocks))
      end.
Proof.
  intros Hall Hstray Heof Hr.
  rewrite (scan_on_blocks _ blocks stray Hall Hstray fp buf _ Heof Hr).
  destruct k as [c u|c u|e]; cbn [body_of].
  - destruct (run_sample1 fh c u blocks buf {| count := 1; printed := [] |})
      as (s' & buf' & Hrun & Hp).
    rewrite Hrun. exists s', buf'. split; [reflexivity|exact Hp].
  - destruct (run_sample2 fh c u blocks Hall buf
                {| count := 1; printed := [] |})
      as (s' & buf' & Hrun & Hp).
    rewrite Hrun. exists s', buf'. split; [reflexivity|exact Hp].
  - destruct (run_sample3 fh e blocks buf {| count := 1; printed := [] |})
      as (s' & buf' & Hrun & Hp).
    rewrite Hrun. exists s', buf'. split; [reflexivity|exact Hp].
Qed.

Lemma fseek_rewinds fp d e p :
  0 <= d ->
  fseek (mkFILE (contents fp) p e) d = mkFILE (contents fp) (Z.to_nat d) false.
Proof.
  intros Hd. unfold fseek.
  replace (d <? 0) with false by (symmetry; apply Z.ltb_ge; exact Hd).
  reflexivity.
Qed.

(** ** A file of whole blocks that ends inside a block *)

Lemma sample4_body_defined fh ch gain ticks db nbuf buf s :
  NumberOfWordsInWaveform db <= buf_len ->
  exists s', sample4_body fh ch gain ticks db nbuf buf s = Some s'.
Proof.
  intros Hn.
  destruct (db_Type db =? PL_ADDataType) eqn:Et;
    [|exists s; unfold sample4_body; rewrite Et; reflexivity].
  destruct (Channel db =? ch) eqn:Ec;
    [|exists s; unfold sample4_body; rewrite Et, Ec; reflexivity].
  apply Z.eqb_eq in Et, Ec.
  apply sample4_block_defined; assumption.
Qed.

Lemma sample4_body_appends fh ch gain ticks db nbuf buf s s' :
  sample4_body fh ch gain ticks db nbuf buf s = Some s' ->
  exists more, ad_printed s' = ad_printed s ++ more.
Proof.
  unfold sample4_body. intros H.
  destruct (db_Type db =? PL_ADDataType);
    [|inversion H; exists []; symmetry; apply app_nil_r].
  destruct (Channel db =? ch);
    [|inversion H; exists []; symmetry; apply app_nil_r].
  destruct (for_each _ _ _) as [values|]; [|discriminate].
  inversion H. cbn [ad_printed]. eexists. reflexivity.
Qed.

(** The loop on whole blocks followed by anything: it goes through the
    blocks as [run] tells and goes on behind them. *)
Lemma scan_through_blocks {S : Type}
    (body : PL_DataBlockHeader -> Z -> list byte -> S -> option S)
    (blocks : list (PL_DataBlockHeader * list Z)) (tail : list byte) :
  Forall whole_block blocks ->
  forall fp buf s,
  feof fp = false ->
  remaining fp = blocks_bytes blocks ++ tail ->
  scan body fp buf s =
  match run body blocks buf s with
  | Some (s', buf') =>
      scan body (behind fp (length (blocks_bytes blocks))) buf' s'
  | None => Undefined
  end.
Proof.
  intros Hall. induction Hall as [|b rest Hb Hrest IH];
    intros fp buf s Heof Hr.
  - cbn [run blocks_bytes flat_map length]. unfold behind.
    destruct fp as [c p e]. unfold feof in Heof. cbn [eof_flag] in Heof.
    subst e. cbn [contents position]. rewrite Nat.add_0_r. reflexivity.
  - cbn [blocks_bytes flat_map] in Hr. rewrite <- app_assoc in Hr.
    fold (blocks_bytes rest) in Hr.
    rewrite scan_round, (fetch_block fp buf b _ Hb Heof Hr). cbn [run].
    destruct (body (fst b) (sampleCount_spec (fst b)) (refill b buf) s)
      as [s'|]; [|reflexivity].
    rewrite IH;
      [|reflexivity|eapply remaining_behind; [exact Hr|reflexivity]].
    destruct (run body rest (refill b buf) s') as [[s2 buf2]|];
      [|reflexivity].
    unfold behind. cbn [contents position blocks_bytes flat_map].
    fold (blocks_bytes rest). rewrite length_app, Nat.add_assoc.
    reflexivity.
Qed.

Lemma run_records fh k blocks :
  Forall whole_block blocks ->
  forall buf, exists s' buf',
    run (body_of fh k) blocks buf {| count := 1; printed := [] |}
      = Some (s', buf') /\
    printed s' = records_of fh k blocks.
Proof.
  intros Hall buf. destruct k as [c u|c u|e]; cbn [body_of records_of].
  - destruct (run_sample1 fh c u blocks buf {| count := 1; printed := [] |})
      as (s' & buf' & Hrun & Hp).
    exists s', buf'. split; [exact Hrun|exact Hp].
  - destruct (run_sample2 fh c u blocks Hall buf
                {| count := 1; printed := [] |})
      as (s' & buf' & Hrun & Hp).
    exists s', buf'. split; [exact Hrun|exact Hp].
  - destruct (run_sample3 fh e blocks buf {| count := 1; printed := [] |})
      as (s' & buf' & Hrun & Hp).
    exists s', buf'. split; [exact Hrun|exact Hp].
Qed.

(** C3, amended.  On a byte source that holds whole blocks and then a
    block whose header declares a payload longer than what is left of the
    file, each of the four scans of the program yields every record of
    the whole blocks, and these records stay in its output: what a scan
    that finishes has printed begins with the records that the same scan
    prints for the whole blocks, in their order, whatever the truncated
    block adds behind them.  The scan ends as a scan ends at the end of
    the data: finished, with the stream at the end of the file, the
    end-of-file indicator being the only trace of the truncation.  Each
    scan does finish whenever what is left of the file behind the header
    and the waveform of the truncated block lie in [buf].  For SAMPLE 4
    the records of the whole blocks are told for A/D blocks that have a
    waveform; for any blocks, what SAMPLE 4 prints begins with what it
    prints on the whole blocks alone. *)
Theorem truncated_block_scan fh blocks tail fp buf :
  Forall whole_block blocks ->
  feof fp = false ->
  remaining fp = blocks_bytes blocks ++ tail ->
  truncated_block (behind fp (length (blocks_bytes blocks))) ->
  (forall k s' fp' buf',
     scan (body_of fh k) fp buf {| count := 1; printed := [] |}
       = Finished s' fp' buf' ->
     fp' = mkFILE (contents fp) (position fp + length (remaining fp)) true /\
     exists more, printed s' = records_of fh k blocks ++ more)
  /\ (forall ch gain ticks a' fp' buf',
        ad_blocks_have_waveform ch blocks ->
        scan (sample4_body fh ch gain ticks) fp buf
          {| ad_count := 1; first_timestamp := -1; ad_printed := [] |}
          = Finished a' fp' buf' ->
        fp' = mkFILE (contents fp) (position fp + length (remaining fp))
                true /\
        exists more,
          ad_printed a' =
            continuous_lines fh ch gain ticks 1 (-1) blocks ++ more)
  /\ (forall ch gain ticks whole a0 fp0 buf0 a' fp' buf',
        feof whole = false ->
        remaining whole = blocks_bytes blocks ->
        scan (sample4_body fh ch gain ticks) whole buf
          {| ad_count := 1; first_timestamp := -1; ad_printed := [] |}
          = Finished a0 fp0 buf0 ->
        scan (sample4_body fh ch gain ticks) fp buf
          {| ad_count := 1; first_timestamp := -1; ad_printed := [] |}
          = Finished a' fp' buf' ->
        exists more, ad_printed a' = ad_printed a0 ++ more)
  /\ (Z.of_nat (length tail) - sizeof_db <= 2 * buf_len ->
      NumberOfWordsInWaveform
        (header_at (behind fp (length (blocks_bytes blocks)))) <= buf_len ->
      (forall k, exists s' fp' buf',
         scan (body_of fh k) fp buf {| count := 1; printed := [] |}
           = Finished s' fp' buf') /\
      (forall ch gain ticks,
         ad_blocks_have_waveform ch blocks ->
         exists a' fp' buf',
           scan (sample4_body fh ch gain ticks) fp buf
             {| ad_count := 1; first_timestamp := -1; ad_printed := [] |}
             = Finished a' fp' buf')).
Proof.
  intros Hall Heof Hr Ht.
  set (cut := behind fp (length (blocks_bytes blocks))) in *.
  assert (Hcut : remaining cut = tail).
  { unfold cut, behind. apply (remaining_behind fp _ false _ _ Hr eq_refl). }
  assert (Hend : mkFILE (contents cut)
                   (position cut + length (remaining cut)) true =
                 mkFILE (contents fp)
                   (position fp + length (remaining fp)) true).
  { rewrite Hcut, Hr, length_app. unfold cut, behind.
    cbn [contents position]. rewrite Nat.add_assoc. reflexivity. }
  assert (Hfit : Z.of_nat (length tail) - sizeof_db <= 2 * buf_len ->
            forall buf1,
            buf_store (skipn 16 (remaining cut)) buf1 =
            Some (skipn 16 (remaining cut) ++
                  skipn (length (skipn 16 (remaining cut))) buf1)).
  { intros Hf buf1. unfold buf_store.
    replace (Z.of_nat (length (skipn 16 (remaining cut))) <=? 2 * buf_len)
      with true; [reflexivity|].
    symmetry. apply Z.leb_le. rewrite length_skipn, Hcut.
    unfold sizeof_db, buf_len in *. lia. }
  split; [|split; [|split]].
  - intros k s' fp' buf' Hscan.
    rewrite (scan_through_blocks (body_of fh k) blocks tail Hall
               fp buf _ Heof Hr) in Hscan.
    destruct (run_records fh k blocks Hall buf) as (s1 & buf1 & Hrun & Hp).
    rewrite Hrun in Hscan. fold cut in Hscan.
    rewrite (scan_truncated (body_of fh k) cut buf1 s1 Ht) in Hscan.
    destruct (buf_store _ buf1) as [bf|]; [|discriminate].
    destruct (body_of fh k _ _ bf s1) as [c|] eqn:Hb; [|discriminate].
    inversion Hscan; subst. split; [exact Hend|].
    destruct (counting_body_appends fh k _ _ _ _ _ Hb) as [more Hmore].
    exists more. rewrite Hmore, Hp. reflexivity.
  - intros ch gain ticks a' fp' buf' Hwf Hscan.
    rewrite (scan_through_blocks (sample4_body fh ch gain ticks) blocks tail
               Hall fp buf _ Heof Hr) in Hscan.
    destruct (run_sample4 fh ch gain ticks blocks Hall Hwf buf
                {| ad_count := 1; first_timestamp := -1; ad_printed := [] |})
      as (s1 & buf1 & Hrun & Hp).
    rewrite Hrun in Hscan. fold cut in Hscan.
    rewrite (scan_truncated _ cut buf1 s1 Ht) in Hscan.
    destruct (buf_store _ buf1) as [bf|]; [|discriminate].
    destruct (sample4_body fh ch gain ticks _ _ bf s1) as [c|] eqn:Hb;
      [|discriminate].
    inversion Hscan; subst. split; [exact Hend|].
    destruct (sample4_body_appends _ _ _ _ _ _ _ _ _ Hb) as [more Hmore].
    exists more. rewrite Hmore, Hp. reflexivity.
  - intros ch gain ticks whole a0 fp0 buf0 a' fp' buf' Hweof Hwr Hwhole Hscan.
    rewrite (scan_on_blocks (sample4_body fh ch gain ticks) blocks []
               Hall ltac:(simpl; lia) whole buf _ Hweof
               ltac:(rewrite Hwr; symmetry; apply app_nil_r)) in Hwhole.
    rewrite (scan_through_blocks (sample4_body fh ch gain ticks) blocks tail
               Hall fp buf _ Heof Hr) in Hscan.
    destruct (run (sample4_body fh ch gain ticks) blocks buf _)
      as [[s1 buf1]|]; [|discriminate].
    inversion Hwhole; subst a0. fold cut in Hscan.
    rewrite (scan_truncated _ cut buf1 s1 Ht) in Hscan.
    destruct (buf_store _ buf1) as [bf|]; [|discriminate].
    destruct (sample4_body fh ch gain ticks _ _ bf s1) as [c|] eqn:Hb;
      [|discriminate].
    inversion Hscan; subst.
    exact (sample4_body_appends _ _ _ _ _ _ _ _ _ Hb).
  - intros Hf Hn. split.
    + intros k.
      rewrite (scan_through_blocks (body_of fh k) blocks tail Hall
                 fp buf _ Heof Hr).
      destruct (run_records fh k blocks Hall buf) as (s1 & buf1 & Hrun & _).
      rewrite Hrun. fold cut.
      rewrite (scan_truncated (body_of fh k) cut buf1 s1 Ht).
      rewrite (Hfit Hf buf1).
      match goal with |- context [body_of fh k ?d ?n ?b s1] =>
        destruct (counting_body_defined fh k d n b s1 Hn) as [s' Hb]
      end.
      rewrite Hb. do 3 eexists. reflexivity.
    + intros ch gain ticks Hwf.
      rewrite (scan_through_blocks (sample4_body fh ch gain ticks) blocks
                 tail Hall fp buf _ Heof Hr).
      destruct (run_sample4 fh ch gain ticks blocks Hall Hwf buf
                  {| ad_count := 1; first_timestamp := -1;
                     ad_printed := [] |})
        as (s1 & buf1 & Hrun & _).
      rewrite Hrun. fold cut.
      rewrite (scan_truncated _ cut buf1 s1 Ht).
      rewrite (Hfit Hf buf1).
      match goal with
      | |- context [sample4_body fh ch gain ticks ?d ?n ?b s1] =>
          destruct (sample4_body_defined fh ch gain ticks d n b s1 Hn)
            as [s' Hb]
      end.
      rewrite Hb. do 3 eexists. reflexivity.
Qed.

Lemma truncated_block_scan_witness :
  exists s' fp' buf',
    scan (body_of example_ad_header (Waveforms 1 1)) (fopen cut_file)
         example_buf (mkCounting 1 []) = Finished s' fp' buf' /\
    fp' = mkFILE cut_file (length cut_file) true /\
    exists more,
      printed s' =
        [Spike 1 100 (seconds example_ad_header 100); Waveform [10; -10; 5]]
        ++ more.
Proof.
  destruct (truncated_block_scan example_ad_header
              [(example_spike, [10; -10; 5])]
              (header_bytes cut_spike ++ sample_bytes [7])
              (fopen cut_file) example_buf) as (Hend & _ & _ & Hdef).
  - whole_blocks.
  - reflexivity.
  - reflexivity.
  - repeat split; vm_compute; congruence.
  - destruct Hdef as (Hdef & _);
      [vm_compute; discriminate | vm_compute; discriminate |].
    destruct (Hdef (Waveforms 1 1)) as (s' & fp' & buf' & Hs).
    exists s', fp', buf'. split; [exact Hs|].
    exact (Hend (Waveforms 1 1) s' fp' buf' Hs).
Defined.

(** ** The whole program on a file of whole blocks *)

Lemma main_three_listings h fh t banner slowheaders tables blocks stray buf0 :
  printheaderinfo fh t = Some banner ->
  object_sizes h -> declared_counts fh ->
  Z.of_nat (length tables) = dataStartOffset_spec h fh ->
  Forall whole_block blocks -> (length stray < 16)%nat ->
  exists fp3 buf3,
    main h fh t slowheaders (Some (tables ++ blocks_bytes blocks ++ stray))
      buf0 =
    append (three_listings fh banner blocks)
      (sample4 fh slowheaders 0 fp3 buf3) /\
    feof fp3 = false /\
    remaining fp3 = blocks_bytes blocks ++ stray.
Proof.
  intros Hbanner Hsz Hcnt Hlen Hall Hstray.
  set (file := tables ++ blocks_bytes blocks ++ stray).
  destruct (read_headers_whole h fh file Hsz Hcnt) as (Hd & Hread).
  { unfold file. rewrite length_app. lia. }
  assert (Hd0 : 0 <= datastart h fh).
  { rewrite Hd, <- Hlen. lia. }
  assert (Hrem : forall e,
            remaining (mkFILE file (Z.to_nat (datastart h fh)) e)
            = blocks_bytes blocks ++ stray).
  { intros e. unfold remaining. cbn [contents position]. unfold file.
    rewrite Hd, <- Hlen, Nat2Z.id, skipn_app, Nat.sub_diag, skipn_O.
    rewrite skipn_all2 by lia. reflexivity. }
  unfold main. fold file. rewrite Hbanner, Hread, <- Hd.
  set (start := mkFILE file (Z.to_nat (datastart h fh)) false).
  assert (Hstart : forall fp, contents fp = file ->
            fseek fp (datastart h fh) = start).
  { intros [c p e] Hc. cbn [contents] in Hc. subst c.
    apply (fseek_rewinds (mkFILE file p e)), Hd0. }
  unfold sample1, sample2, sample3.
  destruct (counting_scan_on_blocks fh (Timestamps 1 1) blocks stray start
              buf0 Hall Hstray eq_refl (Hrem false))
    as (s1 & buf1 & E1 & P1).
  cbn [body_of] in E1. rewrite E1, Hstart by reflexivity.
  destruct (counting_scan_on_blocks fh (Waveforms 1 1) blocks stray start
              buf1 Hall Hstray eq_refl (Hrem false))
    as (s2 & buf2 & E2 & P2).
  cbn [body_of] in E2. rewrite E2, Hstart by reflexivity.
  destruct (counting_scan_on_blocks fh (Events 1) blocks stray start
              buf2 Hall Hstray eq_refl (Hrem false))
    as (s3 & buf3 & E3 & P3).
  cbn [body_of] in E3. rewrite E3, Hstart by reflexivity.
  exists start, buf3. rewrite P1, P2, P3.
  split; [reflexivity|]. split; [reflexivity|]. apply Hrem.
Qed.

(** X8.  On a file that opens and holds the headers (the comment of the
    file header with its NUL), then whole blocks (the A/D blocks of
    channel 0 with a waveform), then fewer than 16 stray bytes, [main]
    reaches its end, and what it has printed is the banner of the file
    header and then, each behind its heading, the lines of the four
    samples, each computed from all the blocks of the file: the spikes of
    channel 1, unit 1; these spikes with their waveforms; the events of
    channel 1; the values of A/D channel 0.  No sample is affected by the
    ones before it. *)
Theorem main_on_blocks h fh t banner slowheaders sh tables blocks stray buf0 :
  printheaderinfo fh t = Some banner ->
  object_sizes h -> declared_counts fh ->
  Z.of_nat (length tables) = dataStartOffset_spec h fh ->
  Forall whole_block blocks -> ad_blocks_have_waveform 0 blocks ->
  (length stray < 16)%nat ->
  find_slow_header fh slowheaders 0 = Found sh ->
  Slow.ADFreq sh <> 0 -> Slow.Gain sh <> 0 ->
  main h fh t slowheaders (Some (tables ++ blocks_bytes blocks ++ stray))
    buf0 =
  Ended
    (map Banner banner ++
     TimestampsFor 1 1 ::
     map Data (spike_lines fh 1 (filter (is_spike_of 1 1) (map fst blocks))) ++
     WaveformsFor 1 1 ::
     map Data
       (waveform_lines fh 1
          (filter (fun b => is_spike_of 1 1 (fst b) && has_waveform (fst b))
                  blocks)) ++
     EventTimestampsFor 1 ::
     map Data (event_lines fh 1 (filter (is_event_of 1) (map fst blocks))) ++
     ContinuousDataFor 0 ::
     map Data
       (continuous_lines fh 0 (Slow.Gain sh)
          (CInt.div (ADFrequency fh) (Slow.ADFreq sh)) 1 (-1) blocks)).
Proof.
  intros Hbanner Hsz Hcnt Hlen Hall Hwf Hstray Hfind Hf Hg.
  destruct (main_three_listings h fh t banner slowheaders tables blocks stray
              buf0 Hbanner Hsz Hcnt Hlen Hall Hstray)
    as (fp3 & buf3 & Hmain & Heof & Hrem).
  rewrite Hmain.
  rewrite (sample4_on_blocks fh slowheaders 0 sh blocks stray fp3 buf3
             Hall Hwf Hstray Heof Hrem Hfind Hf Hg).
  cbn [append]. unfold three_listings.
  repeat (rewrite <- ?app_assoc; cbn [app]). reflexivity.
Qed.

Lemma main_on_blocks_witness :
  exists banner,
    printheaderinfo example_ad_header example_ad_counts = Some banner /\
    main example_layout example_ad_header example_ad_counts
      example_slowheaders
      (Some (example_ad_tables ++ blocks_bytes example_session ++ [x01]))
      example_buf =
    Ended
      (map Banner banner ++
       TimestampsFor 1 1 ::
       map Data
         (spike_lines example_ad_header 1
            [example_spike; mkDB 1 0 180 1 1 1 2]) ++
       WaveformsFor 1 1 ::
       map Data
         (waveform_lines example_ad_header 1
            [(example_spike, [10; -10; 5]); (mkDB 1 0 180 1 1 1 2, [7; 8])]) ++
       EventTimestampsFor 1 ::
       map Data (event_lines example_ad_header 1 [mkDB 4 0 150 1 0 0 0]) ++
       ContinuousDataFor 0 ::
       map Data
         (continuous_lines example_ad_header 0 1 2 1 (-1) example_session)).
Proof.
  destruct (printheaderinfo example_ad_header example_ad_counts)
    as [banner|] eqn:Hbanner; [|vm_compute in Hbanner; discriminate Hbanner].
  exists banner. split; [reflexivity|].
  apply (main_on_blocks example_layout example_ad_header example_ad_counts
           banner example_slowheaders (Slow.mk 0 20000 1) example_ad_tables
           example_session [x01] example_buf).
  - exact Hbanner.
  - vm_compute. repeat split; congruence.
  - vm_compute. repeat split; congruence.
  - reflexivity.
  - whole_blocks.
  - repeat constructor; vm_compute; congruence.
  - simpl; lia.
  - reflexivity.
  - vm_compute; discriminate.
  - vm_compute; discriminate.
Defined.

(** ** How a scan ends, and why the next one rewinds *)

Lemma fetch_stops fp buf fp' :
  fetch fp buf = Stop fp' ->
  eof_flag fp' = true /\ contents fp' = contents fp /\
  (position fp <= position fp')%nat.
Proof.
  unfold fetch, feof. destruct (eof_flag fp) eqn:E.
  - intros H. inversion H; subst. repeat split; [exact E|lia].
  - pose proof (fread_position sizeof_db fp) as P.
    unfold fread in *. cbn [fst snd] in P. cbn [orb].
    set (n := if sizeof_db <? Z.of_nat (length (remaining fp))
              then Z.to_nat sizeof_db else length (remaining fp)) in *.
    destruct (Z.of_nat n <? sizeof_db) eqn:F; cbn [orb].
    + change (0 =? 1) with false. cbv iota.
      intros H. inversion H; subst. cbn [eof_flag contents position].
      rewrite E. repeat split. lia.
    + change (sizeof_db <=? 0) with false. change (1 =? 1) with true.
      cbv iota.
      destruct (0 <? _).
      * destruct (buf_store _ buf); discriminate.
      * discriminate.
Qed.

Lemma fetch_keeps_file fp buf db nbuf fp' buf' :
  fetch fp buf = Fetched db nbuf fp' buf' ->
  contents fp' = contents fp /\ (position fp <= position fp')%nat.
Proof.
  unfold fetch. destruct (feof fp); [discriminate|].
  pose proof (fread_position sizeof_db fp) as P1.
  pose proof (fread_contents sizeof_db fp) as C1.
  destruct (fread sizeof_db fp) as [[hdr items] fp1]. cbn [fst snd] in *.
  destruct (items =? 1); [|discriminate].
  destruct (0 <? NumberOfWaveforms (overlay_db hdr)).
  - match goal with |- context [fread ?n fp1] =>
      pose proof (fread_position n fp1) as P2;
      pose proof (fread_contents n fp1) as C2;
      destruct (fread n fp1) as [[got k] fp2] end.
    cbn [fst snd] in *.
    destruct (buf_store got buf); [|discriminate].
    intros H. inversion H; subst. split; [congruence|lia].
  - intros H. inversion H; subst. split; [congruence|lia].
Qed.

Lemma scan_ends_at_eof {S : Type}
    (body : PL_DataBlockHeader -> Z -> list byte -> S -> option S) :
  forall n fp buf s s' fp' buf',
  (length (remaining fp) < n)%nat ->
  scan body fp buf s = Finished s' fp' buf' ->
  eof_flag fp' = true /\ contents fp' = contents fp /\
  (position fp <= position fp')%nat.
Proof.
  induction n as [|n IH]; intros fp buf s s' fp' buf' Hn; [lia|].
  rewrite scan_round.
  destruct (fetch fp buf) as [fq|db nbuf fq bq|] eqn:F; [| |discriminate].
  - intros H. inversion H; subst. eapply fetch_stops, F.
  - destruct (body db nbuf bq s) as [sq|]; [|discriminate].
    intros H. pose proof (fetch_progress _ _ _ _ _ _ F) as Hp.
    destruct (fetch_keeps_file _ _ _ _ _ _ F) as (Hc & Hpos).
    destruct (IH fq bq sq s' fp' buf' ltac:(lia) H) as (He & Hc' & Hpos').
    repeat split; [exact He|congruence|lia].
Qed.

(** X9.  A scan that finishes leaves the stream with the end-of-file
    indicator set, on the same file, the cursor not before where it
    started; a scan started on that stream without a rewind reads no block
    and leaves its locals as they are. *)
Theorem scan_needs_rewind {S T : Type}
    (body : PL_DataBlockHeader -> Z -> list byte -> S -> option S)
    (next : PL_DataBlockHeader -> Z -> list byte -> T -> option T)
    fp buf s s' fp' buf' (t : T) :
  scan body fp buf s = Finished s' fp' buf' ->
  eof_flag fp' = true /\ contents fp' = contents fp /\
  (position fp <= position fp')%nat /\
  scan next fp' buf' t = Finished t fp' buf'.
Proof.
  intros H.
  destruct (scan_ends_at_eof body _ fp buf s s' fp' buf'
              (Nat.lt_succ_diag_r _) H) as (He & Hc & Hp).
  repeat split; try assumption.
  rewrite scan_round. unfold fetch, feof. rewrite He. reflexivity.
Qed.

Lemma scan_needs_rewind_witness :
  exists s' fp' buf',
    scan (sample1_body example_header 1 1)
         (fopen (blocks_bytes example_session)) example_buf
         (mkCounting 1 []) = Finished s' fp' buf' /\
    scan (sample3_body example_header 1) fp' buf' (mkCounting 1 []) =
      Finished (mkCounting 1 []) fp' buf'.
Proof.
  destruct (counting_scan_on_blocks example_header (Timestamps 1 1)
              example_session [] (fopen (blocks_bytes example_session))
              example_buf) as (s' & buf' & Hscan & _).
  - whole_blocks.
  - simpl; lia.
  - reflexivity.
  - cbn [remaining fopen contents position skipn]. symmetry. apply app_nil_r.
  - cbn [body_of] in Hscan. eexists s', _, buf'. split; [exact Hscan|].
    exact (proj2 (proj2 (proj2
             (scan_needs_rewind (sample1_body example_header 1 1)
                (sample3_body example_header 1) _ _ _ _ _ _
                (mkCounting 1 []) Hscan)))).
Defined.

(** ** Scans that do not read [buf] *)

Lemma fetch_any_buf fp buf1 buf2 :
  match fetch fp buf1 with
  | Stop f => fetch fp buf2 = Stop f
  | Fetched db nbuf f _ => exists b, fetch fp buf2 = Fetched db nbuf f b
  | Smashed => fetch fp buf2 = Smashed
  end.
Proof.
  unfold fetch. destruct (feof fp); [reflexivity|].
  destruct (fread sizeof_db fp) as [[hdr items] fp1].
  destruct (items =? 1); [|reflexivity].
  destruct (0 <? NumberOfWaveforms (overlay_db hdr)).
  - destruct (fread _ fp1) as [[got k] fp2]. unfold buf_store.
    destruct (Z.of_nat (length got) <=? 2 * buf_len);
      [eexists|]; reflexivity.
  - eexists. reflexivity.
Qed.

Lemma scan_any_buf {S : Type}
    (body : PL_DataBlockHeader -> Z -> list byte -> S -> option S) :
  ignores_buf body ->
  forall n fp buf1 buf2 s,
  (length (remaining fp) < n)%nat ->
  locals_and_stream (scan body fp buf1 s) =
  locals_and_stream (scan body fp buf2 s).
Proof.
  intros Hig. induction n as [|n IH]; intros fp buf1 buf2 s Hn; [lia|].
  rewrite (scan_round body fp buf1), (scan_round body fp buf2).
  pose proof (fetch_any_buf fp buf1 buf2) as Hf.
  destruct (fetch fp buf1) as [f|db nbuf f b1|] eqn:F1.
  - rewrite Hf. reflexivity.
  - destruct Hf as [b2 Hf]. rewrite Hf.
    rewrite (Hig db nbuf b1 b2 s).
    destruct (body db nbuf b2 s) as [s'|]; [|reflexivity].
    apply IH. pose proof (fetch_progress _ _ _ _ _ _ F1). lia.
  - rewrite Hf. reflexivity.
Qed.

Lemma timestamp_bodies_ignore_buf fh c u e :
  ignores_buf (sample1_body fh c u) /\ ignores_buf (sample3_body fh e).
Proof. split; intros db nbuf buf1 buf2 s; reflexivity. Qed.

(** X10.  The scans of spike timestamps and of event timestamps never
    read [buf]: on any file, whole or not, each prints after a rewind to
    one offset the same lines and ends in the same state, whatever [buf]
    holds and wherever the stream was left by the scans before. *)
Theorem timestamp_scans_repeat fh c u e fp1 fp2 buf1 buf2 d :
  contents fp1 = contents fp2 -> 0 <= d ->
  (locals_and_stream (sample1 fh c u (fseek fp1 d) buf1) =
   locals_and_stream (sample1 fh c u (fseek fp2 d) buf2) /\
   lines_of (sample1 fh c u (fseek fp1 d) buf1) =
   lines_of (sample1 fh c u (fseek fp2 d) buf2)) /\
  (locals_and_stream (sample3 fh e (fseek fp1 d) buf1) =
   locals_and_stream (sample3 fh e (fseek fp2 d) buf2) /\
   lines_of (sample3 fh e (fseek fp1 d) buf1) =
   lines_of (sample3 fh e (fseek fp2 d) buf2)).
Proof.
  intros Hc Hd.
  assert (Hseek : fseek fp1 d = fseek fp2 d).
  { unfold fseek.
    replace (d <? 0) with false by (symmetry; apply Z.ltb_ge; exact Hd).
    rewrite Hc. reflexivity. }
  rewrite Hseek.
  destruct (timestamp_bodies_ignore_buf fh c u e) as (H1 & H3).
  assert (Hlines : forall r1 r2 : result counting,
            locals_and_stream r1 = locals_and_stream r2 ->
            lines_of r1 = lines_of r2).
  { intros [s1 f1 b1|] [s2 f2 b2|] H; simpl in *; congruence. }
  unfold sample1, sample3. split.
  - pose proof (scan_any_buf _ H1 _ (fseek fp2 d) buf1 buf2
                  {| count := 1; printed := [] |} (Nat.lt_succ_diag_r _))
      as H.
    split; [exact H|apply Hlines, H].
  - pose proof (scan_any_buf _ H3 _ (fseek fp2 d) buf1 buf2
                  {| count := 1; printed := [] |} (Nat.lt_succ_diag_r _))
      as H.
    split; [exact H|apply Hlines, H].
Qed.

Lemma timestamp_scans_repeat_witness :
  lines_of (sample1 example_header 1 1
              (fseek (fopen example_blocks) 0) example_buf) =
  lines_of (sample1 example_header 1 1
              (fseek (mkFILE example_blocks 54 true) 0) cut_buf).
Proof.
  refine (proj2 (proj1
            (timestamp_scans_repeat example_header 1 1 1
               (fopen example_blocks) (mkFILE example_blocks 54 true)
               example_buf cut_buf 0 eq_refl _))).
  lia.
Defined.

(** ** Blocks the buffer cannot take, and blocks without a payload *)

(** X11.  [buf] takes 256 samples.  A block whose samples are in the file
    and are more than that, and a cut block that leaves more than 512
    bytes, make [fread] write past [buf]: the scan is undefined at that
    block, whatever the body and the type of the block. *)
Theorem oversized_block_undefined {S : Type}
    (body : PL_DataBlockHeader -> Z -> list byte -> S -> option S)
    (fp : FILE) (buf : list byte) (s : S) :
  feof fp = false ->
  (0 <= NumberOfWaveforms (header_at fp) ->
   0 <= NumberOfWordsInWaveform (header_at fp) ->
   sizeof_db + 2 * sampleCount_spec (header_at fp)
     <= Z.of_nat (length (remaining fp)) ->
   buf_len < sampleCount_spec (header_at fp) ->
   fetch fp buf = Smashed /\ scan body fp buf s = Undefined)
  /\ (truncated_block fp ->
      2 * buf_len < Z.of_nat (length (remaining fp)) - sizeof_db ->
      fetch fp buf = Smashed /\ scan body fp buf s = Undefined).
Proof.
  intros Heof. split.
  - intros Hw Hn Hfile Hbig.
    assert (Hf : fetch fp buf = Smashed).
    { rewrite (fetch_whole fp buf Heof Hw Hn Hfile). unfold buf_store.
      rewrite length_firstn, length_skipn.
      unfold sizeof_db, buf_len in *.
      match goal with |- context [?a <=? ?b] =>
        replace (a <=? b) with false by (symmetry; apply Z.leb_gt; lia)
      end.
      reflexivity. }
    split; [exact Hf|]. rewrite scan_round, Hf. reflexivity.
  - intros Ht Hbig.
    assert (Hf : fetch fp buf = Smashed).
    { rewrite (fetch_truncated fp buf Ht). unfold buf_store.
      rewrite length_skipn. unfold sizeof_db, buf_len in *.
      match goal with |- context [?a <=? ?b] =>
        replace (a <=? b) with false by (symmetry; apply Z.leb_gt; lia)
      end.
      reflexivity. }
    split; [exact Hf|]. rewrite scan_round, Hf. reflexivity.
Qed.

Lemma oversized_block_undefined_witness :
  (fetch (fopen oversized_file) example_buf = Smashed /\
   scan (sample1_body example_header 1 1) (fopen oversized_file)
        example_buf (mkCounting 1 []) = Undefined) /\
  (fetch (fopen overdeclared_file) example_buf = Smashed /\
   scan (sample1_body example_header 1 1) (fopen overdeclared_file)
        example_buf (mkCounting 1 []) = Undefined).
Proof.
  split.
  - apply (proj1 (oversized_block_undefined
                    (sample1_body example_header 1 1)
                    (fopen oversized_file) example_buf (mkCounting 1 [])
                    eq_refl));
      vm_compute; congruence.
  - apply (proj2 (oversized_block_undefined
                    (sample1_body example_header 1 1)
                    (fopen overdeclared_file) example_buf (mkCounting 1 [])
                    eq_refl)).
    + repeat split; vm_compute; congruence.
    + vm_compute; reflexivity.
Defined.

(** X12.  A header with a positive waveform count and a negative number
    of words makes [nbuf] negative and asks [fread] for at least 2 GiB:
    in a smaller file the read takes all that is left.  When that is more
    than the 512 bytes of [buf] the read writes past [buf] and the loop is
    undefined.  Otherwise the block goes to the body with the negative
    [nbuf] and [buf] refilled with what was left, and the loop ends right
    after that body, at the end of the file: no block behind the header is
    visited.  The bodies of the four samples are defined on such a block,
    so each scan of the program then finishes. *)
Theorem negative_words_end_scan {S : Type}
    (body : PL_DataBlockHeader -> Z -> list byte -> S -> option S)
    (fp : FILE) (buf : list byte) (s : S) :
  feof fp = false ->
  sizeof_db <= Z.of_nat (length (remaining fp)) ->
  Z.of_nat (length (remaining fp)) < 2 ^ 31 ->
  0 < NumberOfWaveforms (header_at fp) ->
  NumberOfWordsInWaveform (header_at fp) < 0 ->
  truncated_block fp /\
  sampleCount_spec (header_at fp) < 0 /\
  (2 * buf_len < Z.of_nat (length (remaining fp)) - sizeof_db ->
   scan body fp buf s = Undefined) /\
  (Z.of_nat (length (remaining fp)) - sizeof_db <= 2 * buf_len ->
   scan body fp buf s =
     match body (header_at fp) (sampleCount_spec (header_at fp))
             (skipn 16 (remaining fp) ++
              skipn (length (skipn 16 (remaining fp))) buf) s with
     | Some s' =>
         Finished s'
           (mkFILE (contents fp) (position fp + length (remaining fp)) true)
           (skipn 16 (remaining fp) ++
            skipn (length (skipn 16 (remaining fp))) buf)
     | None => Undefined
     end) /\
  (Z.of_nat (length (remaining fp)) - sizeof_db <= 2 * buf_len ->
   forall fh,
     (forall k c, exists c' buf',
        scan (body_of fh k) fp buf c =
        Finished c'
          (mkFILE (contents fp) (position fp + length (remaining fp)) true)
          buf') /\
     (forall ch gain ticks a, exists a' buf',
        scan (sample4_body fh ch gain ticks) fp buf a =
        Finished a'
          (mkFILE (contents fp) (position fp + length (remaining fp)) true)
          buf')).
Proof.
  intros Heof Hhdr Hsmall Hw Hn.
  pose proof (short_range (le_unsigned (field 12 2 (firstn 16 (remaining fp)))))
    as Rw.
  pose proof (short_range (le_unsigned (field 14 2 (firstn 16 (remaining fp)))))
    as Rn.
  change (CInt.short _) with (NumberOfWaveforms (header_at fp)) in Rw.
  change (CInt.short _) with (NumberOfWordsInWaveform (header_at fp)) in Rn.
  unfold CInt.in_short in Rw, Rn.
  assert (Hneg : -1073741824 <= sampleCount_spec (header_at fp) < 0)
    by (unfold sampleCount_spec; nia).
  assert (Hint : CInt.int (sampleCount_spec (header_at fp)) =
                 sampleCount_spec (header_at fp))
    by (apply int_small;
        unfold CInt.in_int, CInt.INT_MIN, CInt.INT_MAX; lia).
  assert (Ht : truncated_block fp).
  { repeat split; try assumption.
    unfold declared_payload. fold (sampleCount_spec (header_at fp)).
    rewrite Hint. unfold CInt.size_t, CInt.to_unsigned.
    change (2 ^ 32) with 4294967296. change (2 ^ 31) with 2147483648 in Hsmall.
    replace (sampleCount_spec (header_at fp) * 2 mod 4294967296)
      with (sampleCount_spec (header_at fp) * 2 + 4294967296)
      by (apply Z.mod_unique with (q := -1); lia).
    unfold sizeof_db. lia. }
  assert (Hscan : forall (T : Type)
            (bd : PL_DataBlockHeader -> Z -> list byte -> T -> option T) t,
            Z.of_nat (length (remaining fp)) - sizeof_db <= 2 * buf_len ->
            scan bd fp buf t =
            match bd (header_at fp) (sampleCount_spec (header_at fp))
                    (skipn 16 (remaining fp) ++
                     skipn (length (skipn 16 (remaining fp))) buf) t with
            | Some t' =>
                Finished t'
                  (mkFILE (contents fp)
                     (position fp + length (remaining fp)) true)
                  (skipn 16 (remaining fp) ++
                   skipn (length (skipn 16 (remaining fp))) buf)
            | None => Undefined
            end).
  { intros T bd t Hfit.
    rewrite (scan_truncated bd fp buf t Ht), Hint. unfold buf_store.
    replace (Z.of_nat (length (skipn 16 (remaining fp))) <=? 2 * buf_len)
      with true; [reflexivity|].
    symmetry. apply Z.leb_le. rewrite length_skipn.
    unfold sizeof_db in *. lia. }
  split; [exact Ht|]. split; [lia|]. split; [|split].
  - intros Hbig. rewrite (scan_truncated body fp buf s Ht). unfold buf_store.
    replace (Z.of_nat (length (skipn 16 (remaining fp))) <=? 2 * buf_len)
      with false; [reflexivity|].
    symmetry. apply Z.leb_gt. rewrite length_skipn.
    unfold sizeof_db in *. lia.
  - apply Hscan.
  - intros Hfit fh. split.
    + intros k c. rewrite (Hscan _ (body_of fh k) c Hfit).
      match goal with |- context [body_of fh k ?d ?n ?b c] =>
        destruct (counting_body_defined fh k d n b c) as [c' Hc']
      end; [unfold buf_len; lia|].
      rewrite Hc'. do 2 eexists. reflexivity.
    + intros ch gain ticks a.
      rewrite (Hscan _ (sample4_body fh ch gain ticks) a Hfit).
      match goal with |- context [sample4_body fh ch gain ticks ?d ?n ?b a] =>
        destruct (sample4_body_defined fh ch gain ticks d n b a) as [a' Ha']
      end; [unfold buf_len; lia|].
      rewrite Ha'. do 2 eexists. reflexivity.
Qed.

Lemma negative_words_end_scan_witness :
  truncated_block (fopen negative_words_file) /\
  sampleCount_spec (header_at (fopen negative_words_file)) < 0 /\
  lines_of (sample1 example_header 1 1 (fopen negative_words_file)
              example_buf)
  = [Spike 1 50 (seconds example_header 50)].
Proof.
  destruct (negative_words_end_scan (sample1_body example_header 1 1)
              (fopen negative_words_file) example_buf (mkCounting 1 []))
    as (Htrunc & Hneg & _ & Hscan & _); try (vm_compute; congruence).
  split; [exact Htrunc|]. split; [exact Hneg|].
  unfold sample1. rewrite Hscan by (vm_compute; congruence).
  vm_compute. reflexivity.
Defined.

(** X13.  For a header whose waveform count is 0 or negative the loop
    head reads no payload: [nbuf] is 0, the cursor moves by the 16 bytes
    of the header and [buf] keeps what it held.  SAMPLE 2 guards the
    waveform with [nbuf > 0] and prints nothing for such a block; SAMPLE 4
    has no such guard and prints, for such a block of its channel,
    [NumberOfWordsInWaveform] values taken from what [buf] held before. *)
Theorem block_without_payload fh c u ch gain ticks fp buf
    (s2 : counting) (s4 : sampling) :
  feof fp = false ->
  sizeof_db <= Z.of_nat (length (remaining fp)) ->
  NumberOfWaveforms (header_at fp) <= 0 ->
  fetch fp buf =
    Fetched (header_at fp) 0
      (mkFILE (contents fp) (position fp + 16) false) buf
  /\ sample2_body fh c u (header_at fp) 0 buf s2 = Some s2
  /\ (db_Type (header_at fp) = PL_ADDataType ->
      Channel (header_at fp) = ch ->
      NumberOfWordsInWaveform (header_at fp) <= buf_len ->
      exists s' values,
        sample4_body fh ch gain ticks (header_at fp) 0 buf s4 = Some s' /\
        ad_printed s' =
          ad_printed s4 ++ first_line fh s4 (header_at fp) ++ values /\
        length values =
          Z.to_nat (NumberOfWordsInWaveform (header_at fp)) /\
        forall i, 0 <= i < NumberOfWordsInWaveform (header_at fp) ->
          nth_error values (Z.to_nat i) =
          Some (value_line fh gain ticks (header_at fp) buf i)).
Proof.
  intros Heof Hhdr Hw. split; [|split].
  - rewrite (fetch_header fp buf Heof Hhdr).
    replace (0 <? NumberOfWaveforms (header_at fp)) with false
      by (symmetry; apply Z.ltb_ge; exact Hw).
    reflexivity.
  - unfold sample2_body. change (0 <? 0) with false.
    rewrite andb_false_r. reflexivity.
  - intros Ht Hc Hn. apply sample4_block; assumption.
Qed.

Lemma block_without_payload_witness :
  fetch (fopen (header_bytes stale_ad)) example_buf =
    Fetched (header_at (fopen (header_bytes stale_ad))) 0
      (mkFILE (header_bytes stale_ad) (0 + 16) false) example_buf.
Proof.
  refine (proj1 (block_without_payload example_ad_header 1 1 0 1 2
                   (fopen (header_bytes stale_ad)) example_buf
                   (mkCounting 1 []) (mkSampling 1 (-1) [])
                   eq_refl _ _));
    vm_compute; congruence.
Defined.

(** ** The header of an A/D channel *)

Lemma find_first {A : Type} (f : A -> bool) (l : list A) x :
  find f l = Some x <->
  exists i, nth_error l i = Some x /\ f x = true /\
            forall j y, (j < i)%nat -> nth_error l j = Some y -> f y = false.
Proof.
  revert x. induction l as [|a l IH]; intros x.
  - split; [discriminate|]. intros (i & Hi & _). destruct i; discriminate.
  - cbn [find]. destruct (f a) eqn:Fa.
    + split.
      * intros H. inversion H; subst. exists 0%nat.
        split; [reflexivity|]. split; [exact Fa|]. intros j y Hj. lia.
      * intros (i & Hi & Hx & Hfirst). destruct i as [|i].
        -- inversion Hi. reflexivity.
        -- specialize (Hfirst 0%nat a ltac:(lia) eq_refl). congruence.
    + rewrite IH. split.
      * intros (i & Hi & Hx & Hfirst). exists (Datatypes.S i).
        split; [exact Hi|]. split; [exact Hx|].
        intros [|j] y Hj Hy.
        -- inversion Hy; subst. exact Fa.
        -- apply (Hfirst j y); [lia|exact Hy].
      * intros (i & Hi & Hx & Hfirst). destruct i as [|i].
        -- inversion Hi; subst. congruence.
        -- exists i. split; [exact Hi|]. split; [exact Hx|].
           intros j y Hj Hy. apply (Hfirst (Datatypes.S j) y); [lia|exact Hy].
Qed.

Lemma find_nothing {A : Type} (f : A -> bool) (l : list A) :
  find f l = None <->
  forall j y, nth_error l j = Some y -> f y = false.
Proof.
  induction l as [|a l IH].
  - split; [|reflexivity]. intros _ j y H. destruct j; discriminate.
  - cbn [find]. destruct (f a) eqn:Fa.
    + split; [discriminate|]. intros H.
      specialize (H 0%nat a eq_refl). congruence.
    + rewrite IH. split.
      * intros H [|j] y Hy; [inversion Hy; subst; exact Fa|].
        apply (H j y Hy).
      * intros H j y Hy. apply (H (Datatypes.S j) y Hy).
Qed.

Lemma nth_error_firstn_some {A : Type} n (l : list A) i x :
  nth_error (firstn n l) i = Some x <->
  (i < n)%nat /\ nth_error l i = Some x.
Proof.
  rewrite nth_error_firstn. destruct (i <? n)%nat eqn:E.
  - apply Nat.ltb_lt in E. split; [intros H; split; assumption|intros [_ H]; exact H].
  - apply Nat.ltb_ge in E. split; [discriminate|]. intros [H _]. lia.
Qed.

(** X14.  The lookup of the A/D channel header returns the first of the
    [NumSlowChannels] declared headers whose channel field is the channel,
    whatever the position of the header in the array; it finds none
    exactly when no declared header carries the channel. *)
Theorem find_slow_header_first fh slowheaders ch :
  (forall sh, find_slow_header fh slowheaders ch = Found sh <->
     exists i, (i < Z.to_nat (NumSlowChannels fh))%nat /\
       nth_error slowheaders i = Some sh /\ Slow.Channel sh = ch /\
       forall j other, (j < i)%nat -> nth_error slowheaders j = Some other ->
         Slow.Channel other <> ch)
  /\ (NumSlowChannels fh <= Z.of_nat (length slowheaders) ->
      (find_slow_header fh slowheaders ch = Missing <->
       forall j other, (j < Z.to_nat (NumSlowChannels fh))%nat ->
         nth_error slowheaders j = Some other -> Slow.Channel other <> ch)).
Proof.
  unfold find_slow_header. split.
  - intros sh.
    destruct (find _ (firstn _ slowheaders)) as [x|] eqn:F.
    + split.
      * intros H. inversion H; subst x.
        apply find_first in F. destruct F as (i & Hi & Hx & Hfirst).
        apply nth_error_firstn_some in Hi. destruct Hi as (Hlt & Hi).
        exists i. split; [exact Hlt|]. split; [exact Hi|].
        split; [apply Z.eqb_eq, Hx|].
        intros j other Hj Ho. apply Z.eqb_neq.
        apply (Hfirst j other Hj). apply nth_error_firstn_some.
        split; [lia|exact Ho].
      * intros (i & Hlt & Hi & Hc & Hfirst).
        assert (F' : find (fun sh0 => Slow.Channel sh0 =? ch)
                       (firstn (Z.to_nat (NumSlowChannels fh)) slowheaders)
                     = Some sh).
        { apply find_first. exists i.
          split; [apply nth_error_firstn_some; split; assumption|].
          split; [apply Z.eqb_eq, Hc|].
          intros j y Hj Hy. apply nth_error_firstn_some in Hy.
          apply Z.eqb_neq. apply (Hfirst j y Hj), Hy. }
        rewrite F in F'. inversion F'. reflexivity.
    + split.
      * destruct (_ <=? _); discriminate.
      * intros (i & Hlt & Hi & Hc & _). exfalso.
        rewrite find_nothing in F.
        specialize (F i sh).
        rewrite nth_error_firstn_some in F.
        specialize (F (conj Hlt Hi)). apply Z.eqb_neq in F. contradiction.
  - intros Hlen.
    replace (NumSlowChannels fh <=? Z.of_nat (length slowheaders)) with true
      by (symmetry; apply Z.leb_le; exact Hlen).
    destruct (find _ (firstn _ slowheaders)) as [x|] eqn:F.
    + split; [discriminate|]. intros H. exfalso.
      apply find_first in F. destruct F as (i & Hi & Hx & _).
      apply nth_error_firstn_some in Hi. destruct Hi as (Hlt & Hi).
      apply Z.eqb_eq in Hx. exact (H i x Hlt Hi Hx).
    + split; [|reflexivity]. intros _ j other Hj Ho.
      rewrite find_nothing in F. apply Z.eqb_neq.
      apply (F j other). apply nth_error_firstn_some. split; assumption.
Qed.

Lemma find_slow_header_first_witness :
  find_slow_header three_slow_channels example_header_array 0
  = Found (Slow.mk 0 0 5).
Proof.
  apply (proj1 (find_slow_header_first three_slow_channels
                  example_header_array 0)).
  exists 1%nat. split; [vm_compute; lia|]. split; [reflexivity|].
  split; [reflexivity|].
  intros j other Hj Hother.
  destruct j as [|j]; [|lia].
  inversion Hother. vm_compute. discriminate.
Defined.

(** X15.  SAMPLE 4 decides on the first declared header of the channel
    alone, before it reads a block: when that header has a frequency or a
    gain of 0 the sample exits with the message of the missing frequency
    or gain, also when a later header of the same channel has both; when
    no declared header carries the channel it exits with the message of
    the missing header.  It returns only with a header whose frequency
    and gain are not 0, so it never divides by a frequency or a gain
    of 0. *)
Theorem sample4_guards fh slowheaders ch fp buf :
  (forall i sh,
     (i < Z.to_nat (NumSlowChannels fh))%nat ->
     nth_error slowheaders i = Some sh -> Slow.Channel sh = ch ->
     (forall j other, (j < i)%nat -> nth_error slowheaders j = Some other ->
        Slow.Channel other <> ch) ->
     Slow.ADFreq sh = 0 \/ Slow.Gain sh = 0 ->
     sample4 fh slowheaders ch fp buf = Exited [NoFreqOrGain])
  /\ (NumSlowChannels fh <= Z.of_nat (length slowheaders) ->
      (forall j other, (j < Z.to_nat (NumSlowChannels fh))%nat ->
         nth_error slowheaders j = Some other -> Slow.Channel other <> ch) ->
      sample4 fh slowheaders ch fp buf = Exited [NoHeader])
  /\ (forall out, sample4 fh slowheaders ch fp buf = Returned out ->
      exists sh, find_slow_header fh slowheaders ch = Found sh /\
                 Slow.ADFreq sh <> 0 /\ Slow.Gain sh <> 0).
Proof.
  split; [|split].
  - intros i sh Hlt Hi Hc Hfirst Hzero.
    assert (F : find_slow_header fh slowheaders ch = Found sh).
    { unfold find_slow_header.
      assert (F' : find (fun sh0 => Slow.Channel sh0 =? ch)
                     (firstn (Z.to_nat (NumSlowChannels fh)) slowheaders)
                   = Some sh).
      { apply find_first. exists i.
        split; [apply nth_error_firstn_some; split; assumption|].
        split; [apply Z.eqb_eq, Hc|].
        intros j y Hj Hy. apply nth_error_firstn_some in Hy.
        apply Z.eqb_neq. apply (Hfirst j y Hj), Hy. }
      rewrite F'. reflexivity. }
    unfold sample4. rewrite F.
    destruct Hzero as [Hz|Hz]; rewrite Hz; cbn [Z.eqb orb];
      [reflexivity|rewrite orb_true_r; reflexivity].
  - intros Hlen Hnone.
    assert (F : find_slow_header fh slowheaders ch = Missing).
    { unfold find_slow_header.
      assert (F' : find (fun sh0 => Slow.Channel sh0 =? ch)
                     (firstn (Z.to_nat (NumSlowChannels fh)) slowheaders)
                   = None).
      { apply find_nothing. intros j y Hy.
        apply nth_error_firstn_some in Hy. destruct Hy as (Hj & Hy).
        apply Z.eqb_neq. apply (Hnone j y Hj Hy). }
      rewrite F'.
      replace (NumSlowChannels fh <=? Z.of_nat (length slowheaders))
        with true by (symmetry; apply Z.leb_le; exact Hlen).
      reflexivity. }
    unfold sample4. rewrite F. reflexivity.
  - intros out. unfold sample4.
    destruct (find_slow_header fh slowheaders ch) as [sh| |];
      [|discriminate|discriminate].
    destruct (Slow.ADFreq sh =? 0) eqn:Ef; [discriminate|].
    destruct (Slow.Gain sh =? 0) eqn:Eg; [discriminate|].
    intros _. exists sh. split; [reflexivity|].
    split; apply Z.eqb_neq; assumption.
Qed.

Lemma sample4_guards_witness :
  sample4 three_slow_channels example_header_array 0
    (fopen example_ad_file) example_buf = Exited [NoFreqOrGain].
Proof.
  apply (proj1 (sample4_guards three_slow_channels example_header_array 0
                  (fopen example_ad_file) example_buf)
           1%nat (Slow.mk 0 0 5)).
  - vm_compute; lia.
  - reflexivity.
  - reflexivity.
  - intros j other Hj Hother.
    destruct j as [|j]; [|lia].
    inversion Hother. vm_compute. discriminate.
  - left. reflexivity.
Defined.

(** ** The header banner *)

Lemma some_eq {A : Type} (x y : A) : Some x = Some y -> x = y.
Proof. congruence. Qed.

Lemma flat_map_same {A B : Type} (f g : A -> list B) l :
  (forall a, In a l -> f a = g a) -> flat_map f l = flat_map g l.
Proof.
  induction l as [|a l IH]; intros H; [reflexivity|].
  cbn [flat_map]. rewrite (H a (or_introl eq_refl)), IH; [reflexivity|].
  intros b Hb. apply H. right. exact Hb.
Qed.

Lemma in_count_from n : forall x y,
  In y (count_from n x) <-> x <= y < x + Z.of_nat n.
Proof.
  induction n as [|n IH]; intros x y.
  - simpl. lia.
  - cbn [count_from In]. rewrite IH. lia.
Qed.

Lemma in_count_table mk test shown l :
  In l (count_table mk test shown) <->
  exists i j, 0 <= i < 130 /\ 0 <= j < 5 /\ 0 < test i j /\
              l = mk i j (shown i j).
Proof.
  unfold count_table. rewrite in_flat_map. split.
  - intros (i & Hi & Hl). apply in_flat_map in Hl.
    destruct Hl as (j & Hj & Hl).
    apply in_count_from in Hi. apply in_count_from in Hj.
    destruct (0 <? test i j) eqn:E; [|destruct Hl].
    destruct Hl as [Hl|[]]. apply Z.ltb_lt in E.
    exists i, j. repeat split; try lia. symmetry. exact Hl.
  - intros (i & j & Hi & Hj & Ht & Hl). exists i.
    split; [apply in_count_from; lia|].
    apply in_flat_map. exists j. split; [apply in_count_from; lia|].
    replace (0 <? test i j) with true by (symmetry; apply Z.ltb_lt; exact Ht).
    left. symmetry. exact Hl.
Qed.

Lemma in_slots (mk : Z -> Z -> banner_line) (number : Z -> Z) counts n x l :
  In l (flat_map (fun i => if 0 <? counts i then [mk (number i) (counts i)]
                           else []) (count_from n x)) <->
  exists i, x <= i < x + Z.of_nat n /\ 0 < counts i /\
            l = mk (number i) (counts i).
Proof.
  rewrite in_flat_map. split.
  - intros (i & Hi & Hl). apply in_count_from in Hi.
    destruct (0 <? counts i) eqn:E; [|destruct Hl].
    destruct Hl as [Hl|[]]. apply Z.ltb_lt in E.
    exists i. repeat split; try lia. symmetry. exact Hl.
  - intros (i & Hi & Ht & Hl). exists i.
    split; [apply in_count_from; exact Hi|].
    replace (0 <? counts i) with true by (symmetry; apply Z.ltb_lt; exact Ht).
    left. symmetry. exact Hl.
Qed.

Lemma c_string_text bs text :
  c_string bs = Some text <->
  (exists rest, bs = text ++ x00 :: rest) /\ ~ In x00 text.
Proof.
  revert text. induction bs as [|b bs IH]; intros text.
  - split; [discriminate|]. intros [[rest H] _].
    destruct text; discriminate.
  - cbn [c_string]. destruct (Byte.eqb b x00) eqn:E.
    + apply Byte.byte_dec_bl in E. subst b. split.
      * intros H. inversion H. split; [exists bs; reflexivity|intros []].
      * intros [[rest H] Hn]. destruct text as [|c text]; [reflexivity|].
        inversion H; subst c. exfalso. apply Hn. left. reflexivity.
    + assert (Hb : b <> x00).
      { intros ->. discriminate E. }
      destruct (c_string bs) as [t|] eqn:C.
      * split.
        -- intros H. inversion H; subst text.
           destruct (proj1 (IH t) eq_refl) as [[rest Hr] Hn].
           split; [exists rest; rewrite Hr; reflexivity|].
           intros [H0|H0]; [congruence|contradiction].
        -- intros [[rest H] Hn]. destruct text as [|c text].
           ++ inversion H. congruence.
           ++ inversion H; subst c. f_equal. f_equal.
              assert (Ht : Some t = Some text); [|inversion Ht; reflexivity].
              apply IH. split; [exists rest; assumption|].
              intros H0. apply Hn. right. exact H0.
      * split; [discriminate|]. intros [[rest H] Hn].
        destruct text as [|c text].
        -- inversion H. congruence.
        -- inversion H; subst c.
           assert (Ht : None = Some text); [|discriminate].
           apply IH. split; [exists rest; assumption|].
           intros H0. apply Hn. right. exact H0.
Qed.

Local Ltac banner_in H :=
  repeat (rewrite in_app_iff in H || cbn [In] in H);
  repeat match type of H with
         | _ \/ _ => destruct H as [H|H]
         | _ = _ => try discriminate H
         | False => destruct H
         end.

(** X16.  The banner lists a timestamp count for exactly the channels
    0..129 and units 0..4 whose entry of [TSCounts] is positive, with that
    entry.  Its waveform listing has a line for exactly the channels and
    units whose entry of [WFCounts] is positive, and the count on that
    line is the entry of [TSCounts], not the one of [WFCounts]: the
    values of [WFCounts] are never printed, and two headers whose
    [WFCounts] are positive at the same places give the same banner. *)
Theorem banner_count_tables fh t out :
  printheaderinfo fh t = Some out ->
  (forall c u n, In (TimestampCount c u n) out <->
     0 <= c < 130 /\ 0 <= u < 5 /\ 0 < n /\ n = TSCounts t c u)
  /\ (forall c u n, In (WaveformCount c u n) out <->
     0 <= c < 130 /\ 0 <= u < 5 /\ 0 < WFCounts t c u /\ n = TSCounts t c u)
  /\ (forall wf,
        (forall c u, 0 <= c < 130 -> 0 <= u < 5 ->
                     (0 < wf c u <-> 0 < WFCounts t c u)) ->
        printheaderinfo fh
          (mkTables (Version t) (Comment t) (TSCounts t) wf (EVCounts t))
        = Some out).
Proof.
  unfold printheaderinfo. destruct (c_string (Comment t)) as [text|] eqn:C;
    [|discriminate].
  intros H. apply some_eq in H. subst out. split; [|split].
  - intros c u n. split.
    + intros Hin. banner_in Hin.
      * apply in_count_table in Hin.
        destruct Hin as (i & j & Hi & Hj & Ht & Hl). inversion Hl. subst.
        repeat split; lia.
      * apply in_count_table in Hin.
        destruct Hin as (i & j & _ & _ & _ & Hl). discriminate.
      * apply in_slots with (number := fun i => i) in Hin.
        destruct Hin as (i & _ & _ & Hl). discriminate.
      * apply in_slots with (mk := ADPoints) (number := fun i => i - 300 + 1)
          in Hin.
        destruct Hin as (i & _ & _ & Hl). discriminate.
    + intros (Hc & Hu & Hn & ->).
      do 7 right. apply in_or_app. left. apply in_count_table.
      exists c, u. repeat split; try lia.
  - intros c u n. split.
    + intros Hin. banner_in Hin.
      * apply in_count_table in Hin.
        destruct Hin as (i & j & _ & _ & _ & Hl). discriminate.
      * apply in_count_table in Hin.
        destruct Hin as (i & j & Hi & Hj & Ht & Hl). inversion Hl. subst.
        repeat split; lia.
      * apply in_slots with (number := fun i => i) in Hin.
        destruct Hin as (i & _ & _ & Hl). discriminate.
      * apply in_slots with (mk := ADPoints) (number := fun i => i - 300 + 1)
          in Hin.
        destruct Hin as (i & _ & _ & Hl). discriminate.
    + intros (Hc & Hu & Hn & ->).
      do 7 right. apply in_or_app. right. right.
      apply in_or_app. left. apply in_count_table.
      exists c, u. repeat split; try lia.
  - intros wf Hwf. cbn [Comment Version TSCounts WFCounts EVCounts].
    rewrite C. do 2 f_equal.
    f_equal. f_equal. f_equal. f_equal.
    unfold count_table.
    apply flat_map_same. intros i Hi. apply in_count_from in Hi.
    apply flat_map_same. intros j Hj. apply in_count_from in Hj.
    specialize (Hwf i j ltac:(lia) ltac:(lia)).
    destruct (0 <? wf i j) eqn:E1, (0 <? WFCounts t i j) eqn:E2;
      try reflexivity.
    + apply Z.ltb_lt in E1. apply Z.ltb_ge in E2. apply Hwf in E1. lia.
    + apply Z.ltb_ge in E1. apply Z.ltb_lt in E2. apply Hwf in E2. lia.
Qed.

Lemma banner_count_tables_witness :
  exists out,
    printheaderinfo example_header example_tables_of_counts = Some out /\
    (In (WaveformCount 1 1 7) out <->
     0 <= 1 < 130 /\ 0 <= 1 < 5 /\
     0 < WFCounts example_tables_of_counts 1 1 /\
     7 = TSCounts example_tables_of_counts 1 1).
Proof.
  eexists. split; [reflexivity|].
  exact (proj1 (proj2 (banner_count_tables example_header
                         example_tables_of_counts _ eq_refl)) 1 1 7).
Defined.

(** X17.  The event listing of the banner covers the entries 0..298 of
    [EVCounts]: it has a line for exactly those of them that are
    positive, so entry 299 is never listed.  The A/D listing covers the
    entries 300..511 and numbers the channels from 1: the line of entry
    [i] carries the channel number [i - 299], the numbers run over
    1..212, and the points of channel number [n] are the entry
    [n + 299]. *)
Theorem banner_event_slots fh t out :
  printheaderinfo fh t = Some out ->
  (forall e n, In (EventCount e n) out <->
     0 <= e < 299 /\ 0 < n /\ n = EVCounts t e)
  /\ (forall c n, In (ADPoints c n) out <->
     1 <= c <= 212 /\ 0 < n /\ n = EVCounts t (c + 299)).
Proof.
  unfold printheaderinfo. destruct (c_string (Comment t)) as [text|] eqn:C;
    [|discriminate].
  intros H. apply some_eq in H. subst out. split.
  - intros e n. split.
    + intros Hin. banner_in Hin.
      * apply in_count_table in Hin.
        destruct Hin as (i & j & _ & _ & _ & Hl). discriminate.
      * apply in_count_table in Hin.
        destruct Hin as (i & j & _ & _ & _ & Hl). discriminate.
      * apply in_slots with (number := fun i => i) in Hin.
        destruct Hin as (i & Hi & Hp & Hl). inversion Hl. subst.
        repeat split; lia.
      * apply in_slots with (mk := ADPoints) (number := fun i => i - 300 + 1)
          in Hin.
        destruct Hin as (i & _ & _ & Hl). discriminate.
    + intros (He & Hn & ->).
      do 7 right. apply in_or_app. right. right.
      apply in_or_app. right. right. apply in_or_app. left.
      apply in_slots with (number := fun i => i).
      exists e. repeat split; try lia.
  - intros c n. split.
    + intros Hin. banner_in Hin.
      * apply in_count_table in Hin.
        destruct Hin as (i & j & _ & _ & _ & Hl). discriminate.
      * apply in_count_table in Hin.
        destruct Hin as (i & j & _ & _ & _ & Hl). discriminate.
      * apply in_slots with (number := fun i => i) in Hin.
        destruct Hin as (i & _ & _ & Hl). discriminate.
      * apply in_slots with (mk := ADPoints) (number := fun i => i - 300 + 1)
          in Hin.
        destruct Hin as (i & Hi & Hp & Hl). inversion Hl. subst.
        replace (i - 300 + 1 + 299) with i by lia.
        repeat split; lia.
    + intros (Hc & Hn & ->).
      do 7 right. apply in_or_app. right. right.
      apply in_or_app. right. right. apply in_or_app. right. right.
      apply in_slots with (mk := ADPoints) (number := fun i => i - 300 + 1).
      exists (c + 299). split; [lia|]. split; [lia|].
      f_equal. lia.
Qed.

Lemma banner_event_slots_witness :
  exists out,
    printheaderinfo example_header example_tables_of_counts = Some out /\
    (In (ADPoints 212 20) out <->
     1 <= 212 <= 212 /\ 0 < 20 /\
     20 = EVCounts example_tables_of_counts (212 + 299)).
Proof.
  eexists. split; [reflexivity|].
  exact (proj2 (banner_event_slots example_header
                  example_tables_of_counts _ eq_refl) 212 20).
Defined.

(** X18.  The banner is printed exactly when the comment array holds a
    NUL, it begins with the version, the comment up to its first NUL, the
    frequency and the three channel counts of the header, in this order,
    and what follows the first NUL in the array is not printed. *)
Theorem banner_heading fh t :
  (forall out, printheaderinfo fh t = Some out ->
     exists text tail more,
       Comment t = text ++ x00 :: tail /\ ~ In x00 text /\
       out = FileVersion (Version t) :: FileComment text ::
             Frequency (ADFrequency fh) :: DSPChannels (NumDSPChannels fh) ::
             EventChannels (NumEventChannels fh) ::
             ADChannels (NumSlowChannels fh) :: more)
  /\ (printheaderinfo fh t = None <-> ~ In x00 (Comment t))
  /\ (forall text tail tail',
        ~ In x00 text -> Comment t = text ++ x00 :: tail ->
        printheaderinfo fh
          (mkTables (Version t) (text ++ x00 :: tail') (TSCounts t)
                    (WFCounts t) (EVCounts t))
        = printheaderinfo fh t).
Proof.
  split; [|split].
  - intros out. unfold printheaderinfo.
    destruct (c_string (Comment t)) as [text|] eqn:C; [|discriminate].
    intros H. apply some_eq in H. subst out.
    apply c_string_text in C. destruct C as [[tail Ht] Hn].
    exists text, tail. eexists. split; [exact Ht|]. split; [exact Hn|].
    cbn [app]. reflexivity.
  - unfold printheaderinfo.
    destruct (c_string (Comment t)) as [text|] eqn:C.
    + split; [discriminate|]. intros Hn. exfalso. apply Hn.
      apply c_string_text in C. destruct C as [[tail Ht] _].
      rewrite Ht. apply in_or_app. right. left. reflexivity.
    + split; [|reflexivity]. intros _ Hin.
      apply in_split in Hin. destruct Hin as (l1 & l2 & Hs).
      assert (Hfirst : forall bs l1 l2, bs = l1 ++ x00 :: l2 ->
                c_string bs <> None).
      { clear. induction bs as [|b bs IH]; intros l1 l2 H.
        - destruct l1; discriminate.
        - cbn [c_string]. destruct (Byte.eqb b x00) eqn:E; [discriminate|].
          destruct l1 as [|c l1].
          + inversion H. subst b. discriminate E.
          + inversion H. subst.
            specialize (IH l1 l2 eq_refl).
            destruct (c_string (l1 ++ x00 :: l2)); [discriminate|].
            congruence. }
      exact (Hfirst _ _ _ Hs C).
  - intros text tail tail' Hn Ht. unfold printheaderinfo.
    cbn [Comment Version TSCounts WFCounts EVCounts].
    assert (C1 : c_string (Comment t) = Some text).
    { apply c_string_text. split; [exists tail; exact Ht|exact Hn]. }
    assert (C2 : c_string (text ++ x00 :: tail') = Some text).
    { apply c_string_text. split; [exists tail'; reflexivity|exact Hn]. }
    rewrite C1, C2. reflexivity.
Qed.

Lemma banner_heading_witness :
  exists text tail more,
    Comment example_tables_of_counts = text ++ x00 :: tail /\
    ~ In x00 text /\
    printheaderinfo example_header example_tables_of_counts =
    Some (FileVersion 105 :: FileComment text :: Frequency 40000 ::
          DSPChannels 2 :: EventChannels 1 :: ADChannels 1 :: more).
Proof.
  destruct (printheaderinfo example_header example_tables_of_counts)
    as [out|] eqn:E; [|vm_compute in E; discriminate E].
  destruct (proj1 (banner_heading example_header example_tables_of_counts)
              out E) as (text & tail & more & Hc & Hn & Hout).
  exists text, tail, more. split; [exact Hc|]. split; [exact Hn|].
  f_equal. exact Hout.
Defined.

(** X1.  A whole block under the cursor is read back as it was written:
    the header fields are those of the block, [nbuf] is the product of its
    two counts, the cursor stands behind the block with end of file not
    set, the first [nbuf] entries of [buf] are the samples of the block,
    and the bytes of [buf] behind them keep what they held. *)
Theorem fetch_reads_block fp buf b rest :
  whole_block b -> feof fp = false ->
  remaining fp = block_bytes (fst b) (snd b) ++ rest ->
  exists fp' buf',
    fetch fp buf =
      Fetched (fst b)
        (NumberOfWaveforms (fst b) * NumberOfWordsInWaveform (fst b))
        fp' buf' /\
    remaining fp' = rest /\ feof fp' = false /\
    for_each (buf_get buf') 0 (length (snd b)) = Some (snd b) /\
    skipn (2 * length (snd b)) buf' = skipn (2 * length (snd b)) buf.
Proof.
  intros Hb Heof Hr.
  pose proof Hb as (Hw & Hs & Hnw & Hnww & Hlen & Hfit).
  exists (mkFILE (contents fp)
            (position fp + length (block_bytes (fst b) (snd b))) false),
         (refill b buf).
  split; [exact (fetch_block fp buf b rest Hb Heof Hr)|].
  split; [exact (remaining_behind fp _ false _ _ Hr eq_refl)|].
  split; [reflexivity|]. split.
  - unfold refill.
    pose proof (buf_get_samples (snd b)
                  (skipn (length (sample_bytes (snd b))) buf)
                  (Z.of_nat (length (snd b))) Hs) as Hget.
    rewrite Nat2Z.id, firstn_all in Hget. apply Hget; lia.
  - unfold refill. rewrite length_sample_bytes.
    rewrite skipn_app, length_sample_bytes, Nat.sub_diag, skipn_O.
    rewrite skipn_all2 by (rewrite length_sample_bytes; lia).
    reflexivity.
Qed.

Lemma fetch_reads_block_witness :
  exists fp' buf',
    fetch (fopen example_blocks) example_buf =
      Fetched example_spike 3 fp' buf' /\
    remaining fp' =
      block_bytes example_event [] ++
      block_bytes example_ad [4096; 0; -4096] /\
    feof fp' = false /\
    for_each (buf_get buf') 0 3 = Some [10; -10; 5] /\
    skipn 6 buf' = skipn 6 example_buf.
Proof.
  apply (fetch_reads_block (fopen example_blocks) example_buf
           (example_spike, [10; -10; 5])
           (block_bytes example_event [] ++
            block_bytes example_ad [4096; 0; -4096])).
  - whole_blocks.
  - reflexivity.
  - reflexivity.
Defined.

(** X2.  On a stream of whole blocks followed by fewer than 16 stray
    bytes the loop runs its body once for every block, in the order of the
    file, with the header of the block, [nbuf] the product of its counts
    and [buf] refilled with its samples; it then stops with the cursor
    behind the last byte and end of file set, the stray bytes read by no
    body.  The loop is undefined only when a body is. *)
Theorem scan_visits_blocks {S : Type}
    (body : PL_DataBlockHeader -> Z -> list byte -> S -> option S)
    (blocks : list (PL_DataBlockHeader * list Z)) (stray : list byte)
    (fp : FILE) (buf : list byte) (s : S) :
  Forall whole_block blocks -> (length stray < 16)%nat ->
  feof fp = false ->
  remaining fp = blocks_bytes blocks ++ stray ->
  scan body fp buf s =
  match run body blocks buf s with
  | Some (s', buf') =>
      Finished s'
        (mkFILE (contents fp) (position fp + length (remaining fp)) true)
        buf'
  | None => Undefined
  end.
Proof.
  intros Hall Hstray Heof Hr.
  exact (scan_on_blocks body blocks stray Hall Hstray fp buf s Heof Hr).
Qed.

Lemma scan_visits_blocks_witness :
  scan (sample1_body example_header 1 1)
       (fopen (blocks_bytes example_session ++ [x01])) example_buf
       (mkCounting 1 []) =
  match run (sample1_body example_header 1 1) example_session example_buf
            (mkCounting 1 []) with
  | Some (s', buf') =>
      Finished s'
        (mkFILE (blocks_bytes example_session ++ [x01])
           (0 + length (remaining
                          (fopen (blocks_bytes example_session ++ [x01]))))
           true)
        buf'
  | None => Undefined
  end.
Proof.
  apply (scan_visits_blocks (sample1_body example_header 1 1)
           example_session [x01]
           (fopen (blocks_bytes example_session ++ [x01])) example_buf
           (mkCounting 1 [])).
  - whole_blocks.
  - simpl; lia.
  - reflexivity.
  - reflexivity.
Defined.

(** ** The exits of [main] and files without blocks *)

(** X19.  The exits of [main].  When [test1.plx] cannot be opened, [main]
    prints the message of that and exits, and nothing else is printed.  A
    comment of the file header without a NUL makes the banner, and with
    it [main], undefined.  When SAMPLE 4 exits, [main] has printed the
    banner and the three listings of channel 1 before: on a file of whole
    blocks the output is the banner, then behind their headings the
    timestamps of the spikes, the spikes with their waveforms and the
    events, then the heading of the continuous data and the message of
    the exit, which is the one of the missing header when the lookup
    finds none and the one of the missing frequency or gain when the
    header found has a 0 in either. *)
Theorem main_exits_after_listings h fh t banner slowheaders tables blocks
    stray buf0 :
  printheaderinfo fh t = Some banner ->
  object_sizes h -> declared_counts fh ->
  Z.of_nat (length tables) = dataStartOffset_spec h fh ->
  Forall whole_block blocks -> (length stray < 16)%nat ->
  main h fh t slowheaders None buf0 = Exit1 [CannotOpen]
  /\ (forall t' file, printheaderinfo fh t' = None ->
      main h fh t' slowheaders (Some file) buf0 = Fault)
  /\ (find_slow_header fh slowheaders 0 = Missing ->
      main h fh t slowheaders (Some (tables ++ blocks_bytes blocks ++ stray))
        buf0 =
      Exit1 (three_listings fh banner blocks ++ [Data NoHeader]))
  /\ (forall sh, find_slow_header fh slowheaders 0 = Found sh ->
      Slow.ADFreq sh = 0 \/ Slow.Gain sh = 0 ->
      main h fh t slowheaders (Some (tables ++ blocks_bytes blocks ++ stray))
        buf0 =
      Exit1 (three_listings fh banner blocks ++ [Data NoFreqOrGain])).
Proof.
  intros Hbanner Hsz Hcnt Hlen Hall Hstray.
  split; [reflexivity|]. split.
  { intros t' file Hnone. unfold main. rewrite Hnone. reflexivity. }
  destruct (main_three_listings h fh t banner slowheaders tables blocks stray
              buf0 Hbanner Hsz Hcnt Hlen Hall Hstray)
    as (fp3 & buf3 & Hmain & _ & _).
  rewrite Hmain. unfold sample4. split.
  - intros ->. reflexivity.
  - intros sh -> Hzero.
    assert (Hz : (Slow.ADFreq sh =? 0) || (Slow.Gain sh =? 0) = true).
    { apply orb_true_iff. destruct Hzero as [H|H]; [left|right];
        apply Z.eqb_eq, H. }
    rewrite Hz. reflexivity.
Qed.

Lemma main_exits_after_listings_witness :
  exists banner,
    printheaderinfo zero_header zero_tables = Some banner /\
    main example_layout zero_header zero_tables memset_slowheaders
      (Some (zero_header_file ++ blocks_bytes example_session ++ [x01]))
      example_buf =
    Exit1 (three_listings zero_header banner example_session ++
           [Data NoHeader]).
Proof.
  destruct (printheaderinfo zero_header zero_tables)
    as [banner|] eqn:Hbanner; [|vm_compute in Hbanner; discriminate Hbanner].
  exists banner. split; [reflexivity|].
  apply (proj1 (proj2 (proj2
           (main_exits_after_listings example_layout zero_header zero_tables
              banner memset_slowheaders zero_header_file example_session
              [x01] example_buf Hbanner
              ltac:(vm_compute; repeat split; congruence)
              ltac:(vm_compute; repeat split; congruence)
              eq_refl ltac:(whole_blocks) ltac:(simpl; lia))))).
  reflexivity.
Defined.

Lemma fread_reaches size fp :
  0 <= size -> (position fp <= length (contents fp))%nat ->
  contents (snd (fread size fp)) = contents fp /\
  position (snd (fread size fp)) =
    Nat.min (position fp + Z.to_nat size) (length (contents fp)) /\
  Z.of_nat (length (fst (fst (fread size fp)))) <= size.
Proof.
  intros Hs Hp. unfold fread. cbn [fst snd contents position].
  rewrite length_firstn. pose proof (remaining_length fp) as Hl.
  destruct (size <? Z.of_nat (length (remaining fp))) eqn:E;
    [apply Z.ltb_lt in E | apply Z.ltb_ge in E];
    (split; [reflexivity|split; lia]).
Qed.

Lemma read_table_reaches count elem capacity fp :
  0 < count <= capacity -> 0 < elem -> capacity * elem < 2 ^ 32 ->
  (position fp <= length (contents fp))%nat ->
  exists e,
    read_table count elem capacity fp =
    Some (mkFILE (contents fp)
            (Nat.min (position fp + Z.to_nat (count * elem))
                     (length (contents fp))) e).
Proof.
  intros Hc He Hcap Hp. unfold read_table.
  assert (P32 : 2 ^ 32 = 4294967296) by reflexivity.
  rewrite (size_t_small count) by nia.
  rewrite (size_t_small (count * elem)) by nia.
  destruct (fread_reaches (count * elem) fp ltac:(nia) Hp) as (Hc' & Hp' & Hg).
  destruct (fread (count * elem) fp) as [[got items] fp'].
  cbn [fst snd] in Hc', Hp', Hg.
  replace (Z.of_nat (length got) <=? capacity * elem) with true
    by (symmetry; apply Z.leb_le; nia).
  destruct fp' as [c p e]. cbn [contents position] in Hc', Hp'. subst c p.
  exists e. reflexivity.
Qed.

Lemma read_headers_reaches h fh file :
  object_sizes h -> declared_counts fh ->
  exists e,
    read_headers h fh (fopen file) =
    Some (mkFILE file
            (Nat.min (Z.to_nat (dataStartOffset_spec h fh)) (length file))
            e).
Proof.
  intros (Hfh & Hch & Hev & Hsl & Hmax) (Hd & He & Hs).
  unfold CInt.INT_MAX in Hmax.
  assert (P32 : 2 ^ 32 = 4294967296) by reflexivity.
  unfold dataStartOffset_spec, read_headers.
  destruct (fread_reaches (sizeof_PL_FileHeader h) (fopen file)
              ltac:(lia) ltac:(cbn; lia)) as (Hc0 & Hp0 & _).
  destruct (fread (sizeof_PL_FileHeader h) (fopen file)) as [[g0 i0] fp0].
  cbn [fst snd] in Hc0, Hp0. cbn [fopen contents position] in Hc0, Hp0.
  destruct fp0 as [c0 p0 e0]. cbn [contents position] in Hc0, Hp0. subst c0.
  assert (Step1 : exists e1,
    (if 0 <? NumDSPChannels fh
     then read_table (NumDSPChannels fh) (sizeof_PL_ChanHeader h) 128
            (mkFILE file p0 e0)
     else Some (mkFILE file p0 e0)) =
    Some (mkFILE file
            (Nat.min (Z.to_nat (sizeof_PL_FileHeader h +
                        NumDSPChannels fh * sizeof_PL_ChanHeader h))
                     (length file)) e1)).
  { destruct (0 <? NumDSPChannels fh) eqn:E;
      [apply Z.ltb_lt in E | apply Z.ltb_ge in E].
    - destruct (read_table_reaches (NumDSPChannels fh)
                  (sizeof_PL_ChanHeader h) 128 (mkFILE file p0 e0))
        as [e1 H1]; try lia; [cbn [contents position]; lia|].
      exists e1. rewrite H1. cbn [contents position]. f_equal. f_equal. nia.
    - exists e0. f_equal. f_equal. nia. }
  destruct Step1 as [e1 ->].
  set (p1 := Nat.min _ _).
  assert (Step2 : exists e2,
    (if 0 <? NumEventChannels fh
     then read_table (NumEventChannels fh) (sizeof_PL_EventHeader h) 512
            (mkFILE file p1 e1)
     else Some (mkFILE file p1 e1)) =
    Some (mkFILE file
            (Nat.min (Z.to_nat (sizeof_PL_FileHeader h +
                        NumDSPChannels fh * sizeof_PL_ChanHeader h +
                        NumEventChannels fh * sizeof_PL_EventHeader h))
                     (length file)) e2)).
  { destruct (0 <? NumEventChannels fh) eqn:E;
      [apply Z.ltb_lt in E | apply Z.ltb_ge in E].
    - destruct (read_table_reaches (NumEventChannels fh)
                  (sizeof_PL_EventHeader h) 512 (mkFILE file p1 e1))
        as [e2 H2]; try lia; [cbn [contents position]; unfold p1; lia|].
      exists e2. rewrite H2. cbn [contents position]. f_equal. f_equal.
      unfold p1. nia.
    - exists e1. f_equal. f_equal. unfold p1. nia. }
  destruct Step2 as [e2 ->].
  set (p2 := Nat.min _ _).
  destruct (NumSlowChannels fh =? 0) eqn:E;
    [apply Z.eqb_eq in E | apply Z.eqb_neq in E].
  - exists e2. f_equal. f_equal. unfold p2. nia.
  - destruct (read_table_reaches (NumSlowChannels fh)
                (sizeof_PL_SlowChannelHeader h) 64 (mkFILE file p2 e2))
      as [e3 H3]; try lia; [cbn [contents position]; unfold p2; lia|].
    exists e3. rewrite H3. cbn [contents position]. f_equal. f_equal.
    unfold p2. nia.
Qed.

Lemma scan_nothing {S : Type}
    (body : PL_DataBlockHeader -> Z -> list byte -> S -> option S)
    fp buf s :
  remaining fp = [] ->
  exists fp', scan body fp buf s = Finished s fp' buf /\
              contents fp' = contents fp.
Proof.
  intros Hr. rewrite scan_round. unfold fetch.
  destruct (feof fp); [exists fp; split; reflexivity|].
  rewrite fread_short by (rewrite Hr; unfold sizeof_db; cbn; lia).
  cbn [Z.eqb]. eexists. split; reflexivity.
Qed.

Lemma lookup_after_memset fh :
  0 <= NumSlowChannels fh <= 64 ->
  find_slow_header fh memset_slowheaders 0 =
  if 0 <? NumSlowChannels fh then Found (Slow.mk 0 0 0) else Missing.
Proof.
  intros Hn. unfold find_slow_header, memset_slowheaders.
  rewrite repeat_length.
  replace (NumSlowChannels fh <=? Z.of_nat 64) with true
    by (symmetry; apply Z.leb_le; lia).
  destruct (0 <? NumSlowChannels fh) eqn:E;
    [apply Z.ltb_lt in E | apply Z.ltb_ge in E].
  - destruct (Z.to_nat (NumSlowChannels fh)) as [|n] eqn:En; [lia|].
    change (repeat (Slow.mk 0 0 0) 64)
      with (Slow.mk 0 0 0 :: repeat (Slow.mk 0 0 0) 63).
    reflexivity.
  - replace (Z.to_nat (NumSlowChannels fh)) with 0%nat by lia.
    reflexivity.
Qed.

(** X20.  [main] looks at the result of none of the reads of the channel
    tables.  On a file that opens, holds the file header (the comment
    with its NUL, counts within the arrays) and ends within the tables or
    right behind them, no read runs past an array, the four loops find no
    block, and [main] prints the banner, the four headings and no record;
    how it ends is decided by the header lookup of SAMPLE 4 alone.  When
    the file ends before the table of the slow channel headers, the array
    [slowheaders] is as [memset] left it and [main] can only exit: with
    the message of the missing frequency or gain when the header declares
    a slow channel, with the one of the missing header when it declares
    none. *)
Theorem main_on_short_file h fh t banner slowheaders file buf0 :
  printheaderinfo fh t = Some banner ->
  object_sizes h -> declared_counts fh ->
  sizeof_PL_FileHeader h <= Z.of_nat (length file) ->
  Z.of_nat (length file) <= dataStartOffset_spec h fh ->
  main h fh t slowheaders (Some file) buf0 =
    match find_slow_header fh slowheaders 0 with
    | Found sh =>
        if (Slow.ADFreq sh =? 0) || (Slow.Gain sh =? 0)
        then Exit1 (three_listings fh banner [] ++ [Data NoFreqOrGain])
        else Ended (three_listings fh banner [])
    | Missing => Exit1 (three_listings fh banner [] ++ [Data NoHeader])
    | Outside => Fault
    end
  /\ (Z.of_nat (length file) <=
        dataStartOffset_spec h fh -
        NumSlowChannels fh * sizeof_PL_SlowChannelHeader h ->
      main h fh t memset_slowheaders (Some file) buf0 =
      Exit1 (three_listings fh banner [] ++
             [Data (if 0 <? NumSlowChannels fh
                    then NoFreqOrGain else NoHeader)])).
Proof.
  intros Hbanner Hsz Hcnt Hfh Hlen.
  assert (Hmain : forall slow,
    main h fh t slow (Some file) buf0 =
    match find_slow_header fh slow 0 with
    | Found sh =>
        if (Slow.ADFreq sh =? 0) || (Slow.Gain sh =? 0)
        then Exit1 (three_listings fh banner [] ++ [Data NoFreqOrGain])
        else Ended (three_listings fh banner [])
    | Missing => Exit1 (three_listings fh banner [] ++ [Data NoHeader])
    | Outside => Fault
    end).
  { intros slow.
    destruct (read_headers_reaches h fh file Hsz Hcnt) as [e Hread].
    assert (Hd : datastart h fh = dataStartOffset_spec h fh).
    { apply datastart_formula.
      destruct Hsz as (Hs0 & Hch & Hev & Hsl & Hmax).
      destruct Hcnt as (Hd & He & Hs).
      unfold dataStartOffset_spec, CInt.in_int, CInt.INT_MIN,
        CInt.INT_MAX in *.
      nia. }
    assert (Hrew : forall fp, contents fp = file ->
              remaining (fseek fp (datastart h fh)) = [] /\
              contents (fseek fp (datastart h fh)) = file).
    { intros fp Hc. unfold fseek.
      replace (datastart h fh <? 0) with false
        by (symmetry; apply Z.ltb_ge; lia).
      split; [|exact Hc]. unfold remaining. cbn [contents position].
      rewrite Hc. apply skipn_all2. lia. }
    unfold main. rewrite Hbanner, Hread.
    unfold sample1, sample2, sample3.
    destruct (scan_nothing (sample1_body fh 1 1)
                (mkFILE file (Nat.min (Z.to_nat (dataStartOffset_spec h fh))
                                      (length file)) e)
                buf0 {| count := 1; printed := [] |})
      as (fp1 & -> & Hc1).
    { unfold remaining. cbn [contents position]. apply skipn_all2. lia. }
    cbn [contents] in Hc1.
    destruct (Hrew fp1 Hc1) as (Hr2 & Hc2).
    destruct (scan_nothing (sample2_body fh 1 1) _ buf0
                {| count := 1; printed := [] |} Hr2) as (fp2 & -> & Hc2').
    rewrite Hc2 in Hc2'.
    destruct (Hrew fp2 Hc2') as (Hr3 & Hc3).
    destruct (scan_nothing (sample3_body fh 1) _ buf0
                {| count := 1; printed := [] |} Hr3) as (fp3 & -> & Hc3').
    rewrite Hc3 in Hc3'.
    destruct (Hrew fp3 Hc3') as (Hr4 & Hc4).
    cbn [printed map]. unfold sample4.
    destruct (find_slow_header fh slow 0) as [sh| |];
      [|reflexivity|reflexivity].
    destruct ((Slow.ADFreq sh =? 0) || (Slow.Gain sh =? 0));
      [reflexivity|].
    destruct (scan_nothing
                (sample4_body fh 0 (Slow.Gain sh)
                   (CInt.div (ADFrequency fh) (Slow.ADFreq sh)))
                _ buf0 {| ad_count := 1; first_timestamp := -1;
                          ad_printed := [] |} Hr4) as (fp4 & -> & _).
    cbn [append ad_printed map]. rewrite app_nil_r. reflexivity. }
  split; [apply Hmain|].
  intros _. rewrite Hmain, lookup_after_memset by apply Hcnt.
  destruct (0 <? NumSlowChannels fh); reflexivity.
Qed.

Lemma main_on_short_file_witness :
  exists banner,
    printheaderinfo zero_header zero_tables = Some banner /\
    main example_layout zero_header zero_tables memset_slowheaders
      (Some zero_header_file) example_buf =
    Exit1 (three_listings zero_header banner [] ++ [Data NoHeader]).
Proof.
  destruct (printheaderinfo zero_header zero_tables)
    as [banner|] eqn:Hbanner; [|vm_compute in Hbanner; discriminate Hbanner].
  exists banner. split; [reflexivity|].
  apply (proj2 (main_on_short_file example_layout zero_header zero_tables
                  banner memset_slowheaders zero_header_file example_buf
                  Hbanner
                  ltac:(vm_compute; repeat split; congruence)
                  ltac:(vm_compute; repeat split; congruence)
                  ltac:(vm_compute; congruence)
                  ltac:(vm_compute; congruence))).
  vm_compute. congruence.
Defined.

